(** * North Star House check-in dashboard: registry, storage and statistics

    A shallow embedding of the server side of the dashboard:
    - [shared/schema.ts]: the three record kinds and the insert schemas
      derived from the table definitions;
    - [server/storage.ts], whose text follows the notes of [replit.md] in
      the sources: the interface [IStorage] and the in-memory storage class
      [MemStorage];
    - [server/routes.ts]: the request handlers that validate a body, call
      the storage and build the statistics.

    Conventions of the embedding.
    - A JavaScript [string] is a [String.string]; comparison of strings is
      the comparison of their sequences of code units.
    - A value of type [T | null] is an [option T], [None] standing for
      [null]; a property of an insert type, [T | null | undefined], is an
      [optional T].
    - A JavaScript number that holds an identity or a number of milliseconds
      is an integer of [Z]: such numbers are exact below 2^53, which a
      counter that starts at 1 and grows by one per creation stays under.
      A number that takes part in the arithmetic of the hours is a
      [number]: a double, that is a floating-point number of IEEE 754
      binary64 with its [NaN], its infinities and its two zeros, every
      operation rounding to nearest, ties to even.
    - A [Map<number, V>] is the list of its entries in insertion order,
      which is the order in which a [Map] is iterated.
    - A promise that may reject and a function that may throw return an
      [outcome]. *)

From Stdlib Require Import ZArith QArith Qround Qminmax Qabs Lqa SpecFloat.
From Stdlib Require Import List String Ascii Bool Lia.
From Stdlib Require Import Sorted Permutation.
Import ListNotations.

(* ================================================================= *)
(** * The JavaScript values the program uses *)

Module JS.

(** A property of type [T | null | undefined]. *)
Inductive optional (A : Type) : Type :=
| undefined : optional A
| null : optional A
| value : A -> optional A.
Arguments undefined {A}.
Arguments null {A}.
Arguments value {A} _.

(** Truthiness, as tested by [&&], [||] and [if]. *)
Class Truthy (A : Type) : Type := truthy : A -> bool.

#[export] Instance Truthy_string : Truthy string :=
  fun s => match s with EmptyString => false | String _ _ => true end.

#[export] Instance Truthy_bool : Truthy bool := fun b => b.

#[export] Instance Truthy_option {A} `{Truthy A} : Truthy (option A) :=
  fun o => match o with None => false | Some a => truthy a end.

#[export] Instance Truthy_optional {A} `{Truthy A} : Truthy (optional A) :=
  fun o => match o with value a => truthy a | _ => false end.

(** [x || null], at the type [T | null] of a stored column. *)
Definition or_null {A} `{Truthy A} (x : optional A) : option A :=
  match x with
  | value a => if truthy a then Some a else None
  | _ => None
  end.

(** Numbers: the doubles, as the floats of precision 53 whose exponents
    stay below 1024. *)
Definition prec : Z := 53.

Definition emax : Z := 1024.

Definition number : Type := spec_float.

Definition NaN : number := S754_nan.

(** The double of an integer, the nearest one when the integer is none. *)
Definition of_int (z : Z) : number := binary_normalize prec emax z 0 false.

Definition add (x y : number) : number := SFadd prec emax x y.

Definition sub (x y : number) : number := SFsub prec emax x y.

Definition div (x y : number) : number := SFdiv prec emax x y.

(** [Math.max(x, y)]: [NaN] as soon as one argument is [NaN], and [+0]
    above [-0]. *)
Definition Math_max (x y : number) : number :=
  match x, y with
  | S754_nan, _ | _, S754_nan => S754_nan
  | _, _ =>
      match SFcompare x y with
      | Some Lt => y
      | Some Gt => x
      | _ => match x with S754_zero true => y | _ => x end
      end
  end.

(** [Math.round(x)]: the integer nearest to [x], a tie going up, as a
    double; [NaN], the infinities and the zeros are kept, and a negative
    [x] that rounds to zero gives [-0]. The integer is [floor(x + 1/2)]
    taken on the exact value [(-1)^s * m * 2^e] of the double. *)
Definition Math_round (x : number) : number :=
  match x with
  | S754_finite s m e =>
      let n := cond_Zopp s (Zpos m) in
      let z := if Z.leb 0 e then Z.mul n (Z.pow 2 e)
               else Z.div (Z.add (Z.mul 2 n) (Z.pow 2 (Z.opp e)))
                          (Z.pow 2 (Z.sub 1 e)) in
      if Z.eqb z 0 then S754_zero s else of_int z
  | _ => x
  end.

(** What a function call or an awaited promise gives. *)
Inductive outcome (E A : Type) : Type :=
| Return : A -> outcome E A
| Throw : E -> outcome E A.
Arguments Return {E A} _.
Arguments Throw {E A} _.

Definition bind {E A B} (m : outcome E A) (k : A -> outcome E B)
  : outcome E B :=
  match m with
  | Return a => k a
  | Throw e => Throw e
  end.

(** [Array.from(new Set(xs))]: the elements of [xs], each one at the
    place of its first occurrence. *)
Section SetOf.
Context {A : Type} (eqb : A -> A -> bool).

Definition Set_add (seen : list A) (x : A) : list A :=
  if existsb (eqb x) seen then seen else seen ++ [x].

Definition Set_from (xs : list A) : list A :=
  fold_left Set_add xs [].
End SetOf.

(** [Array.prototype.sort] with a comparison [leb]. The language fixes the
    result, a sorted arrangement of the elements that keeps equal elements
    in their order, and not the algorithm; an insertion sort stands for
    it. *)
Section Sort.
Context {A : Type} (leb : A -> A -> bool).

Fixpoint sort_insert (x : A) (l : list A) : list A :=
  match l with
  | [] => [x]
  | y :: l' => if leb x y then x :: l else y :: sort_insert x l'
  end.

Definition sort (l : list A) : list A :=
  fold_right sort_insert [] l.
End Sort.

(** [Map<number, V>]: the entries in insertion order. *)
Module Map.
Section Entries.
Context {V : Type}.

Definition t : Type := list (Z * V).

Definition empty : t := [].

Fixpoint get (k : Z) (m : t) : option V :=
  match m with
  | [] => None
  | (k', v) :: m' => if Z.eqb k k' then Some v else get k m'
  end.

Definition has (k : Z) (m : t) : bool :=
  match get k m with Some _ => true | None => false end.

(** [m.set(k, v)]: a key already in the map keeps its place. *)
Fixpoint set (k : Z) (v : V) (m : t) : t :=
  match m with
  | [] => [(k, v)]
  | (k', v') :: m' =>
      if Z.eqb k k' then (k, v) :: m' else (k', v') :: set k v m'
  end.

Definition remove (k : Z) (m : t) : t :=
  filter (fun e => negb (Z.eqb k (fst e))) m.

(** [m.delete(k)]: whether the key was there, and the map without
    it. *)
Definition delete (k : Z) (m : t) : bool * t := (has k m, remove k m).

Definition keys (m : t) : list Z := map fst m.

Definition values (m : t) : list V := map snd m.

(** The keys of a [Map] are pairwise distinct. *)
Definition wf (m : t) : Prop := NoDup (keys m).
End Entries.
Arguments t : clear implicits.
End Map.

End JS.
Export JS.

(* ================================================================= *)
(** * shared/schema.ts *)

(** ** The rows of the three tables *)

Module Volunteer.
Record t : Type := {
  id : Z;
  name : string;
  date : string;
  timeIn : string;
  timeOut : option string;
  area : string;
  activities : string
}.
End Volunteer.

Module Guest.
Record t : Type := {
  id : Z;
  name : string;
  email : string;
  phone : option string;
  reason : string;
  joinNewsletter : option bool;
  brideName : option string;
  groomName : option string;
  tourGuide : option string;
  date : string
}.
End Guest.

Module Staff.
Record t : Type := {
  id : Z;
  name : string;
  date : string;
  timeIn : option string;
  timeOut : option string;
  notes : option string
}.
End Staff.

(** ** The values accepted for insertion: a row without its [id], a column
    that is nullable or has a default being optional *)

Module InsertVolunteer.
Record t : Type := {
  name : string;
  date : string;
  timeIn : string;
  timeOut : optional string;
  area : string;
  activities : string
}.
End InsertVolunteer.

Module InsertGuest.
Record t : Type := {
  name : string;
  email : string;
  phone : optional string;
  reason : string;
  joinNewsletter : optional bool;
  brideName : optional string;
  groomName : optional string;
  tourGuide : optional string;
  date : string
}.
End InsertGuest.

Module InsertStaff.
Record t : Type := {
  name : string;
  date : string;
  timeIn : optional string;
  timeOut : optional string;
  notes : optional string
}.
End InsertStaff.

(** ** Table definitions and the schemas derived from them *)

Module Schema.
Local Open Scope string_scope.

(** A parsed request body. *)
#[local] Unset Elimination Schemes.
Inductive json : Type :=
| JNull : json
| JBool : bool -> json
| JNumber : Z -> json
| JString : string -> json
| JArray : list json -> json
| JObject : list (string * json) -> json.
#[local] Set Elimination Schemes.

(** [o[key]], [None] standing for [undefined]. *)
Fixpoint obj_get (key : string) (o : list (string * json)) : option json :=
  match o with
  | [] => None
  | (k, v) :: o' => if String.eqb key k then Some v else obj_get key o'
  end.

Inductive dataType : Type := serial | text | boolean.

(** A column of [pgTable]: its property name, its type, and whether
    [.notNull()], [.primaryKey()] or [.default(_)] was applied. *)
Record column : Type := {
  key : string;
  data : dataType;
  notNull : bool;
  hasDefault : bool
}.

Definition volunteers : list column := [
  {| key := "id"; data := serial; notNull := true; hasDefault := true |};
  {| key := "name"; data := text; notNull := true; hasDefault := false |};
  {| key := "date"; data := text; notNull := true; hasDefault := false |};
  {| key := "timeIn"; data := text; notNull := true; hasDefault := false |};
  {| key := "timeOut"; data := text; notNull := false; hasDefault := false |};
  {| key := "area"; data := text; notNull := true; hasDefault := false |};
  {| key := "activities"; data := text; notNull := true;
     hasDefault := false |} ].

Definition guests : list column := [
  {| key := "id"; data := serial; notNull := true; hasDefault := true |};
  {| key := "name"; data := text; notNull := true; hasDefault := false |};
  {| key := "email"; data := text; notNull := true; hasDefault := false |};
  {| key := "phone"; data := text; notNull := false; hasDefault := false |};
  {| key := "reason"; data := text; notNull := true; hasDefault := false |};
  {| key := "joinNewsletter"; data := boolean; notNull := false;
     hasDefault := true |};
  {| key := "brideName"; data := text; notNull := false;
     hasDefault := false |};
  {| key := "groomName"; data := text; notNull := false;
     hasDefault := false |};
  {| key := "tourGuide"; data := text; notNull := false;
     hasDefault := false |};
  {| key := "date"; data := text; notNull := true; hasDefault := false |} ].

Definition staff : list column := [
  {| key := "id"; data := serial; notNull := true; hasDefault := true |};
  {| key := "name"; data := text; notNull := true; hasDefault := false |};
  {| key := "date"; data := text; notNull := true; hasDefault := false |};
  {| key := "timeIn"; data := text; notNull := false; hasDefault := false |};
  {| key := "timeOut"; data := text; notNull := false; hasDefault := false |};
  {| key := "notes"; data := text; notNull := false; hasDefault := false |} ].

(** An issue of a [ZodError]. *)
Record ZodIssue : Type := {
  code : string;
  expected : string;
  received : string;
  path : list string;
  message : string
}.

(** The type of a value as an issue names it. *)
Definition parsedType (v : option json) : string :=
  match v with
  | None => "undefined"
  | Some JNull => "null"
  | Some (JBool _) => "boolean"
  | Some (JNumber _) => "number"
  | Some (JString _) => "string"
  | Some (JArray _) => "array"
  | Some (JObject _) => "object"
  end.

Definition typeName (d : dataType) : string :=
  match d with
  | serial => "number"
  | text => "string"
  | boolean => "boolean"
  end.

Definition invalid_type (exp : string) (v : option json) (p : list string)
  : ZodIssue :=
  {| code := "invalid_type";
     expected := exp;
     received := parsedType v;
     path := p;
     message :=
       match v with
       | None => "Required"
       | Some _ => "Expected " ++ exp ++ ", received " ++ parsedType v
       end |}.

(** A field of a schema made by [createInsertSchema]: a column of the
    table, required when it is [notNull] and has no default, and taking
    [null] when it is not [notNull]. *)
Definition createInsertSchema (table : list column) : list column := table.

Definition omit (keys : list string) (schema : list column) : list column :=
  filter (fun c => negb (existsb (String.eqb (key c)) keys)) schema.

Definition has_type (d : dataType) (v : json) : bool :=
  match d, v with
  | serial, JNumber _ => true
  | text, JString _ => true
  | boolean, JBool _ => true
  | _, _ => false
  end.

Definition field_issues (c : column) (v : option json) : list ZodIssue :=
  match v with
  | None =>
      if notNull c && negb (hasDefault c)
      then [invalid_type (typeName (data c)) v [key c]] else []
  | Some JNull =>
      if notNull c then [invalid_type (typeName (data c)) v [key c]] else []
  | Some x =>
      if has_type (data c) x then []
      else [invalid_type (typeName (data c)) v [key c]]
  end.

Definition schema_issues (schema : list column) (o : list (string * json))
  : list ZodIssue :=
  flat_map (fun c => field_issues c (obj_get (key c) o)) schema.

(** The parsed object keeps the properties of the schema and drops the
    others. *)
Definition strip (schema : list column) (o : list (string * json))
  : list (string * json) :=
  flat_map (fun c => match obj_get (key c) o with
                     | Some v => [(key c, v)]
                     | None => []
                     end) schema.

Inductive error : Type :=
| ZodError : list ZodIssue -> error
| Error : string -> error.

(** [schema.parse(body)] *)
Definition parse (schema : list column) (body : json)
  : outcome error (list (string * json)) :=
  match body with
  | JObject o =>
      match schema_issues schema o with
      | [] => Return (strip schema o)
      | issues => Throw (ZodError issues)
      end
  | _ => Throw (ZodError [invalid_type "object" (Some body) []])
  end.

Definition insertVolunteerSchema : list column :=
  omit ["id"] (createInsertSchema volunteers).

Definition insertGuestSchema : list column :=
  omit ["id"] (createInsertSchema guests).

Definition insertStaffSchema : list column :=
  omit ["id"] (createInsertSchema staff).

(** The parsed object read at its inferred type. *)
Definition get_string (k : string) (o : list (string * json)) : string :=
  match obj_get k o with Some (JString s) => s | _ => "" end.

Definition get_optional_string (k : string) (o : list (string * json))
  : optional string :=
  match obj_get k o with
  | Some (JString s) => value s
  | Some _ => null
  | None => undefined
  end.

Definition get_optional_boolean (k : string) (o : list (string * json))
  : optional bool :=
  match obj_get k o with
  | Some (JBool b) => value b
  | Some _ => null
  | None => undefined
  end.

Definition inferInsertVolunteer (o : list (string * json)) : InsertVolunteer.t :=
  {| InsertVolunteer.name := get_string "name" o;
     InsertVolunteer.date := get_string "date" o;
     InsertVolunteer.timeIn := get_string "timeIn" o;
     InsertVolunteer.timeOut := get_optional_string "timeOut" o;
     InsertVolunteer.area := get_string "area" o;
     InsertVolunteer.activities := get_string "activities" o |}.

Definition inferInsertGuest (o : list (string * json)) : InsertGuest.t :=
  {| InsertGuest.name := get_string "name" o;
     InsertGuest.email := get_string "email" o;
     InsertGuest.phone := get_optional_string "phone" o;
     InsertGuest.reason := get_string "reason" o;
     InsertGuest.joinNewsletter := get_optional_boolean "joinNewsletter" o;
     InsertGuest.brideName := get_optional_string "brideName" o;
     InsertGuest.groomName := get_optional_string "groomName" o;
     InsertGuest.tourGuide := get_optional_string "tourGuide" o;
     InsertGuest.date := get_string "date" o |}.

Definition inferInsertStaff (o : list (string * json)) : InsertStaff.t :=
  {| InsertStaff.name := get_string "name" o;
     InsertStaff.date := get_string "date" o;
     InsertStaff.timeIn := get_optional_string "timeIn" o;
     InsertStaff.timeOut := get_optional_string "timeOut" o;
     InsertStaff.notes := get_optional_string "notes" o |}.

End Schema.

(* ================================================================= *)
(** * server/storage.ts *)

(** The literal types ['volunteer' | 'guest' | 'staff']. *)
Module PersonType.
Inductive t : Type := volunteer | guest | staff.
End PersonType.

(** An element of [getAllPeople()]: the properties of a row of one of the
    three tables, and the property [type]. *)
Inductive PersonRow : Type :=
| VolunteerRow : Volunteer.t -> PersonRow
| GuestRow : Guest.t -> PersonRow
| StaffRow : Staff.t -> PersonRow.

Record Person : Type := {
  row : PersonRow;
  type : PersonType.t
}.

(** ** The interface [IStorage], over a store of type [S]. The methods on
    users, which no route calls, are left out. *)

Class IStorage (S : Type) : Type := {
  createVolunteer :
    InsertVolunteer.t -> S -> outcome Schema.error (Volunteer.t * S);
  getVolunteers : S -> outcome Schema.error (list Volunteer.t);
  getVolunteersByCategory :
    string -> S -> outcome Schema.error (list Volunteer.t);
  createGuest : InsertGuest.t -> S -> outcome Schema.error (Guest.t * S);
  getGuests : S -> outcome Schema.error (list Guest.t);
  createStaff : InsertStaff.t -> S -> outcome Schema.error (Staff.t * S);
  getStaff : S -> outcome Schema.error (list Staff.t);
  getAllPeople : S -> outcome Schema.error (list Person);
  deletePerson : PersonType.t -> Z -> S -> outcome Schema.error (bool * S);
  getUniqueVolunteerNames : S -> outcome Schema.error (list string);
  getUniqueStaffNames : S -> outcome Schema.error (list string)
}.

(** ** The class [MemStorage] *)

Module MemStorage.
Local Open Scope Z_scope.

Record t : Type := {
  volunteers : Map.t Volunteer.t;
  guests : Map.t Guest.t;
  staff : Map.t Staff.t;
  currentVolunteerId : Z;
  currentGuestId : Z;
  currentStaffId : Z
}.

Definition constructor : t :=
  {| volunteers := Map.empty;
     guests := Map.empty;
     staff := Map.empty;
     currentVolunteerId := 1;
     currentGuestId := 1;
     currentStaffId := 1 |}.

Definition createVolunteer (insertVolunteer : InsertVolunteer.t) (this : t)
  : Volunteer.t * t :=
  let id := currentVolunteerId this in
  let volunteer :=
    {| Volunteer.id := id;
       Volunteer.name := InsertVolunteer.name insertVolunteer;
       Volunteer.date := InsertVolunteer.date insertVolunteer;
       Volunteer.timeIn := InsertVolunteer.timeIn insertVolunteer;
       Volunteer.timeOut := or_null (InsertVolunteer.timeOut insertVolunteer);
       Volunteer.area := InsertVolunteer.area insertVolunteer;
       Volunteer.activities := InsertVolunteer.activities insertVolunteer |} in
  (volunteer,
   {| volunteers := Map.set id volunteer (volunteers this);
      guests := guests this;
      staff := staff this;
      currentVolunteerId := id + 1;
      currentGuestId := currentGuestId this;
      currentStaffId := currentStaffId this |}).

Definition getVolunteers (this : t) : list Volunteer.t :=
  Map.values (volunteers this).

Definition getVolunteersByCategory (category : string) (this : t)
  : list Volunteer.t :=
  filter (fun volunteer => String.eqb (Volunteer.area volunteer) category)
         (Map.values (volunteers this)).

Definition createGuest (insertGuest : InsertGuest.t) (this : t)
  : Guest.t * t :=
  let id := currentGuestId this in
  let guest :=
    {| Guest.id := id;
       Guest.name := InsertGuest.name insertGuest;
       Guest.email := InsertGuest.email insertGuest;
       Guest.phone := or_null (InsertGuest.phone insertGuest);
       Guest.reason := InsertGuest.reason insertGuest;
       Guest.joinNewsletter := or_null (InsertGuest.joinNewsletter insertGuest);
       Guest.brideName := or_null (InsertGuest.brideName insertGuest);
       Guest.groomName := or_null (InsertGuest.groomName insertGuest);
       Guest.tourGuide := or_null (InsertGuest.tourGuide insertGuest);
       Guest.date := InsertGuest.date insertGuest |} in
  (guest,
   {| volunteers := volunteers this;
      guests := Map.set id guest (guests this);
      staff := staff this;
      currentVolunteerId := currentVolunteerId this;
      currentGuestId := id + 1;
      currentStaffId := currentStaffId this |}).

Definition getGuests (this : t) : list Guest.t :=
  Map.values (guests this).

Definition createStaff (insertStaff : InsertStaff.t) (this : t)
  : Staff.t * t :=
  let id := currentStaffId this in
  let staff' :=
    {| Staff.id := id;
       Staff.name := InsertStaff.name insertStaff;
       Staff.date := InsertStaff.date insertStaff;
       Staff.timeIn := or_null (InsertStaff.timeIn insertStaff);
       Staff.timeOut := or_null (InsertStaff.timeOut insertStaff);
       Staff.notes := or_null (InsertStaff.notes insertStaff) |} in
  (staff',
   {| volunteers := volunteers this;
      guests := guests this;
      staff := Map.set id staff' (staff this);
      currentVolunteerId := currentVolunteerId this;
      currentGuestId := currentGuestId this;
      currentStaffId := id + 1 |}).

Definition getStaff (this : t) : list Staff.t :=
  Map.values (staff this).

(** [allPeople.push(p)] *)
Definition push {A} (l : list A) (x : A) : list A := (l ++ [x])%list.

Definition getAllPeople (this : t) : list Person :=
  let allPeople := [] in
  let allPeople :=
    fold_left (fun acc volunteer =>
                 push acc {| row := VolunteerRow volunteer;
                             type := PersonType.volunteer |})
              (Map.values (volunteers this)) allPeople in
  let allPeople :=
    fold_left (fun acc guest =>
                 push acc {| row := GuestRow guest; type := PersonType.guest |})
              (Map.values (guests this)) allPeople in
  let allPeople :=
    fold_left (fun acc staff =>
                 push acc {| row := StaffRow staff; type := PersonType.staff |})
              (Map.values (staff this)) allPeople in
  allPeople.

Definition deletePerson (type : PersonType.t) (id : Z) (this : t) : bool * t :=
  match type with
  | PersonType.volunteer =>
      let (deleted, m) := Map.delete id (volunteers this) in
      (deleted,
       {| volunteers := m;
          guests := guests this;
          staff := staff this;
          currentVolunteerId := currentVolunteerId this;
          currentGuestId := currentGuestId this;
          currentStaffId := currentStaffId this |})
  | PersonType.guest =>
      let (deleted, m) := Map.delete id (guests this) in
      (deleted,
       {| volunteers := volunteers this;
          guests := m;
          staff := staff this;
          currentVolunteerId := currentVolunteerId this;
          currentGuestId := currentGuestId this;
          currentStaffId := currentStaffId this |})
  | PersonType.staff =>
      let (deleted, m) := Map.delete id (staff this) in
      (deleted,
       {| volunteers := volunteers this;
          guests := guests this;
          staff := m;
          currentVolunteerId := currentVolunteerId this;
          currentGuestId := currentGuestId this;
          currentStaffId := currentStaffId this |})
  end.

Definition getUniqueVolunteerNames (this : t) : list string :=
  let volunteers := Map.values (volunteers this) in
  let uniqueNames := Set_from String.eqb (map Volunteer.name volunteers) in
  sort String.leb uniqueNames.

Definition getUniqueStaffNames (this : t) : list string :=
  let staff := Map.values (staff this) in
  let uniqueNames := Set_from String.eqb (map Staff.name staff) in
  sort String.leb uniqueNames.

End MemStorage.

(** [MemStorage implements IStorage]: no method of it throws. *)
#[export] Instance MemStorage_IStorage : IStorage MemStorage.t := {|
  createVolunteer := fun i this => Return (MemStorage.createVolunteer i this);
  getVolunteers := fun this => Return (MemStorage.getVolunteers this);
  getVolunteersByCategory :=
    fun c this => Return (MemStorage.getVolunteersByCategory c this);
  createGuest := fun i this => Return (MemStorage.createGuest i this);
  getGuests := fun this => Return (MemStorage.getGuests this);
  createStaff := fun i this => Return (MemStorage.createStaff i this);
  getStaff := fun this => Return (MemStorage.getStaff this);
  getAllPeople := fun this => Return (MemStorage.getAllPeople this);
  deletePerson := fun k id this => Return (MemStorage.deletePerson k id this);
  getUniqueVolunteerNames :=
    fun this => Return (MemStorage.getUniqueVolunteerNames this);
  getUniqueStaffNames :=
    fun this => Return (MemStorage.getUniqueStaffNames this)
|}.

(** ** Sequences of calls on one [MemStorage] *)

Inductive call : Type :=
| CreateVolunteer : InsertVolunteer.t -> call
| CreateGuest : InsertGuest.t -> call
| CreateStaff : InsertStaff.t -> call
| DeletePerson : PersonType.t -> Z -> call.

(** What a call answered: the kind and identity of the record created, or
    the kind and identity asked for and whether a record was removed. *)
Inductive answer : Type :=
| Created : PersonType.t -> Z -> answer
| Deleted : PersonType.t -> Z -> bool -> answer.

Definition step (c : call) (this : MemStorage.t) : answer * MemStorage.t :=
  match c with
  | CreateVolunteer i =>
      let (v, this') := MemStorage.createVolunteer i this in
      (Created PersonType.volunteer (Volunteer.id v), this')
  | CreateGuest i =>
      let (g, this') := MemStorage.createGuest i this in
      (Created PersonType.guest (Guest.id g), this')
  | CreateStaff i =>
      let (s, this') := MemStorage.createStaff i this in
      (Created PersonType.staff (Staff.id s), this')
  | DeletePerson k id =>
      let (deleted, this') := MemStorage.deletePerson k id this in
      (Deleted k id deleted, this')
  end.

Fixpoint run (cs : list call) (this : MemStorage.t)
  : list answer * MemStorage.t :=
  match cs with
  | [] => ([], this)
  | c :: cs' =>
      let (a, this') := step c this in
      let (l, this'') := run cs' this' in
      (a :: l, this'')
  end.

Definition PersonType_eqb (a b : PersonType.t) : bool :=
  match a, b with
  | PersonType.volunteer, PersonType.volunteer => true
  | PersonType.guest, PersonType.guest => true
  | PersonType.staff, PersonType.staff => true
  | _, _ => false
  end.

(** The identities created in kind [k], in the order of their creation. *)
Fixpoint created (k : PersonType.t) (l : list answer) : list Z :=
  match l with
  | [] => []
  | Created k' id :: l' =>
      if PersonType_eqb k k' then id :: created k l' else created k l'
  | Deleted _ _ _ :: l' => created k l'
  end.

(* ================================================================= *)
(** * The runtime's [Date] *)

(** [new Date(s).getTime()] belongs to the runtime, not to the repository.
    [Date_parse] reads the strings that the statistics handler builds from
    a clock time as the client writes it with [toLocaleTimeString()] in the
    en-US locale: the reference date, a space, then [h:mm:ss AM],
    [h:mm:ss PM] or [h:mm:ss]. For a string of these forms it gives the
    milliseconds from the epoch to that time of day on 1 January 2024. It
    is a partial model: it gives [None] for every other string, which is
    the answer of the runtime, an invalid date, when the clock time is a
    word that is no time, and is not for the other forms that the runtime
    reads too, such as a time without seconds. The statements below apply
    it to strings of the three forms and to one whose time is such a word;
    the statements on every string take the parser as a parameter. *)

Module DateModel.
Local Open Scope string_scope.
Local Open Scope Z_scope.

Definition digit (c : ascii) : option Z :=
  let n := Z.of_N (N_of_ascii c) in
  if (48 <=? n) && (n <=? 57) then Some (n - 48) else None.

Definition two_digits (a b : ascii) : option Z :=
  match digit a, digit b with
  | Some x, Some y => Some (10 * x + y)
  | _, _ => None
  end.

Definition hour_of (s : string) : option (Z * string) :=
  match s with
  | String a (String ":" r) => option_map (fun h => (h, r)) (digit a)
  | String a (String b (String ":" r)) =>
      option_map (fun h => (h, r)) (two_digits a b)
  | _ => None
  end.

Definition minute_second_of (s : string) : option (Z * Z * string) :=
  match s with
  | String a (String b (String ":" (String c (String d r)))) =>
      match two_digits a b, two_digits c d with
      | Some m, Some sec =>
          if (m <=? 59) && (sec <=? 59) then Some (m, sec, r) else None
      | _, _ => None
      end
  | _ => None
  end.

Definition hour24 (h : Z) (suffix : string) : option Z :=
  if String.eqb suffix "" then
    if h <=? 23 then Some h else None
  else if (1 <=? h) && (h <=? 12) then
    if String.eqb suffix " AM" then Some (h mod 12)
    else if String.eqb suffix " PM" then Some (h mod 12 + 12)
    else None
  else None.

(** The milliseconds from midnight to a clock time. *)
Definition timeOfDay (s : string) : option Z :=
  match hour_of s with
  | Some (h, r) =>
      match minute_second_of r with
      | Some (m, sec, suffix) =>
          option_map (fun h' => ((h' * 60 + m) * 60 + sec) * 1000)
                     (hour24 h suffix)
      | None => None
      end
  | None => None
  end.

Fixpoint strip_prefix (p s : string) : option string :=
  match p, s with
  | EmptyString, _ => Some s
  | String a p', String b s' =>
      if Ascii.eqb a b then strip_prefix p' s' else None
  | String _ _, EmptyString => None
  end.

(** Midnight of 1 January 2024, in milliseconds from the epoch. *)
Definition referenceMidnight : Z := 1704067200000.

Definition Date_parse (s : string) : option Z :=
  match strip_prefix "2024-01-01 " s with
  | Some r => option_map (Z.add referenceMidnight) (timeOfDay r)
  | None => None
  end.

End DateModel.

(* ================================================================= *)
(** * server/routes.ts *)

(** The body of the answer to [GET /api/stats]. *)
Module Stats.
Record t : Type := {
  volunteers : nat;
  guests : nat;
  hours : number
}.
End Stats.

(** What a handler sends: [res.json(a)], or
    [res.status(code).json({ message, errors })]. *)
Inductive response (A : Type) : Type :=
| res_json : A -> response A
| res_status_json :
    Z -> string -> option (list Schema.ZodIssue) -> response A.
Arguments res_json {A} _.
Arguments res_status_json {A} _ _ _.

Section Routes.
Local Open Scope string_scope.

(** The single [storage] of the server, and the [Date] of the runtime. *)
Context {S : Type} `{IStorage S}.
Variable DateParse : string -> option Z.

(** [new Date(s).getTime()]: the time value of a date that was read, a
    whole number of milliseconds that a double holds as it is, and [NaN]
    for an invalid date. *)
Definition Date_getTime (s : string) : number :=
  match DateParse s with
  | Some ms => of_int ms
  | None => NaN
  end.

(** A value of type [string | null] inside a template literal. *)
Definition interpolate (x : option string) : string :=
  match x with
  | Some s => s
  | None => "null"
  end.

(** The [catch] clause of the three [POST] handlers. *)
Definition catch_post {A} (invalid failed : string) (e : Schema.error)
  : response A :=
  match e with
  | Schema.ZodError errors => res_status_json 400 invalid (Some errors)
  | Schema.Error _ => res_status_json 500 failed None
  end.

Definition POST_api_volunteer (body : Schema.json) (storage : S)
  : response Volunteer.t * S :=
  match
    bind (Schema.parse Schema.insertVolunteerSchema body) (fun o =>
    createVolunteer (Schema.inferInsertVolunteer o) storage)
  with
  | Return (volunteer, storage') => (res_json volunteer, storage')
  | Throw e =>
      (catch_post "Invalid volunteer data"
                  "Failed to create volunteer check-in" e, storage)
  end.

Definition POST_api_guest (body : Schema.json) (storage : S)
  : response Guest.t * S :=
  match
    bind (Schema.parse Schema.insertGuestSchema body) (fun o =>
    createGuest (Schema.inferInsertGuest o) storage)
  with
  | Return (guest, storage') => (res_json guest, storage')
  | Throw e =>
      (catch_post "Invalid guest data" "Failed to register guest" e,
       storage)
  end.

Definition POST_api_employee_clock (body : Schema.json) (storage : S)
  : response Staff.t * S :=
  match
    bind (Schema.parse Schema.insertStaffSchema body) (fun o =>
    createStaff (Schema.inferInsertStaff o) storage)
  with
  | Return (staff, storage') => (res_json staff, storage')
  | Throw e =>
      (catch_post "Invalid staff data" "Failed to clock in/out" e, storage)
  end.

(** [parseInt(id)] of the runtime, [None] standing for [NaN]. *)
Variable parseInt : string -> option Z.

(** The strings that [['volunteer', 'guest', 'staff'].includes(type)]
    accepts, at their literal type. *)
Definition personType_of (type : string) : option PersonType.t :=
  if String.eqb type "volunteer" then Some PersonType.volunteer
  else if String.eqb type "guest" then Some PersonType.guest
  else if String.eqb type "staff" then Some PersonType.staff
  else None.

Definition DELETE_api_people (type id : string) (storage : S)
  : response string * S :=
  match parseInt id with
  | None => (res_status_json 400 "Invalid person ID" None, storage)
  | Some personId =>
      match personType_of type with
      | None => (res_status_json 400 "Invalid person type" None, storage)
      | Some kind =>
          match deletePerson kind personId storage with
          | Return (true, storage') =>
              (res_json "Person deleted successfully", storage')
          | Return (false, storage') =>
              (res_status_json 404 "Person not found" None, storage')
          | Throw _ =>
              (res_status_json 500 "Failed to delete person" None, storage)
          end
      end
  end.

(** The function that [staff.reduce] folds over the rows. *)
Definition totalHours_step (total : number) (s : Staff.t) : number :=
  if truthy (Staff.timeIn s) && truthy (Staff.timeOut s) then
    let timeIn := Date_getTime ("2024-01-01 " ++ interpolate (Staff.timeIn s)) in
    let timeOut :=
      Date_getTime ("2024-01-01 " ++ interpolate (Staff.timeOut s)) in
    let hours := div (sub timeOut timeIn) (of_int (1000 * 60 * 60)) in
    add total (Math_max (of_int 0) hours)
  else total.

Definition totalHours (staff : list Staff.t) : number :=
  fold_left totalHours_step staff (of_int 0).

Definition GET_api_stats (storage : S) : response Stats.t :=
  match
    bind (getVolunteers storage) (fun volunteers =>
    bind (getGuests storage) (fun guests =>
    bind (getStaff storage) (fun staff =>
    Return {| Stats.volunteers := List.length volunteers;
              Stats.guests := List.length guests;
              Stats.hours := Math_round (totalHours staff) |})))
  with
  | Return stats => res_json stats
  | Throw _ => res_status_json 500 "Failed to fetch statistics" None
  end.

End Routes.

(* ================================================================= *)
(** * Views of a store used to state its properties *)

Definition kind_of_row (r : PersonRow) : PersonType.t :=
  match r with
  | VolunteerRow _ => PersonType.volunteer
  | GuestRow _ => PersonType.guest
  | StaffRow _ => PersonType.staff
  end.

Definition row_id (r : PersonRow) : Z :=
  match r with
  | VolunteerRow v => Volunteer.id v
  | GuestRow g => Guest.id g
  | StaffRow s => Staff.id s
  end.

(** The rows of one kind, in the order in which the store gives them. *)
Definition rows_of (k : PersonType.t) (this : MemStorage.t) : list PersonRow :=
  match k with
  | PersonType.volunteer => map VolunteerRow (MemStorage.getVolunteers this)
  | PersonType.guest => map GuestRow (MemStorage.getGuests this)
  | PersonType.staff => map StaffRow (MemStorage.getStaff this)
  end.

(** The counter from which the next identity of a kind is taken. *)
Definition counter (k : PersonType.t) (this : MemStorage.t) : Z :=
  match k with
  | PersonType.volunteer => MemStorage.currentVolunteerId this
  | PersonType.guest => MemStorage.currentGuestId this
  | PersonType.staff => MemStorage.currentStaffId this
  end.

(** The keys of the [Map] of a kind. *)
Definition keys_of (k : PersonType.t) (this : MemStorage.t) : list Z :=
  match k with
  | PersonType.volunteer => Map.keys (MemStorage.volunteers this)
  | PersonType.guest => Map.keys (MemStorage.guests this)
  | PersonType.staff => Map.keys (MemStorage.staff this)
  end.

(** A [Map] of rows filed under their own identities, all of them taken
    from a counter that now stands at [next]. *)
Definition filed {V : Type} (id : V -> Z) (next : Z) (m : Map.t V) : Prop :=
  Map.wf m /\ Forall (fun e => fst e = id (snd e) /\ (fst e < next)%Z) m.

(** The invariant of a [MemStorage]. *)
Definition Inv (this : MemStorage.t) : Prop :=
  filed Volunteer.id (MemStorage.currentVolunteerId this)
        (MemStorage.volunteers this)
  /\ filed Guest.id (MemStorage.currentGuestId this) (MemStorage.guests this)
  /\ filed Staff.id (MemStorage.currentStaffId this) (MemStorage.staff this).

(** ** The hours of the statistics, in the words of their description *)

Section HoursSpec.
Local Open Scope string_scope.
Variable DateParse : string -> option Z.

(** A time is present when it is neither [null] nor the empty string. *)
Definition present (x : option string) : bool :=
  match x with
  | Some (String _ _) => true
  | _ => false
  end.

Definition both_present (s : Staff.t) : bool :=
  present (Staff.timeIn s) && present (Staff.timeOut s).

(** A time of day read on the reference date. *)
Definition on_reference_date (x : option string) : option Z :=
  DateParse ("2024-01-01 " ++ interpolate x).

Definition parsed (s : Staff.t) : Prop :=
  on_reference_date (Staff.timeIn s) <> None
  /\ on_reference_date (Staff.timeOut s) <> None.

Definition milliseconds (x : option string) : Z :=
  match on_reference_date x with
  | Some ms => ms
  | None => 0
  end.

(** [max(0, timeOut - timeIn)] in hours and the sum of these, as numbers
    without rounding. *)
Definition worked_hours (s : Staff.t) : Q :=
  Qmax 0 ((inject_Z (milliseconds (Staff.timeOut s))
           - inject_Z (milliseconds (Staff.timeIn s))) / 3600000).

Definition sum_hours (rows : list Staff.t) : Q :=
  fold_right Qplus 0 (map worked_hours (filter both_present rows)).

(** The same in doubles. The time of a date that was not read is [NaN];
    the difference, the quotient and each partial sum, taken from the first
    row on, are rounded to a double. *)
Definition double_time (x : option string) : number :=
  match on_reference_date x with
  | Some ms => of_int ms
  | None => NaN
  end.

Definition double_hours (s : Staff.t) : number :=
  Math_max (of_int 0)
           (div (sub (double_time (Staff.timeOut s))
                     (double_time (Staff.timeIn s)))
                (of_int 3600000)).

Definition double_sum (hours : list number) : number :=
  fold_left add hours (of_int 0).

End HoursSpec.

(** A double that is [NaN] or has the sign of the positive numbers. *)
Definition not_negative (x : number) : Prop :=
  match x with
  | S754_nan => True
  | S754_zero s | S754_infinity s | S754_finite s _ _ => s = false
  end.

(** The integer nearest to [q], the upper one of two. *)
Definition nearest_integer (q : Q) : Z := Qfloor (q + (1 # 2)).

(** Two rows with the same times. *)
Definition same_times (s s' : Staff.t) : Prop :=
  Staff.timeIn s = Staff.timeIn s' /\ Staff.timeOut s = Staff.timeOut s'.

(** An optional property with a falsy value taken out of the input. *)
Definition without_falsy {A} `{Truthy A} (x : optional A) : optional A :=
  if truthy x then x else undefined.

Definition without_falsy_fields (i : InsertGuest.t) : InsertGuest.t :=
  {| InsertGuest.name := InsertGuest.name i;
     InsertGuest.email := InsertGuest.email i;
     InsertGuest.phone := without_falsy (InsertGuest.phone i);
     InsertGuest.reason := InsertGuest.reason i;
     InsertGuest.joinNewsletter := without_falsy (InsertGuest.joinNewsletter i);
     InsertGuest.brideName := without_falsy (InsertGuest.brideName i);
     InsertGuest.groomName := without_falsy (InsertGuest.groomName i);
     InsertGuest.tourGuide := without_falsy (InsertGuest.tourGuide i);
     InsertGuest.date := InsertGuest.date i |}.

(** ** Inputs on which the statements are tried *)

Module Sample.
Local Open Scope string_scope.

Definition shift (timeIn timeOut : option string) : InsertStaff.t :=
  {| InsertStaff.name := "Pat";
     InsertStaff.date := "7/22/2025";
     InsertStaff.timeIn :=
       match timeIn with Some s => value s | None => undefined end;
     InsertStaff.timeOut :=
       match timeOut with Some s => value s | None => undefined end;
     InsertStaff.notes := undefined |}.

Definition dayShift : InsertStaff.t :=
  shift (Some "9:00:00 AM") (Some "5:00:00 PM").

Definition clockIn : InsertStaff.t := shift (Some "9:00:00 AM") None.

(** A clock-out time that is no time. *)
Definition garbledShift : InsertStaff.t :=
  shift (Some "9:00:00 AM") (Some "unknown").

Definition checkIn (name area : string) : InsertVolunteer.t :=
  {| InsertVolunteer.name := name;
     InsertVolunteer.date := "7/22/2025";
     InsertVolunteer.timeIn := "3:45:12 PM";
     InsertVolunteer.timeOut := undefined;
     InsertVolunteer.area := area;
     InsertVolunteer.activities := "weeding" |}.

(** The body of a wedding registration without [brideName]. *)
Definition weddingWithoutBride : list (string * Schema.json) :=
  [ ("name", Schema.JString "Ann & Bob");
    ("email", Schema.JString "bob@example.org");
    ("reason", Schema.JString "wedding");
    ("joinNewsletter", Schema.JBool false);
    ("groomName", Schema.JString "Bob");
    ("date", Schema.JString "7/22/2025") ].

(** A registration that gives the required fields only. *)
Definition historicGuest : InsertGuest.t :=
  {| InsertGuest.name := "Ann";
     InsertGuest.email := "ann@example.org";
     InsertGuest.phone := undefined;
     InsertGuest.reason := "historic";
     InsertGuest.joinNewsletter := undefined;
     InsertGuest.brideName := undefined;
     InsertGuest.groomName := undefined;
     InsertGuest.tourGuide := undefined;
     InsertGuest.date := "7/22/2025" |}.

(** The staff rows of a store after a whole shift and a lone clock-in. *)
Definition shiftAndClockIn : list Staff.t :=
  MemStorage.getStaff
    (snd (run [CreateStaff dayShift; CreateStaff clockIn]
              MemStorage.constructor)).

(** Three shifts of one second, of 23 minutes 18 seconds and of 6 minutes
    41 seconds: half an hour in all. *)
Definition shortShifts : MemStorage.t :=
  snd (run [ CreateStaff (shift (Some "9:00:00 AM") (Some "9:00:01 AM"));
             CreateStaff (shift (Some "9:00:00 AM") (Some "9:23:18 AM"));
             CreateStaff (shift (Some "9:00:00 AM") (Some "9:06:41 AM")) ]
           MemStorage.constructor).

(** A store with a whole shift, and the same with a garbled row added. *)
Definition oneShift : MemStorage.t :=
  snd (run [CreateStaff dayShift] MemStorage.constructor).

Definition oneShiftAndGarbled : MemStorage.t :=
  snd (run [CreateStaff dayShift; CreateStaff garbledShift]
           MemStorage.constructor).

(** A store with one volunteer, one guest and one staff row, all three of
    identity 1. *)
Definition oneOfEach : MemStorage.t :=
  snd (run [ CreateVolunteer (checkIn "Ann" "garden");
             CreateGuest (Schema.inferInsertGuest weddingWithoutBride);
             CreateStaff dayShift ] MemStorage.constructor).

End Sample.

(* ================================================================= *)
(** * The users of the storage *)

(** The rows of the table [users] of [shared/schema.ts] and the three user
    methods of [MemStorage]. They read and write the fields [users] and
    [currentUserId] only, which no other method touches; these two fields
    are kept here as a store of their own. *)

Module User.
Record t : Type := {
  id : Z;
  username : string;
  password : string
}.
End User.

Module InsertUser.
Record t : Type := {
  username : string;
  password : string
}.
End InsertUser.

Module MemUsers.
Local Open Scope Z_scope.

Record t : Type := {
  users : Map.t User.t;
  currentUserId : Z
}.

Definition constructor : t :=
  {| users := Map.empty; currentUserId := 1 |}.

Definition getUser (id : Z) (this : t) : option User.t :=
  Map.get id (users this).

(** [Array.prototype.find]: the first element that passes, [None]
    standing for [undefined]. *)
Definition getUserByUsername (username : string) (this : t) : option User.t :=
  find (fun user => String.eqb (User.username user) username)
       (Map.values (users this)).

Definition createUser (insertUser : InsertUser.t) (this : t) : User.t * t :=
  let id := currentUserId this in
  let user :=
    {| User.id := id;
       User.username := InsertUser.username insertUser;
       User.password := InsertUser.password insertUser |} in
  (user,
   {| users := Map.set id user (users this);
      currentUserId := id + 1 |}).

(** The invariant of the store of users. *)
Definition Inv (this : t) : Prop :=
  filed User.id (currentUserId this) (users this).

Fixpoint createUsers (l : list InsertUser.t) (this : t) : t :=
  match l with
  | [] => this
  | i :: l' => createUsers l' (snd (createUser i this))
  end.

End MemUsers.

(* ================================================================= *)
(** * The other routes of server/routes.ts *)

(** A value of [req.query]: absent, a string, or an array or object of
    values. *)
Inductive queryValue : Type :=
| QUndefined : queryValue
| QString : string -> queryValue
| QNested : queryValue.

Section ReadRoutes.
Local Open Scope string_scope.
Context {S : Type} `{IStorage S}.

Definition GET_api_volunteer (category : queryValue) (storage : S)
  : response (list Volunteer.t) :=
  match
    match category with
    | QString category =>
        if truthy category
        then getVolunteersByCategory category storage
        else getVolunteers storage
    | _ => getVolunteers storage
    end
  with
  | Return volunteers => res_json volunteers
  | Throw _ => res_status_json 500 "Failed to fetch volunteers" None
  end.

Definition GET_api_guest (storage : S) : response (list Guest.t) :=
  match getGuests storage with
  | Return guests => res_json guests
  | Throw _ => res_status_json 500 "Failed to fetch guests" None
  end.

Definition GET_api_employee_clock (storage : S) : response (list Staff.t) :=
  match getStaff storage with
  | Return staff => res_json staff
  | Throw _ => res_status_json 500 "Failed to fetch staff records" None
  end.

Definition GET_api_people (storage : S) : response (list Person) :=
  match getAllPeople storage with
  | Return people => res_json people
  | Throw _ => res_status_json 500 "Failed to fetch people" None
  end.

End ReadRoutes.

(* ================================================================= *)
(** * The forms of the client *)

(** What a submit handler of a modal does: it shows a toast and returns,
    or it hands [data] to its mutation, which posts it to a route of the
    server. The data is kept as the object that the server reads from its
    JSON text: the properties of the object literal in their order, those
    whose value is [undefined] left out. *)
Inductive submission : Type :=
| toast : string -> string -> submission
| mutate : list (string * Schema.json) -> submission.

(** A property [k: s] of an object literal, in its JSON text. *)
Definition property (k : string) (v : optional string)
  : list (string * Schema.json) :=
  match v with
  | value s => [(k, Schema.JString s)]
  | null => [(k, Schema.JNull)]
  | undefined => []
  end.

(** [s || undefined] *)
Definition or_undefined (s : string) : optional string :=
  if truthy s then value s else undefined.

(** [components/modals/guest-registration-modal.tsx] *)
Module GuestRegistrationModal.
Local Open Scope string_scope.

Record state : Type := {
  visitPurpose : string;
  fullName : string;
  email : string;
  joinNewsletter : bool;
  brideName : string;
  groomName : string;
  weddingEmail : string;
  tourGuide : string
}.

Section Handlers.
(** [String.prototype.trim] and [new Date().toLocaleDateString()], of the
    runtime. *)
Variable trim : string -> string.
Variable toLocaleDateString : string.

Definition handleSubmit (st : state) : submission :=
  if negb (truthy (visitPurpose st)) then
    toast "Error" "Please select a purpose of visit."
  else if String.eqb (visitPurpose st) "wedding" then
    if negb (truthy (trim (brideName st)))
       || negb (truthy (trim (groomName st)))
       || negb (truthy (trim (weddingEmail st)))
    then toast "Error" "Please fill in all wedding tour fields."
    else
      mutate
        ([ ("name",
            Schema.JString
              (trim (brideName st) ++ " & " ++ trim (groomName st)));
           ("email", Schema.JString (trim (weddingEmail st)));
           ("reason", Schema.JString (visitPurpose st));
           ("joinNewsletter", Schema.JBool false);
           ("brideName", Schema.JString (trim (brideName st)));
           ("groomName", Schema.JString (trim (groomName st))) ]
         ++ property "tourGuide" (or_undefined (tourGuide st))
         ++ [ ("date", Schema.JString toLocaleDateString) ])%list
  else
    if negb (truthy (trim (fullName st))) || negb (truthy (trim (email st)))
    then toast "Error" "Please fill in all required fields."
    else
      mutate
        [ ("name", Schema.JString (trim (fullName st)));
          ("email", Schema.JString (trim (email st)));
          ("reason", Schema.JString (visitPurpose st));
          ("joinNewsletter", Schema.JBool (joinNewsletter st));
          ("date", Schema.JString toLocaleDateString) ].

End Handlers.
End GuestRegistrationModal.

(** [components/modals/volunteer-checkin-modal.tsx] *)
Module VolunteerCheckinModal.
Local Open Scope string_scope.

Record state : Type := {
  selectedCategory : option string;
  activityDescription : string;
  volunteerName : string
}.

Section Handlers.
(** [String.prototype.trim], and the date and the time of [now] in the
    locale, of the runtime. *)
Variable trim : string -> string.
Variables toLocaleDateString toLocaleTimeString : string.

Definition handleSubmit (st : state) : submission :=
  if negb (truthy (trim (volunteerName st))) then
    toast "Error" "Please enter your name."
  else
    match selectedCategory st with
    | Some category =>
        if negb (truthy category) then
          toast "Error" "Please select a work area."
        else if negb (truthy (trim (activityDescription st))) then
          toast "Error" "Please describe what you did or plan to do."
        else
          mutate
            [ ("name", Schema.JString (trim (volunteerName st)));
              ("date", Schema.JString toLocaleDateString);
              ("timeIn", Schema.JString toLocaleTimeString);
              ("area", Schema.JString category);
              ("activities",
               Schema.JString (trim (activityDescription st))) ]
    | None => toast "Error" "Please select a work area."
    end.

End Handlers.
End VolunteerCheckinModal.

(** The employee clock modal, whose text follows that of
    [components/modals/manage-data-modal.tsx] in the sources. *)
Module EmployeeClockModal.
Local Open Scope string_scope.

Record state : Type := {
  employeeName : string;
  notes : string
}.

Section Handlers.
Variable trim : string -> string.
Variables toLocaleDateString toLocaleTimeString : string.

Definition handleClockIn (st : state) : submission :=
  if negb (truthy (trim (employeeName st))) then
    toast "Error" "Please enter your name."
  else
    mutate
      ([ ("name", Schema.JString (trim (employeeName st)));
         ("date", Schema.JString toLocaleDateString);
         ("timeIn", Schema.JString toLocaleTimeString) ]
       ++ property "notes" (or_undefined (trim (notes st))))%list.

Definition handleClockOut (st : state) : submission :=
  if negb (truthy (trim (employeeName st))) then
    toast "Error" "Please enter your name."
  else
    mutate
      ([ ("name", Schema.JString (trim (employeeName st)));
         ("date", Schema.JString toLocaleDateString);
         ("timeOut", Schema.JString toLocaleTimeString) ]
       ++ property "notes" (or_undefined (trim (notes st))))%list.

End Handlers.
End EmployeeClockModal.

(** A press of one of the two buttons of the employee clock: which button,
    the state of the form, and the date and time of the press. *)
Record press : Type := {
  clockOut : bool;
  form : EmployeeClockModal.state;
  pressDate : string;
  pressTime : string
}.

Definition submitted (trim : string -> string) (p : press) : submission :=
  if clockOut p
  then EmployeeClockModal.handleClockOut trim (pressDate p) (pressTime p)
                                         (form p)
  else EmployeeClockModal.handleClockIn trim (pressDate p) (pressTime p)
                                        (form p).

(** The storage after the presses of a list, each submission posted to
    [POST /api/employee-clock]. *)
Fixpoint clock_all (trim : string -> string) (presses : list press)
    (this : MemStorage.t) : MemStorage.t :=
  match presses with
  | [] => this
  | p :: presses' =>
      clock_all trim presses'
        match submitted trim p with
        | mutate data =>
            snd (POST_api_employee_clock (Schema.JObject data) this)
        | toast _ _ => this
        end
  end.

(** Whether two bodies give every property of a schema the same value. *)
Definition agree_on (schema : list Schema.column)
    (o o' : list (string * Schema.json)) : Prop :=
  Forall (fun c => Schema.obj_get (Schema.key c) o
                   = Schema.obj_get (Schema.key c) o') schema.

(** The values that a column of an insert schema takes. *)
Definition field_ok (c : Schema.column) (v : option Schema.json) : bool :=
  match v with
  | None => negb (Schema.notNull c) || Schema.hasDefault c
  | Some Schema.JNull => negb (Schema.notNull c)
  | Some x => Schema.has_type (Schema.data c) x
  end.

Definition is_string (v : option Schema.json) : bool :=
  match v with Some (Schema.JString _) => true | _ => false end.

Definition is_nullish_string (v : option Schema.json) : bool :=
  match v with
  | None | Some Schema.JNull | Some (Schema.JString _) => true
  | _ => false
  end.

Definition is_nullish_boolean (v : option Schema.json) : bool :=
  match v with
  | None | Some Schema.JNull | Some (Schema.JBool _) => true
  | _ => false
  end.

(** The bodies that the three [POST] routes take. *)
Definition acceptable_volunteer (body : Schema.json) : bool :=
  match body with
  | Schema.JObject o =>
      is_string (Schema.obj_get "name" o)
      && is_string (Schema.obj_get "date" o)
      && is_string (Schema.obj_get "timeIn" o)
      && is_nullish_string (Schema.obj_get "timeOut" o)
      && is_string (Schema.obj_get "area" o)
      && is_string (Schema.obj_get "activities" o)
  | _ => false
  end.

Definition acceptable_guest (body : Schema.json) : bool :=
  match body with
  | Schema.JObject o =>
      is_string (Schema.obj_get "name" o)
      && is_string (Schema.obj_get "email" o)
      && is_nullish_string (Schema.obj_get "phone" o)
      && is_string (Schema.obj_get "reason" o)
      && is_nullish_boolean (Schema.obj_get "joinNewsletter" o)
      && is_nullish_string (Schema.obj_get "brideName" o)
      && is_nullish_string (Schema.obj_get "groomName" o)
      && is_nullish_string (Schema.obj_get "tourGuide" o)
      && is_string (Schema.obj_get "date" o)
  | _ => false
  end.

Definition acceptable_staff (body : Schema.json) : bool :=
  match body with
  | Schema.JObject o =>
      is_string (Schema.obj_get "name" o)
      && is_string (Schema.obj_get "date" o)
      && is_nullish_string (Schema.obj_get "timeIn" o)
      && is_nullish_string (Schema.obj_get "timeOut" o)
      && is_nullish_string (Schema.obj_get "notes" o)
  | _ => false
  end.

(** The issue raised for a required string that is missing. *)
Definition required_string_issue (k : string) : Schema.ZodIssue :=
  {| Schema.code := "invalid_type";
     Schema.expected := "string";
     Schema.received := "undefined";
     Schema.path := [k];
     Schema.message := "Required" |}.

(** The composite key of an element of [getAllPeople()]. *)
Definition person_key (p : Person) : PersonType.t * Z :=
  (type p, row_id (row p)).

Definition person_is (kind : PersonType.t) (id : Z) (p : Person) : bool :=
  PersonType_eqb (type p) kind && Z.eqb id (row_id (row p)).

(** The rows of a kind with the [type] of that kind. *)
Definition tag_rows (k : PersonType.t) (rows : list PersonRow) : list Person :=
  map (fun r => {| row := r; type := k |}) rows.

(** The statistics that [GET /api/stats] sends for the in-memory storage. *)
Definition stats_of (DateParse : string -> option Z) (this : MemStorage.t)
  : Stats.t :=
  {| Stats.volunteers := List.length (MemStorage.getVolunteers this);
     Stats.guests := List.length (MemStorage.getGuests this);
     Stats.hours :=
       Math_round (totalHours DateParse (MemStorage.getStaff this)) |}.

(** The filter that [GET /api/volunteer] applies for a value of
    [category]. *)
Definition category_filter (category : queryValue) (v : Volunteer.t) : bool :=
  match category with
  | QString (String a c) => String.eqb (Volunteer.area v) (String a c)
  | _ => true
  end.

(** Two users of one name. *)
Definition twoUsersOfOneName : MemUsers.t :=
  MemUsers.createUsers
    [ {| InsertUser.username := "pat"; InsertUser.password := "first" |};
      {| InsertUser.username := "pat"; InsertUser.password := "second" |} ]
    MemUsers.constructor.

(** The identities 1, 2, ..., n. *)
Definition first_identities (n : nat) : list Z := map Z.of_nat (seq 1 n).

(* ================================================================= *)
(** * Facts on the [Map] *)

Section MapFacts.
Context {V : Type}.
Implicit Types (m : Map.t V) (k : Z) (v : V).

Lemma Map_has_In k m : Map.has k m = true <-> In k (Map.keys m).
Proof.
  unfold Map.has. induction m as [|[k' v'] m IH]; simpl.
  - split; [discriminate | tauto].
  - destruct (Z.eqb_spec k k') as [->|Hne].
    + split; auto.
    + rewrite IH. split; [auto | intros [E|E]; [congruence | exact E]].
Qed.

Lemma Map_keys_remove k m :
  Map.keys (Map.remove k m) = filter (fun x => negb (Z.eqb k x)) (Map.keys m).
Proof.
  unfold Map.keys, Map.remove.
  induction m as [|[k' v'] m IH]; simpl; [reflexivity|].
  destruct (Z.eqb k k'); simpl; rewrite IH; reflexivity.
Qed.

Lemma Map_get_remove_eq k m : Map.get k (Map.remove k m) = None.
Proof.
  unfold Map.remove. induction m as [|[k' v'] m IH]; simpl; [reflexivity|].
  destruct (Z.eqb_spec k k') as [->|Hne]; simpl; [exact IH|].
  destruct (Z.eqb_spec k k'); [contradiction | exact IH].
Qed.

Lemma Map_get_remove_ne k k' m :
  k' <> k -> Map.get k' (Map.remove k m) = Map.get k' m.
Proof.
  intros Hne. unfold Map.remove.
  induction m as [|[k0 v0] m IH]; simpl; [reflexivity|].
  destruct (Z.eqb_spec k k0) as [->|Hk]; simpl.
  - destruct (Z.eqb_spec k' k0); [contradiction | exact IH].
  - destruct (Z.eqb k' k0); [reflexivity | exact IH].
Qed.

Lemma Map_wf_remove k m : Map.wf m -> Map.wf (Map.remove k m).
Proof.
  unfold Map.wf. rewrite Map_keys_remove. apply NoDup_filter.
Qed.

Lemma Map_remove_absent k m : ~ In k (Map.keys m) -> Map.remove k m = m.
Proof.
  unfold Map.remove, Map.keys.
  induction m as [|[k' v'] m IH]; simpl; intros Hn; [reflexivity|].
  destruct (Z.eqb_spec k k') as [->|Hne]; simpl.
  - exfalso; auto.
  - f_equal. apply IH. tauto.
Qed.

Lemma Map_length_remove k m :
  Map.wf m ->
  List.length m =
  (List.length (Map.remove k m) + (if Map.has k m then 1 else 0))%nat.
Proof.
  unfold Map.wf, Map.has.
  induction m as [|[k' v'] m IH]; simpl; intros Hnd; [reflexivity|].
  apply NoDup_cons_iff in Hnd as [Hnotin Hnd].
  destruct (Z.eqb_spec k k') as [->|Hne]; simpl.
  - fold (Map.remove k' m). rewrite Map_remove_absent by exact Hnotin. lia.
  - fold (Map.remove k m). rewrite (IH Hnd). lia.
Qed.

Lemma Map_keys_set k v m :
  Map.keys (Map.set k v m) =
  if Map.has k m then Map.keys m else (Map.keys m ++ [k])%list.
Proof.
  unfold Map.has, Map.keys.
  induction m as [|[k' v'] m IH]; simpl; [reflexivity|].
  destruct (Z.eqb_spec k k') as [->|Hne]; simpl; [reflexivity|].
  rewrite IH. destruct (Map.get k m); reflexivity.
Qed.

Lemma Map_set_fresh k v m :
  ~ In k (Map.keys m) -> Map.set k v m = (m ++ [(k, v)])%list.
Proof.
  unfold Map.keys.
  induction m as [|[k' v'] m IH]; simpl; intros Hn; [reflexivity|].
  destruct (Z.eqb_spec k k') as [->|Hne].
  - exfalso; auto.
  - f_equal. apply IH. tauto.
Qed.

Lemma Map_In_set k v m : In (k, v) (Map.set k v m).
Proof.
  induction m as [|[k' v'] m IH]; simpl; [auto|].
  destruct (Z.eqb k k'); simpl; auto.
Qed.

Lemma Map_In_values_set k v m : In v (Map.values (Map.set k v m)).
Proof.
  unfold Map.values. change v with (snd (k, v)) at 1.
  apply in_map, Map_In_set.
Qed.

Lemma Map_values_remove (id : V -> Z) k m :
  Forall (fun e => fst e = id (snd e)) m ->
  Map.values (Map.remove k m) =
  filter (fun r => negb (Z.eqb k (id r))) (Map.values m).
Proof.
  unfold Map.values, Map.remove.
  induction 1 as [|[k' v'] m Hk _ IH]; simpl in *; [reflexivity|].
  subst k'. destruct (Z.eqb k (id v')); simpl; rewrite IH; reflexivity.
Qed.

End MapFacts.

(* ================================================================= *)
(** * The invariant of the in-memory storage *)

Section Filed.
Context {V : Type} (id : V -> Z).
Local Open Scope Z_scope.

Lemma filed_empty next : filed id next (@Map.empty V).
Proof. split; [constructor | constructor]. Qed.

Lemma filed_fresh next m : filed id next m -> ~ In next (Map.keys m).
Proof.
  intros [_ Hall] Hin. unfold Map.keys in Hin.
  apply in_map_iff in Hin as [e [He Hin]].
  rewrite Forall_forall in Hall. specialize (Hall e Hin). lia.
Qed.

Lemma filed_set next v m :
  filed id next m -> id v = next -> filed id (next + 1) (Map.set next v m).
Proof.
  intros Hf Hid. pose proof (filed_fresh _ _ Hf) as Hfresh.
  destruct Hf as [Hwf Hall]. rewrite (Map_set_fresh _ _ _ Hfresh). split.
  - unfold Map.wf, Map.keys in *. rewrite map_app. simpl.
    apply NoDup_app_remove_l with (l := []). simpl.
    apply Permutation_NoDup with (l := next :: map fst m).
    + apply Permutation_cons_append.
    + constructor; assumption.
  - apply Forall_app. split.
    + eapply Forall_impl; [|exact Hall]. simpl. intros e [He Hlt]. split; lia.
    + constructor; [|constructor]. simpl. split; lia.
Qed.

Lemma filed_remove next k m : filed id next m -> filed id next (Map.remove k m).
Proof.
  intros [Hwf Hall]. split.
  - apply Map_wf_remove, Hwf.
  - unfold Map.remove. rewrite Forall_forall in *.
    intros e He. apply filter_In in He as [He _]. auto.
Qed.

Lemma filed_has_lt next k m : filed id next m -> Map.has k m = true -> k < next.
Proof.
  intros [_ Hall] Hhas. apply Map_has_In in Hhas. unfold Map.keys in Hhas.
  apply in_map_iff in Hhas as [e [He Hin]].
  rewrite Forall_forall in Hall. specialize (Hall e Hin). lia.
Qed.

Lemma filed_keys next m :
  filed id next m -> Forall (fun e => fst e = id (snd e)) m.
Proof.
  intros [_ Hall]. eapply Forall_impl; [|exact Hall]. simpl. tauto.
Qed.

End Filed.

Lemma Inv_constructor : Inv MemStorage.constructor.
Proof. repeat split; constructor. Qed.

Lemma Inv_createVolunteer i this :
  Inv this -> Inv (snd (MemStorage.createVolunteer i this)).
Proof.
  intros (Hv & Hg & Hs). unfold Inv. simpl.
  split; [apply (filed_set Volunteer.id); auto | split; assumption].
Qed.

Lemma Inv_createGuest i this :
  Inv this -> Inv (snd (MemStorage.createGuest i this)).
Proof.
  intros (Hv & Hg & Hs). unfold Inv. simpl.
  split; [assumption | split; [apply (filed_set Guest.id); auto | assumption]].
Qed.

Lemma Inv_createStaff i this :
  Inv this -> Inv (snd (MemStorage.createStaff i this)).
Proof.
  intros (Hv & Hg & Hs). unfold Inv. simpl.
  split; [assumption | split; [assumption | apply (filed_set Staff.id); auto]].
Qed.

Lemma Inv_deletePerson k id this :
  Inv this -> Inv (snd (MemStorage.deletePerson k id this)).
Proof.
  intros (Hv & Hg & Hs). unfold Inv.
  destruct k; simpl; (split; [|split]);
    solve [assumption | apply filed_remove; assumption].
Qed.

Lemma Inv_step c this : Inv this -> Inv (snd (step c this)).
Proof.
  intros HI. destruct c as [i|i|i|k id]; unfold step.
  - apply (Inv_createVolunteer i) in HI.
    destruct (MemStorage.createVolunteer i this); exact HI.
  - apply (Inv_createGuest i) in HI.
    destruct (MemStorage.createGuest i this); exact HI.
  - apply (Inv_createStaff i) in HI.
    destruct (MemStorage.createStaff i this); exact HI.
  - apply (Inv_deletePerson k id) in HI.
    destruct (MemStorage.deletePerson k id this); exact HI.
Qed.

Lemma Inv_run cs : forall this, Inv this -> Inv (snd (run cs this)).
Proof.
  induction cs as [|c cs IH]; intros this HI; simpl; [exact HI|].
  pose proof (Inv_step c this HI) as HI'.
  destruct (step c this) as [a this']. simpl in HI'.
  specialize (IH this' HI'). destruct (run cs this'). exact IH.
Qed.

(* ================================================================= *)
(** * Deleting a person *)

Lemma filter_map_comm {A B} (f : A -> B) (p : B -> bool) (l : list A) :
  filter p (map f l) = map f (filter (fun a => p (f a)) l).
Proof.
  induction l as [|a l IH]; simpl; [reflexivity|].
  destruct (p (f a)); simpl; rewrite IH; reflexivity.
Qed.

Lemma delete_filed {V} (idf : V -> Z) (wrap : V -> PersonRow) next m id :
  (forall v, row_id (wrap v) = idf v) ->
  filed idf next m ->
  map wrap (Map.values (Map.remove id m)) =
    filter (fun r => negb (Z.eqb id (row_id r))) (map wrap (Map.values m))
  /\ List.length (map wrap (Map.values m)) =
     (List.length (map wrap (Map.values (Map.remove id m)))
      + (if Map.has id m then 1 else 0))%nat
  /\ (Map.has id m = true <->
      exists r, In r (map wrap (Map.values m)) /\ row_id r = id).
Proof.
  intros Hwrap Hf. pose proof (filed_keys _ _ _ Hf) as Hkeys.
  split; [|split].
  - rewrite (Map_values_remove idf) by exact Hkeys.
    rewrite filter_map_comm. f_equal. apply filter_ext.
    intros v. rewrite Hwrap. reflexivity.
  - unfold Map.values. rewrite !length_map.
    apply Map_length_remove. apply Hf.
  - rewrite Map_has_In. unfold Map.keys, Map.values.
    rewrite Forall_forall in Hkeys. split.
    + intros Hin. apply in_map_iff in Hin as [[k v] [Hk Hin]]. simpl in Hk.
      exists (wrap v). split.
      * apply in_map. change v with (snd (k, v)). apply in_map, Hin.
      * rewrite Hwrap. specialize (Hkeys _ Hin). simpl in Hkeys. congruence.
    + intros [r [Hin Hid]].
      apply in_map_iff in Hin as [v [Hr Hin]].
      apply in_map_iff in Hin as [[k v'] [Hv Hin]]. simpl in Hv. subst v' r.
      rewrite Hwrap in Hid. specialize (Hkeys _ Hin). simpl in Hkeys.
      apply in_map_iff. exists (k, v). split; [simpl; congruence | exact Hin].
Qed.

Lemma deletePerson_rows (kind : PersonType.t) (id : Z)
    (this : MemStorage.t) :
  Inv this ->
  let deleted := fst (MemStorage.deletePerson kind id this) in
  let this' := snd (MemStorage.deletePerson kind id this) in
  rows_of kind this' =
    filter (fun r => negb (Z.eqb id (row_id r))) (rows_of kind this)
  /\ List.length (rows_of kind this) =
     (List.length (rows_of kind this') + (if deleted then 1 else 0))%nat
  /\ (deleted = true <-> exists r, In r (rows_of kind this) /\ row_id r = id)
  /\ (forall k, k <> kind ->
      rows_of k this' = rows_of k this /\ keys_of k this' = keys_of k this)
  /\ (kind = PersonType.staff ->
      MemStorage.volunteers this' = MemStorage.volunteers this
      /\ MemStorage.guests this' = MemStorage.guests this)
  /\ Inv this'.
Proof.
  intros HI deleted this'.
  pose proof (Inv_deletePerson kind id this HI) as HI'.
  destruct HI as (Hv & Hg & Hs).
  assert (Hothers : forall k, k <> kind ->
            rows_of k this' = rows_of k this
            /\ keys_of k this' = keys_of k this).
  { intros k Hk. subst this'.
    destruct kind, k; try congruence; split; reflexivity. }
  assert (Hstaff : kind = PersonType.staff ->
            MemStorage.volunteers this' = MemStorage.volunteers this
            /\ MemStorage.guests this' = MemStorage.guests this).
  { intros ->. split; reflexivity. }
  destruct kind; subst deleted this'; simpl in *.
  - destruct (delete_filed Volunteer.id VolunteerRow _ _ id
                (fun v => eq_refl) Hv) as (H1 & H2 & H3).
    unfold MemStorage.getVolunteers; simpl.
    split; [exact H1 | split; [exact H2 | split; [exact H3 |]]].
    split; [exact Hothers | split; [exact Hstaff | exact HI']].
  - destruct (delete_filed Guest.id GuestRow _ _ id
                (fun v => eq_refl) Hg) as (H1 & H2 & H3).
    unfold MemStorage.getGuests; simpl.
    split; [exact H1 | split; [exact H2 | split; [exact H3 |]]].
    split; [exact Hothers | split; [exact Hstaff | exact HI']].
  - destruct (delete_filed Staff.id StaffRow _ _ id
                (fun v => eq_refl) Hs) as (H1 & H2 & H3).
    unfold MemStorage.getStaff; simpl.
    split; [exact H1 | split; [exact H2 | split; [exact H3 |]]].
    split; [exact Hothers | split; [exact Hstaff | exact HI']].
Qed.

(** C4. [deletePerson(kind, id)] removes from the store of [kind] the rows
    whose identity is [id], of which there is at most one; it answers
    [true] exactly when there was one; it leaves the rows of the two other
    kinds as they were, so that [deletePerson("staff", X)] keeps every
    volunteer and every guest, also one whose identity is [X]. *)
Theorem deletePerson_scoped (kind : PersonType.t) (id : Z)
    (this : MemStorage.t) :
  Inv this ->
  let deleted := fst (MemStorage.deletePerson kind id this) in
  let this' := snd (MemStorage.deletePerson kind id this) in
  rows_of kind this' =
    filter (fun r => negb (Z.eqb id (row_id r))) (rows_of kind this)
  /\ List.length (rows_of kind this) =
     (List.length (rows_of kind this') + (if deleted then 1 else 0))%nat
  /\ (deleted = true <-> exists r, In r (rows_of kind this) /\ row_id r = id)
  /\ (forall k, k <> kind ->
      rows_of k this' = rows_of k this /\ keys_of k this' = keys_of k this)
  /\ (kind = PersonType.staff ->
      MemStorage.volunteers this' = MemStorage.volunteers this
      /\ MemStorage.guests this' = MemStorage.guests this)
  /\ Inv this'.
Proof. apply deletePerson_rows. Qed.

(* ================================================================= *)
(** * The unified view *)

Lemma fold_left_push {A B} (f : A -> B) (l : list A) (acc : list B) :
  fold_left (fun acc a => MemStorage.push acc (f a)) l acc
  = (acc ++ map f l)%list.
Proof.
  revert acc. induction l as [|a l IH]; intros acc; simpl.
  - rewrite app_nil_r. reflexivity.
  - rewrite IH. unfold MemStorage.push. rewrite <- app_assoc. reflexivity.
Qed.

Lemma getAllPeople_app (this : MemStorage.t) :
  MemStorage.getAllPeople this =
    (map (fun v => {| row := VolunteerRow v; type := PersonType.volunteer |})
         (MemStorage.getVolunteers this)
     ++ map (fun g => {| row := GuestRow g; type := PersonType.guest |})
            (MemStorage.getGuests this)
     ++ map (fun s => {| row := StaffRow s; type := PersonType.staff |})
            (MemStorage.getStaff this))%list.
Proof.
  unfold MemStorage.getAllPeople.
  rewrite (fold_left_push
             (fun v => {| row := VolunteerRow v;
                          type := PersonType.volunteer |})).
  rewrite (fold_left_push
             (fun g => {| row := GuestRow g; type := PersonType.guest |})).
  rewrite (fold_left_push
             (fun s => {| row := StaffRow s; type := PersonType.staff |})).
  simpl. rewrite <- app_assoc. reflexivity.
Qed.

(** C6. [getAllPeople()] has as many elements as the three stores have
    rows; they are the volunteers, then the guests, then the staff, each
    kind in the order in which its store gives its rows; and the [type] of
    each element is the kind of the store its row comes from. *)
Theorem getAllPeople_tagged_concatenation (this : MemStorage.t) :
  let people := MemStorage.getAllPeople this in
  List.length people =
    (List.length (MemStorage.getVolunteers this)
     + List.length (MemStorage.getGuests this)
     + List.length (MemStorage.getStaff this))%nat
  /\ map row people =
     (rows_of PersonType.volunteer this ++ rows_of PersonType.guest this
      ++ rows_of PersonType.staff this)%list
  /\ map type people =
     (repeat PersonType.volunteer (List.length (MemStorage.getVolunteers this))
      ++ repeat PersonType.guest (List.length (MemStorage.getGuests this))
      ++ repeat PersonType.staff (List.length (MemStorage.getStaff this)))%list
  /\ Forall (fun p => type p = kind_of_row (row p)) people.
Proof.
  intros people. subst people. rewrite getAllPeople_app.
  split; [|split; [|split]].
  - rewrite !length_app, !length_map. lia.
  - rewrite !map_app, !map_map. reflexivity.
  - rewrite !map_app, !map_map. simpl.
    rewrite !map_const. reflexivity.
  - rewrite !Forall_app. repeat split;
      apply Forall_forall; intros p Hp;
      apply in_map_iff in Hp as [x [<- _]]; reflexivity.
Qed.

(* ================================================================= *)
(** * Listing the volunteers of an area *)

(** C9. After [createVolunteer(input)], [getVolunteersByCategory] at the
    [area] of the created record gives a list that holds this record and
    only records of that very [area]; for any string the list holds exactly
    the stored volunteers whose [area] is that string. *)
Theorem createVolunteer_then_listed_by_area (input : InsertVolunteer.t)
    (this : MemStorage.t) :
  let volunteer := fst (MemStorage.createVolunteer input this) in
  let this' := snd (MemStorage.createVolunteer input this) in
  let listed :=
    MemStorage.getVolunteersByCategory (Volunteer.area volunteer) this' in
  Volunteer.area volunteer = InsertVolunteer.area input
  /\ In volunteer listed
  /\ Forall (fun v => Volunteer.area v = Volunteer.area volunteer) listed
  /\ (forall category v,
        In v (MemStorage.getVolunteersByCategory category this') <->
        In v (MemStorage.getVolunteers this')
        /\ Volunteer.area v = category).
Proof.
  intros volunteer this' listed. subst volunteer this' listed.
  unfold MemStorage.getVolunteersByCategory, MemStorage.getVolunteers.
  simpl. split; [reflexivity|]. split; [|split].
  - apply filter_In. split.
    + apply Map_In_values_set.
    + apply String.eqb_refl.
  - apply Forall_forall. intros v Hv. apply filter_In in Hv as [_ Hv].
    apply String.eqb_eq in Hv. exact Hv.
  - intros category v. rewrite filter_In, String.eqb_eq. reflexivity.
Qed.

(* ================================================================= *)
(** * Optional fields of a created record *)

(** C5. What [createGuest] and [createVolunteer] store for an optional
    field that the input omits: [null] for [phone], [brideName],
    [groomName], [tourGuide] and for the [timeOut] of a volunteer, and
    [null] as well, not [false], for [joinNewsletter]. *)
Theorem create_omitted_optional_fields (guestInput : InsertGuest.t)
    (volunteerInput : InsertVolunteer.t) (this : MemStorage.t) :
  let guest := fst (MemStorage.createGuest guestInput this) in
  let volunteer := fst (MemStorage.createVolunteer volunteerInput this) in
  (InsertGuest.joinNewsletter guestInput = undefined ->
   Guest.joinNewsletter guest = None /\ Guest.joinNewsletter guest <> Some false)
  /\ (InsertGuest.phone guestInput = undefined -> Guest.phone guest = None)
  /\ (InsertGuest.brideName guestInput = undefined ->
      Guest.brideName guest = None)
  /\ (InsertGuest.groomName guestInput = undefined ->
      Guest.groomName guest = None)
  /\ (InsertGuest.tourGuide guestInput = undefined ->
      Guest.tourGuide guest = None)
  /\ (InsertVolunteer.timeOut volunteerInput = undefined ->
      Volunteer.timeOut volunteer = None)
  /\ In guest
        (MemStorage.getGuests (snd (MemStorage.createGuest guestInput this)))
  /\ In volunteer
        (MemStorage.getVolunteers
           (snd (MemStorage.createVolunteer volunteerInput this)))
  /\ Guest.joinNewsletter
       (fst (MemStorage.createGuest Sample.historicGuest
                                    MemStorage.constructor)) = None.
Proof.
  intros guest volunteer. subst guest volunteer. simpl.
  repeat match goal with |- _ /\ _ => split end;
    try (intros ->; simpl; try split; try reflexivity; discriminate).
  - apply Map_In_values_set.
  - apply Map_In_values_set.
  - reflexivity.
Qed.

(* ================================================================= *)
(** * Distinct names in ascending order *)

Lemma String_compare_refl (s : string) : String.compare s s = Eq.
Proof.
  induction s as [|a s IH]; simpl; [reflexivity|].
  unfold Ascii.compare. rewrite N.compare_refl. exact IH.
Qed.

Lemma String_compare_lt_trans (a b c : string) :
  String.compare a b = Lt -> String.compare b c = Lt ->
  String.compare a c = Lt.
Proof.
  revert b c. induction a as [|x a IH]; intros [|y b] [|z c]; simpl;
    try discriminate; try reflexivity.
  destruct (Ascii.compare x y) eqn:Hxy; try discriminate;
    destruct (Ascii.compare y z) eqn:Hyz; try discriminate; intros Hab Hbc.
  - apply Ascii.compare_eq_iff in Hxy, Hyz. subst y z.
    unfold Ascii.compare. rewrite N.compare_refl. eapply IH; eassumption.
  - apply Ascii.compare_eq_iff in Hxy. subst y. rewrite Hyz. reflexivity.
  - apply Ascii.compare_eq_iff in Hyz. subst z. rewrite Hxy. reflexivity.
  - unfold Ascii.compare in *. rewrite N.compare_lt_iff in *.
    assert (Hxz : (N_of_ascii x < N_of_ascii z)%N) by lia.
    apply N.compare_lt_iff in Hxz. rewrite Hxz. reflexivity.
Qed.

Lemma String_leb_neq_ltb (a b : string) :
  String.leb a b = true -> a <> b -> String.ltb a b = true.
Proof.
  unfold String.leb, String.ltb. intros Hle Hne.
  destruct (String.compare a b) eqn:E; try reflexivity; try discriminate.
  apply String.compare_eq_iff in E. contradiction.
Qed.

Lemma String_ltb_trans (a b c : string) :
  String.ltb a b = true -> String.ltb b c = true -> String.ltb a c = true.
Proof.
  unfold String.ltb. intros Hab Hbc.
  destruct (String.compare a b) eqn:E1; try discriminate.
  destruct (String.compare b c) eqn:E2; try discriminate.
  rewrite (String_compare_lt_trans a b c E1 E2). reflexivity.
Qed.

Lemma String_ltb_irrefl (a : string) : String.ltb a a = false.
Proof. unfold String.ltb. rewrite String_compare_refl. reflexivity. Qed.

Section SetFacts.
Context {A : Type} (eqb : A -> A -> bool).
Hypothesis eqb_eq : forall x y, eqb x y = true <-> x = y.

Lemma existsb_eqb_In (x : A) (l : list A) : existsb (eqb x) l = true <-> In x l.
Proof.
  rewrite existsb_exists. split.
  - intros [y [Hin Heq]]. apply eqb_eq in Heq. subst y. exact Hin.
  - intros Hin. exists x. split; [exact Hin | apply eqb_eq; reflexivity].
Qed.

Lemma Set_fold_In (xs seen : list A) (x : A) :
  In x (fold_left (Set_add eqb) xs seen) <-> In x seen \/ In x xs.
Proof.
  revert seen. induction xs as [|y xs IH]; intros seen; simpl.
  - tauto.
  - rewrite IH. unfold Set_add.
    destruct (existsb (eqb y) seen) eqn:E.
    + apply existsb_eqb_In in E. split; [tauto|].
      intros [H|[H|H]]; auto. subst y. auto.
    + rewrite in_app_iff. simpl. tauto.
Qed.

Lemma Set_fold_NoDup (xs seen : list A) :
  NoDup seen -> NoDup (fold_left (Set_add eqb) xs seen).
Proof.
  revert seen. induction xs as [|y xs IH]; intros seen Hnd; simpl.
  - exact Hnd.
  - apply IH. unfold Set_add.
    destruct (existsb (eqb y) seen) eqn:E; [exact Hnd|].
    apply NoDup_app_remove_l with (l := []). simpl.
    apply Permutation_NoDup with (l := y :: seen).
    + apply Permutation_cons_append.
    + constructor; [|exact Hnd].
      intros Hin. apply existsb_eqb_In in Hin. congruence.
Qed.

Lemma Set_from_In (xs : list A) (x : A) : In x (Set_from eqb xs) <-> In x xs.
Proof. unfold Set_from. rewrite Set_fold_In. simpl. tauto. Qed.

Lemma Set_from_NoDup (xs : list A) : NoDup (Set_from eqb xs).
Proof. apply Set_fold_NoDup. constructor. Qed.

End SetFacts.

Section SortFacts.
Context {A : Type} (leb : A -> A -> bool).
Hypothesis leb_total : forall x y, leb x y = true \/ leb y x = true.

Lemma sort_insert_perm (x : A) (l : list A) :
  Permutation (sort_insert leb x l) (x :: l).
Proof.
  induction l as [|y l IH]; simpl; [reflexivity|].
  destruct (leb x y); [reflexivity|].
  rewrite IH. apply perm_swap.
Qed.

Lemma sort_perm (l : list A) : Permutation (sort leb l) l.
Proof.
  induction l as [|x l IH]; simpl; [constructor|].
  rewrite sort_insert_perm. constructor. exact IH.
Qed.

Lemma sort_insert_sorted (x : A) (l : list A) :
  Sorted (fun a b => leb a b = true) l ->
  Sorted (fun a b => leb a b = true) (sort_insert leb x l).
Proof.
  induction l as [|y l IH]; simpl; intros Hs.
  - constructor; constructor.
  - destruct (leb x y) eqn:E.
    + constructor; [exact Hs | constructor; exact E].
    + apply Sorted_inv in Hs as [Hs Hhd]. constructor; [apply IH, Hs|].
      destruct l as [|z l]; simpl.
      * constructor. destruct (leb_total x y); congruence.
      * destruct (leb x z).
        -- constructor. destruct (leb_total x y); congruence.
        -- constructor. apply HdRel_inv in Hhd. exact Hhd.
Qed.

Lemma sort_sorted (l : list A) : Sorted (fun a b => leb a b = true) (sort leb l).
Proof.
  induction l as [|x l IH]; simpl; [constructor|].
  apply sort_insert_sorted, IH.
Qed.

End SortFacts.

Lemma Sorted_leb_NoDup_ltb (l : list string) :
  Sorted (fun a b => String.leb a b = true) l -> NoDup l ->
  StronglySorted (fun a b => String.ltb a b = true) l.
Proof.
  intros Hs Hnd. apply Sorted_StronglySorted.
  - intros a b c. apply String_ltb_trans.
  - induction Hs as [|a l Hs IH Hhd]; [constructor|].
    apply NoDup_cons_iff in Hnd as [Hnotin Hnd].
    constructor; [apply IH, Hnd|].
    destruct Hhd as [|b l Hab]; constructor.
    apply String_leb_neq_ltb; [exact Hab|].
    intros ->. apply Hnotin. left. reflexivity.
Qed.

(** A set of strings has one strictly ascending arrangement. *)
Lemma ascending_unique (l1 : list string) :
  forall l2 : list string,
    StronglySorted (fun a b => String.ltb a b = true) l1 ->
    StronglySorted (fun a b => String.ltb a b = true) l2 ->
    (forall n, In n l1 <-> In n l2) -> l1 = l2.
Proof.
  induction l1 as [|a l1 IH]; intros [|b l2] H1 H2 Hsame.
  - reflexivity.
  - exfalso. apply (proj2 (Hsame b)). left. reflexivity.
  - exfalso. apply (proj1 (Hsame a)). left. reflexivity.
  - apply StronglySorted_inv in H1 as [H1 Ha].
    apply StronglySorted_inv in H2 as [H2 Hb].
    rewrite Forall_forall in Ha, Hb.
    assert (Hab : a = b).
    { destruct (proj1 (Hsame a) (or_introl eq_refl)) as [E|Hin2];
        [congruence|].
      destruct (proj2 (Hsame b) (or_introl eq_refl)) as [E|Hin1];
        [exact E|].
      pose proof (String_ltb_trans _ _ _ (Ha b Hin1) (Hb a Hin2)) as Hcycle.
      rewrite String_ltb_irrefl in Hcycle. discriminate. }
    subst b. f_equal. apply IH; [exact H1 | exact H2|].
    intros n. split; intros Hin.
    + destruct (proj1 (Hsame n) (or_intror Hin)) as [E|Hin2]; [|exact Hin2].
      subst n. specialize (Ha a Hin).
      rewrite String_ltb_irrefl in Ha. discriminate.
    + destruct (proj2 (Hsame n) (or_intror Hin)) as [E|Hin1]; [|exact Hin1].
      subst n. specialize (Hb a Hin).
      rewrite String_ltb_irrefl in Hb. discriminate.
Qed.

Lemma unique_sorted_names (names : list string) :
  let result := sort String.leb (Set_from String.eqb names) in
  (forall n, In n result <-> In n names)
  /\ NoDup result
  /\ StronglySorted (fun a b => String.ltb a b = true) result
  /\ (forall l, StronglySorted (fun a b => String.ltb a b = true) l ->
                (forall n, In n l <-> In n names) -> l = result).
Proof.
  intros result. subst result.
  assert (Hmem : forall n,
             In n (sort String.leb (Set_from String.eqb names))
             <-> In n names).
  { pose proof (sort_perm String.leb (Set_from String.eqb names)) as Hperm.
    intros n. split; intros Hn.
    + apply (Set_from_In String.eqb String.eqb_eq).
      eapply Permutation_in; [exact Hperm | exact Hn].
    + eapply Permutation_in; [symmetry; exact Hperm|].
      apply (Set_from_In String.eqb String.eqb_eq). exact Hn. }
  pose proof (sort_perm String.leb (Set_from String.eqb names)) as Hperm.
  assert (Hnd : NoDup (sort String.leb (Set_from String.eqb names))).
  { eapply Permutation_NoDup; [symmetry; exact Hperm|].
    apply Set_from_NoDup. apply String.eqb_eq. }
  assert (Hasc : StronglySorted (fun a b => String.ltb a b = true)
                   (sort String.leb (Set_from String.eqb names))).
  { apply Sorted_leb_NoDup_ltb; [|exact Hnd].
    apply sort_sorted. apply String.leb_total. }
  split; [exact Hmem|]. split; [exact Hnd|]. split; [exact Hasc|].
  intros l Hl Hsame. apply ascending_unique; [exact Hl | exact Hasc|].
  intros n. rewrite Hsame, Hmem. reflexivity.
Qed.

(** C7. [getUniqueVolunteerNames()] holds exactly the names that occur in
    the volunteer rows, each one once, in strictly ascending order of their
    code units, whatever the number of rows that bear a name, and it is the
    only list that does; rows named Bob, Ann, Bob give Ann, Bob.
    [getUniqueStaffNames()] does the same over the staff rows. *)
Theorem unique_names_distinct_ascending (this : MemStorage.t) :
  let volunteerNames := MemStorage.getUniqueVolunteerNames this in
  let staffNames := MemStorage.getUniqueStaffNames this in
  ((forall n, In n volunteerNames <->
              exists v, In v (MemStorage.getVolunteers this)
                        /\ Volunteer.name v = n)
   /\ NoDup volunteerNames
   /\ StronglySorted (fun a b => String.ltb a b = true) volunteerNames
   /\ (forall l, StronglySorted (fun a b => String.ltb a b = true) l ->
         (forall n, In n l <->
                    In n (map Volunteer.name (MemStorage.getVolunteers this)))
         -> l = volunteerNames)
   /\ (map Volunteer.name (MemStorage.getVolunteers this)
       = ["Bob"; "Ann"; "Bob"]%string ->
       volunteerNames = ["Ann"; "Bob"]%string))
  /\ ((forall n, In n staffNames <->
                 exists s, In s (MemStorage.getStaff this)
                           /\ Staff.name s = n)
      /\ NoDup staffNames
      /\ StronglySorted (fun a b => String.ltb a b = true) staffNames
      /\ (forall l, StronglySorted (fun a b => String.ltb a b = true) l ->
            (forall n, In n l <->
                       In n (map Staff.name (MemStorage.getStaff this)))
            -> l = staffNames)
      /\ (map Staff.name (MemStorage.getStaff this)
          = ["Bob"; "Ann"; "Bob"]%string ->
          staffNames = ["Ann"; "Bob"]%string)).
Proof.
  intros volunteerNames staffNames. subst volunteerNames staffNames.
  unfold MemStorage.getUniqueVolunteerNames, MemStorage.getUniqueStaffNames,
    MemStorage.getVolunteers, MemStorage.getStaff.
  split.
  - destruct (unique_sorted_names
                (map Volunteer.name (Map.values (MemStorage.volunteers this))))
      as (Hin & Hnd & Hs & Huniq).
    split; [|split; [exact Hnd | split; [exact Hs | split; [exact Huniq|]]]].
    + intros n. rewrite Hin, in_map_iff.
      split; intros [x Hx]; exists x; tauto.
    + intros ->. reflexivity.
  - destruct (unique_sorted_names
                (map Staff.name (Map.values (MemStorage.staff this))))
      as (Hin & Hnd & Hs & Huniq).
    split; [|split; [exact Hnd | split; [exact Hs | split; [exact Huniq|]]]].
    + intros n. rewrite Hin, in_map_iff.
      split; intros [x Hx]; exists x; tauto.
    + intros ->. reflexivity.
Qed.

(* ================================================================= *)
(** * Identities along a sequence of calls *)

Section Identities.
Local Open Scope Z_scope.

Lemma run_cons (c : call) (cs : list call) (this : MemStorage.t) :
  run (c :: cs) this =
    (fst (step c this) :: fst (run cs (snd (step c this))),
     snd (run cs (snd (step c this)))).
Proof.
  simpl. destruct (step c this) as [a this']. simpl.
  destruct (run cs this'). reflexivity.
Qed.

Lemma created_cons (k : PersonType.t) (a : answer) (l : list answer) :
  created k (a :: l) = (created k [a] ++ created k l)%list.
Proof.
  destruct a as [k' id|k' id b]; simpl; [|reflexivity].
  destruct (PersonType_eqb k k'); reflexivity.
Qed.

(** A call either takes the identity at the counter of its kind and moves
    the counter by one, or creates nothing in that kind and leaves the
    counter. *)
Lemma step_counter (c : call) (this : MemStorage.t) (k : PersonType.t) :
  (created k [fst (step c this)] = [counter k this]
   /\ counter k (snd (step c this)) = counter k this + 1)
  \/ (created k [fst (step c this)] = []
      /\ counter k (snd (step c this)) = counter k this).
Proof.
  destruct c as [i|i|i|k' id]; destruct k; simpl; auto;
    destruct k'; simpl; auto.
Qed.

Lemma run_created (cs : list call) :
  forall (this : MemStorage.t) (k : PersonType.t),
    counter k this <= counter k (snd (run cs this))
    /\ Forall (fun id => counter k this <= id < counter k (snd (run cs this)))
              (created k (fst (run cs this)))
    /\ StronglySorted Z.lt (created k (fst (run cs this))).
Proof.
  induction cs as [|c cs IH]; intros this k.
  - simpl. split; [lia | split; constructor].
  - rewrite run_cons. cbn [fst snd]. rewrite created_cons.
    destruct (IH (snd (step c this)) k) as (Hle & Hall & Hsorted).
    destruct (step_counter c this k) as [[Hc Hn]|[Hc Hn]];
      rewrite Hc; rewrite Hn in *; simpl.
    + split; [lia|]. split.
      * constructor; [lia|].
        eapply Forall_impl; [|exact Hall]. simpl. intros; lia.
      * constructor; [exact Hsorted|].
        eapply Forall_impl; [|exact Hall]. simpl. intros; lia.
    + split; [exact Hle | split; [exact Hall | exact Hsorted]].
Qed.

Lemma deleted_below_counter (c : call) (this : MemStorage.t)
    (k : PersonType.t) (id : Z) :
  Inv this -> fst (step c this) = Deleted k id true ->
  id < counter k this /\ counter k (snd (step c this)) = counter k this.
Proof.
  intros (Hv & Hg & Hs) Hstep.
  destruct c as [i|i|i|k' id']; simpl in Hstep; try discriminate.
  destruct k'; simpl in Hstep; injection Hstep as <- <- Hhas; simpl.
  - split; [eapply filed_has_lt; eassumption | reflexivity].
  - split; [eapply filed_has_lt; eassumption | reflexivity].
  - split; [eapply filed_has_lt; eassumption | reflexivity].
Qed.

Lemma freed_not_created_again (cs : list call) :
  forall (this : MemStorage.t) pre k id post,
    Inv this ->
    fst (run cs this) = (pre ++ Deleted k id true :: post)%list ->
    ~ In id (created k post).
Proof.
  induction cs as [|c cs IH]; intros this pre k id post HI Hlog.
  - simpl in Hlog. destruct pre; discriminate.
  - rewrite run_cons in Hlog. cbn [fst] in Hlog.
    destruct pre as [|a pre]; simpl in Hlog; injection Hlog as Ha Hpost.
    + destruct (deleted_below_counter c this k id HI Ha) as [Hlt Hsame].
      destruct (run_created cs (snd (step c this)) k) as (_ & Hall & _).
      rewrite Hpost in Hall. rewrite Forall_forall in Hall.
      intros Hin. specialize (Hall id Hin). lia.
    + eapply IH; [apply Inv_step, HI | exact Hpost].
Qed.

Lemma StronglySorted_lt_NoDup (l : list Z) : StronglySorted Z.lt l -> NoDup l.
Proof.
  induction 1 as [|a l Hs IH Hall]; constructor; [|exact IH].
  intros Hin. rewrite Forall_forall in Hall. specialize (Hall a Hin). lia.
Qed.

End Identities.

(** C8. Along any sequence of creations and deletions on a new
    [MemStorage], the identities given to the records of one kind grow
    strictly from one creation to the next, so that no two are equal, and
    an identity whose record [deletePerson] removed is given to no record
    created afterwards in that kind. *)
Theorem identities_increasing_never_reused (cs : list call)
    (k : PersonType.t) :
  let log := fst (run cs MemStorage.constructor) in
  StronglySorted Z.lt (created k log)
  /\ NoDup (created k log)
  /\ (forall pre id post,
        log = (pre ++ Deleted k id true :: post)%list ->
        ~ In id (created k post)).
Proof.
  intros log. subst log.
  destruct (run_created cs MemStorage.constructor k) as (_ & _ & Hsorted).
  split; [exact Hsorted|]. split.
  - apply StronglySorted_lt_NoDup, Hsorted.
  - intros pre id post Hlog.
    eapply freed_not_created_again; [apply Inv_constructor | exact Hlog].
Qed.

(* ================================================================= *)
(** * The hours of the statistics *)

Lemma nearest_integer_within_half (q : Q) :
  Qabs (q - inject_Z (nearest_integer q)) <= 1 # 2.
Proof.
  unfold nearest_integer.
  pose proof (Qfloor_le (q + (1 # 2))) as Hle.
  pose proof (Qlt_floor (q + (1 # 2))) as Hlt.
  rewrite inject_Z_plus in Hlt. change (inject_Z 1) with 1 in Hlt.
  apply Qabs_Qle_condition. split; lra.
Qed.

Section HoursFacts.
Variable DateParse : string -> option Z.

Lemma truthy_present (x : option string) : truthy x = present x.
Proof. destruct x as [[|c s]|]; reflexivity. Qed.

Lemma truthy_both_present (s : Staff.t) :
  truthy (Staff.timeIn s) && truthy (Staff.timeOut s) = both_present s.
Proof.
  unfold both_present.
  rewrite (truthy_present (Staff.timeIn s)).
  rewrite (truthy_present (Staff.timeOut s)). reflexivity.
Qed.

Lemma totalHours_step_absent (total : number) (s : Staff.t) :
  both_present s = false -> totalHours_step DateParse total s = total.
Proof.
  unfold totalHours_step. rewrite truthy_both_present.
  intros ->. reflexivity.
Qed.

Lemma add_NaN_r (x : number) : add x NaN = NaN.
Proof. destruct x; reflexivity. Qed.

Lemma sub_NaN_r (x : number) : sub x NaN = NaN.
Proof. destruct x; reflexivity. Qed.

Lemma Math_max_NaN_r (x : number) : Math_max x NaN = NaN.
Proof. destruct x; reflexivity. Qed.

Lemma totalHours_step_present (total : number) (s : Staff.t) :
  both_present s = true ->
  totalHours_step DateParse total s = add total (double_hours DateParse s).
Proof.
  unfold totalHours_step. rewrite truthy_both_present.
  intros ->. reflexivity.
Qed.

Lemma double_hours_unparsed (s : Staff.t) :
  ~ parsed DateParse s -> double_hours DateParse s = NaN.
Proof.
  unfold parsed, double_hours, double_time. intros Hnot.
  destruct (on_reference_date DateParse (Staff.timeOut s)) as [tout|].
  - destruct (on_reference_date DateParse (Staff.timeIn s)) as [tin|].
    + exfalso. apply Hnot. split; discriminate.
    + rewrite sub_NaN_r. reflexivity.
  - reflexivity.
Qed.

Lemma totalHours_step_unparsed (total : number) (s : Staff.t) :
  both_present s = true -> ~ parsed DateParse s ->
  totalHours_step DateParse total s = NaN.
Proof.
  intros Hp Hnot. rewrite (totalHours_step_present total s Hp).
  rewrite (double_hours_unparsed s Hnot). apply add_NaN_r.
Qed.

Lemma totalHours_step_NaN (s : Staff.t) :
  totalHours_step DateParse NaN s = NaN.
Proof.
  unfold totalHours_step. rewrite truthy_both_present.
  destruct (both_present s); reflexivity.
Qed.

Lemma fold_totalHours_NaN (rows : list Staff.t) :
  fold_left (totalHours_step DateParse) rows NaN = NaN.
Proof.
  induction rows as [|s rows IH]; simpl; [reflexivity|].
  rewrite totalHours_step_NaN. exact IH.
Qed.

Lemma fold_totalHours_double (rows : list Staff.t) :
  forall total,
    fold_left (totalHours_step DateParse) rows total
    = fold_left add (map (double_hours DateParse) (filter both_present rows))
                total.
Proof.
  induction rows as [|s rows IH]; intros total; simpl; [reflexivity|].
  destruct (both_present s) eqn:E; simpl.
  - rewrite (totalHours_step_present total s E). apply IH.
  - rewrite (totalHours_step_absent total s E). apply IH.
Qed.

Lemma fold_totalHours_unparsed (rows : list Staff.t) :
  (exists s, In s rows /\ both_present s = true /\ ~ parsed DateParse s) ->
  forall total, fold_left (totalHours_step DateParse) rows total = NaN.
Proof.
  intros [s [Hin [Hp Hn]]] total.
  apply in_split in Hin as [l1 [l2 ->]].
  rewrite fold_left_app. simpl.
  rewrite (totalHours_step_unparsed _ s Hp Hn). apply fold_totalHours_NaN.
Qed.

Lemma fold_totalHours_same_times (rows rows' : list Staff.t) :
  Forall2 same_times rows rows' ->
  forall total,
    fold_left (totalHours_step DateParse) rows total
    = fold_left (totalHours_step DateParse) rows' total.
Proof.
  induction 1 as [|s s' rows rows' [Hin Hout] _ IH]; intros total; simpl.
  - reflexivity.
  - unfold totalHours_step at 2 4. rewrite Hin, Hout. apply IH.
Qed.

Lemma GET_api_stats_returns {S} `{IStorage S} (storage : S)
    volunteers guests staff :
  getVolunteers storage = Return volunteers ->
  getGuests storage = Return guests ->
  getStaff storage = Return staff ->
  GET_api_stats DateParse storage
  = res_json {| Stats.volunteers := List.length volunteers;
                Stats.guests := List.length guests;
                Stats.hours := Math_round (totalHours DateParse staff) |}.
Proof.
  intros Hv Hg Hs. unfold GET_api_stats. rewrite Hv, Hg, Hs. reflexivity.
Qed.

End HoursFacts.

Lemma totalHours_without_absent (DateParse : string -> option Z)
    (l1 l2 : list Staff.t) (s : Staff.t) :
  both_present s = false ->
  totalHours DateParse (l1 ++ s :: l2) = totalHours DateParse (l1 ++ l2).
Proof.
  intros Habs. unfold totalHours. rewrite !fold_left_app. simpl.
  rewrite (totalHours_step_absent DateParse _ s Habs). reflexivity.
Qed.

(** C1, as it is stated, fails. Three staff rows have both times, which
    are read: shifts of one second, of 23 minutes 18 seconds and of 6
    minutes 41 seconds. The sum of the three differences is half an hour,
    whose nearest integer is 1. The handler adds the three quotients as
    doubles, which gives the double just under one half, and answers 0. *)
Lemma stats_hours_not_nearest_to_sum :
  Forall (fun s => both_present s = true /\ parsed DateModel.Date_parse s)
         (MemStorage.getStaff Sample.shortShifts)
  /\ sum_hours DateModel.Date_parse (MemStorage.getStaff Sample.shortShifts)
     == 1 # 2
  /\ nearest_integer
       (sum_hours DateModel.Date_parse
          (MemStorage.getStaff Sample.shortShifts)) = 1%Z
  /\ totalHours DateModel.Date_parse (MemStorage.getStaff Sample.shortShifts)
     = S754_finite false 9007199254740991 (-54)
  /\ GET_api_stats DateModel.Date_parse Sample.shortShifts
     = res_json {| Stats.volunteers := 0; Stats.guests := 0;
                   Stats.hours := of_int 0 |}
  /\ Math_round (totalHours DateModel.Date_parse
                   (MemStorage.getStaff Sample.shortShifts))
     <> of_int (nearest_integer
                  (sum_hours DateModel.Date_parse
                     (MemStorage.getStaff Sample.shortShifts))).
Proof.
  split.
  { repeat constructor; discriminate. }
  split; [reflexivity|]. split; [reflexivity|].
  split; [vm_compute; reflexivity|]. split; [vm_compute; reflexivity|].
  vm_compute. discriminate.
Qed.

(** C1, amended. For every sequence of staff rows and every reading of the
    times, the [hours] of the statistics are [Math.round] of the sum in
    doubles, taken from 0 in the order of the rows, of
    [Math.max(0, (timeOut - timeIn) / 3600000)] over the rows in which
    [timeIn] and [timeOut] are both present, the two times being read on
    the reference date. The [date] of a row takes no part: rows with the
    same times give the same hours. A row without one of the two times adds
    nothing. One row from 9:00:00 AM to 5:00:00 PM gives 8, one row from
    5:00:00 PM to 9:00:00 AM gives 0, and one row without [timeOut] gives
    0. *)
Theorem stats_hours_rounded_double_sum
    (DateParse : string -> option Z) (staff : list Staff.t) :
  let hours := Math_round (totalHours DateParse staff) in
  hours
  = Math_round
      (double_sum (map (double_hours DateParse) (filter both_present staff)))
  /\ (forall (S : Type) (I : IStorage S) (storage : S) volunteers guests,
        getVolunteers storage = Return volunteers ->
        getGuests storage = Return guests ->
        getStaff storage = Return staff ->
        GET_api_stats DateParse storage
        = res_json {| Stats.volunteers := List.length volunteers;
                      Stats.guests := List.length guests;
                      Stats.hours := hours |})
  /\ (forall staff', Forall2 same_times staff staff' ->
        Math_round (totalHours DateParse staff') = hours)
  /\ (forall l1 s l2, staff = (l1 ++ s :: l2)%list ->
        Staff.timeIn s = None \/ Staff.timeOut s = None ->
        Math_round (totalHours DateParse (l1 ++ l2)) = hours)
  /\ (forall id name date notes,
        Math_round (totalHours DateModel.Date_parse
          [ {| Staff.id := id; Staff.name := name; Staff.date := date;
               Staff.timeIn := Some "9:00:00 AM"%string;
               Staff.timeOut := Some "5:00:00 PM"%string;
               Staff.notes := notes |} ]) = of_int 8)
  /\ (forall id name date notes,
        Math_round (totalHours DateModel.Date_parse
          [ {| Staff.id := id; Staff.name := name; Staff.date := date;
               Staff.timeIn := Some "5:00:00 PM"%string;
               Staff.timeOut := Some "9:00:00 AM"%string;
               Staff.notes := notes |} ]) = of_int 0)
  /\ (forall parse id name date timeIn notes,
        Math_round (totalHours parse
          [ {| Staff.id := id; Staff.name := name; Staff.date := date;
               Staff.timeIn := timeIn; Staff.timeOut := None;
               Staff.notes := notes |} ]) = of_int 0).
Proof.
  intros hours. subst hours.
  split; [|split; [|split; [|split; [|split; [|split]]]]].
  - unfold totalHours, double_sum.
    rewrite (fold_totalHours_double DateParse staff). reflexivity.
  - intros S I storage volunteers guests Hv Hg Hs.
    apply GET_api_stats_returns; assumption.
  - intros staff' Hsame. unfold totalHours.
    rewrite (fold_totalHours_same_times DateParse staff staff' Hsame).
    reflexivity.
  - intros l1 s l2 -> Hnone. f_equal. symmetry.
    apply totalHours_without_absent. unfold both_present.
    destruct Hnone as [-> | ->]; simpl; [reflexivity|].
    apply andb_false_r.
  - intros. vm_compute. reflexivity.
  - intros. vm_compute. reflexivity.
  - intros. unfold totalHours. simpl.
    rewrite totalHours_step_absent; [reflexivity|].
    unfold both_present. simpl. apply andb_false_r.
Qed.

(** C2, as it is stated, fails: with a row whose [timeOut] is no time next
    to a row of eight hours, the hours of the statistics are [NaN], not the
    8 that the other row gives alone. *)
Lemma stats_unparsable_row_not_skipped :
  Forall (fun s => both_present s = true) (MemStorage.getStaff Sample.oneShiftAndGarbled)
  /\ GET_api_stats DateModel.Date_parse Sample.oneShift
     = res_json {| Stats.volunteers := 0; Stats.guests := 0;
                   Stats.hours := of_int 8 |}
  /\ GET_api_stats DateModel.Date_parse Sample.oneShiftAndGarbled
     = res_json {| Stats.volunteers := 0; Stats.guests := 0;
                   Stats.hours := NaN |}
  /\ Math_round (totalHours DateModel.Date_parse
                   (MemStorage.getStaff Sample.oneShiftAndGarbled))
     <> Math_round (totalHours DateModel.Date_parse
                      (MemStorage.getStaff Sample.oneShift)).
Proof.
  split; [repeat constructor|].
  split; [vm_compute; reflexivity|]. split; [vm_compute; reflexivity|].
  vm_compute. discriminate.
Qed.

(** C2, amended. The computation of the statistics throws nothing: when the
    storage gives its rows the handler answers with the statistics. When a
    row in which both times are present has a time that the runtime cannot
    read, the hours are [NaN], whatever the other rows are and wherever the
    row stands among them. *)
Theorem stats_unparsable_time_gives_NaN
    (DateParse : string -> option Z) (staff : list Staff.t) :
  (forall (S : Type) (I : IStorage S) (storage : S) volunteers guests,
     getVolunteers storage = Return volunteers ->
     getGuests storage = Return guests ->
     getStaff storage = Return staff ->
     GET_api_stats DateParse storage
     = res_json {| Stats.volunteers := List.length volunteers;
                   Stats.guests := List.length guests;
                   Stats.hours := Math_round (totalHours DateParse staff) |})
  /\ ((exists s, In s staff /\ both_present s = true /\ ~ parsed DateParse s) ->
      totalHours DateParse staff = NaN
      /\ Math_round (totalHours DateParse staff) = NaN).
Proof.
  split.
  - intros S I storage volunteers guests Hv Hg Hs.
    apply GET_api_stats_returns; assumption.
  - intros Hbad. unfold totalHours.
    rewrite (fold_totalHours_unparsed DateParse staff Hbad).
    split; reflexivity.
Qed.

Lemma stats_unparsable_time_gives_NaN_witness :
  Math_round (totalHours DateModel.Date_parse
                (MemStorage.getStaff Sample.oneShiftAndGarbled)) = NaN.
Proof.
  apply (stats_unparsable_time_gives_NaN DateModel.Date_parse
           (MemStorage.getStaff Sample.oneShiftAndGarbled)).
  eexists. split; [right; left; reflexivity|].
  split; [reflexivity|]. intros [_ Hout]. apply Hout. reflexivity.
Defined.

(* ================================================================= *)
(** * Validation of a guest registration *)

Section GuestSchema.
Local Open Scope string_scope.
Import Schema.

Lemma insertGuestSchema_columns :
  insertGuestSchema = [
    {| key := "name"; data := text; notNull := true; hasDefault := false |};
    {| key := "email"; data := text; notNull := true; hasDefault := false |};
    {| key := "phone"; data := text; notNull := false; hasDefault := false |};
    {| key := "reason"; data := text; notNull := true; hasDefault := false |};
    {| key := "joinNewsletter"; data := boolean; notNull := false;
       hasDefault := true |};
    {| key := "brideName"; data := text; notNull := false;
       hasDefault := false |};
    {| key := "groomName"; data := text; notNull := false;
       hasDefault := false |};
    {| key := "tourGuide"; data := text; notNull := false;
       hasDefault := false |};
    {| key := "date"; data := text; notNull := true; hasDefault := false |} ].
Proof. reflexivity. Qed.

Lemma field_issues_path (c : column) (v : option json) (i : ZodIssue) :
  In i (field_issues c v) -> path i = [key c].
Proof.
  unfold field_issues.
  destruct v as [[|b|z|s|l|o]|]; simpl;
    repeat match goal with
           | |- context [if ?b then _ else _] => destruct b
           end; simpl; intros H; try contradiction;
    destruct H as [<-|[]]; reflexivity.
Qed.

(** A column that may be null and is omitted raises no issue. *)
Lemma field_issues_nullable_omitted (c : column) :
  notNull c = false -> field_issues c None = [].
Proof. unfold field_issues. intros ->. reflexivity. Qed.

Lemma obj_get_strip (schema : list column) (o : list (string * json))
    (k : string) :
  obj_get k (strip schema o) =
  if existsb (String.eqb k) (map key schema) then obj_get k o else None.
Proof.
  unfold strip. induction schema as [|c schema IH]; simpl; [reflexivity|].
  destruct (String.eqb_spec k (key c)) as [->|Hne]; simpl.
  - destruct (obj_get (key c) o) as [v|] eqn:E; simpl.
    + rewrite String.eqb_refl. reflexivity.
    + rewrite IH. destruct (existsb _ _); reflexivity.
  - destruct (obj_get (key c) o) as [v|]; simpl; [|exact IH].
    destruct (String.eqb_spec k (key c)); [contradiction | exact IH].
Qed.

Lemma wedding_without_bride_issues (o : list (string * json)) :
  obj_get "brideName" o = None ->
  Forall (fun i => path i <> ["brideName"]) (schema_issues insertGuestSchema o).
Proof.
  intros Hbride. apply Forall_forall. intros i Hi Hpath.
  unfold schema_issues in Hi. apply in_flat_map in Hi as [c [Hc Hi]].
  pose proof (field_issues_path _ _ _ Hi) as Hkey.
  rewrite Hpath in Hkey. injection Hkey as Hkey.
  rewrite insertGuestSchema_columns in Hc. simpl in Hc.
  repeat (destruct Hc as [<-|Hc]; [try discriminate Hkey|]);
    try contradiction.
  simpl in Hi. rewrite Hbride in Hi. exact Hi.
Qed.

End GuestSchema.

(** C3, as it is stated, fails: a wedding registration without [brideName]
    is answered with the created guest, and the guest is stored. *)
Lemma POST_wedding_guest_without_brideName_accepted :
  Schema.obj_get "reason" Sample.weddingWithoutBride
  = Some (Schema.JString "wedding")
  /\ Schema.obj_get "brideName" Sample.weddingWithoutBride = None
  /\ (forall g this',
        POST_api_guest (Schema.JObject Sample.weddingWithoutBride)
                       MemStorage.constructor = (res_json g, this') ->
        Guest.brideName g = None /\ MemStorage.getGuests this' = [g])
  /\ (forall code message errors,
        fst (POST_api_guest (Schema.JObject Sample.weddingWithoutBride)
                            MemStorage.constructor)
        <> res_status_json code message errors)
  /\ MemStorage.getGuests
       (snd (POST_api_guest (Schema.JObject Sample.weddingWithoutBride)
                            MemStorage.constructor)) <> [].
Proof.
  split; [reflexivity|]. split; [reflexivity|]. split; [|split].
  - intros g this' H. vm_compute in H. injection H as <- <-.
    split; reflexivity.
  - intros code message errors. vm_compute. discriminate.
  - vm_compute. discriminate.
Qed.

(** C3, amended. For a body whose [reason] is "wedding" and which has no
    [brideName], the validation raises no issue on [brideName]. When it
    raises no issue at all, the guest is created and stored with a null
    [brideName]; when it raises one, on another field, the answer is the
    error 400 with the issues and the store is left as it was. *)
Theorem POST_wedding_guest_without_brideName
    (o : list (string * Schema.json)) (this : MemStorage.t) :
  Schema.obj_get "reason" o = Some (Schema.JString "wedding") ->
  Schema.obj_get "brideName" o = None ->
  let issues := Schema.schema_issues Schema.insertGuestSchema o in
  let sent := POST_api_guest (Schema.JObject o) this in
  Forall (fun i => Schema.path i <> ["brideName"%string]) issues
  /\ (issues = [] ->
      exists guest,
        sent = (res_json guest,
                snd (MemStorage.createGuest
                       (Schema.inferInsertGuest
                          (Schema.strip Schema.insertGuestSchema o)) this))
        /\ Guest.reason guest = "wedding"%string
        /\ Guest.brideName guest = None
        /\ In guest (MemStorage.getGuests (snd sent)))
  /\ (issues <> [] ->
      sent = (res_status_json 400 "Invalid guest data" (Some issues), this)).
Proof.
  intros Hreason Hbride issues sent. subst issues sent.
  split; [apply wedding_without_bride_issues, Hbride|].
  unfold POST_api_guest, Schema.parse.
  destruct (Schema.schema_issues Schema.insertGuestSchema o) as [|i issues].
  - split; [|congruence]. intros _.
    assert (Hr : Schema.get_string "reason"
                   (Schema.strip Schema.insertGuestSchema o)
                 = "wedding"%string).
    { unfold Schema.get_string. rewrite obj_get_strip. simpl.
      rewrite Hreason. reflexivity. }
    assert (Hb : Schema.get_optional_string "brideName"
                   (Schema.strip Schema.insertGuestSchema o) = undefined).
    { unfold Schema.get_optional_string. rewrite obj_get_strip. simpl.
      rewrite Hbride. reflexivity. }
    remember (Schema.strip Schema.insertGuestSchema o) as stripped.
    exists (fst (MemStorage.createGuest
                   (Schema.inferInsertGuest stripped) this)).
    split; [reflexivity|]. split; [|split].
    + simpl. exact Hr.
    + simpl. rewrite Hb. reflexivity.
    + apply Map_In_values_set.
  - split; [discriminate|]. intros _. reflexivity.
Qed.

Lemma POST_wedding_guest_without_brideName_witness :
  exists guest,
    fst (POST_api_guest (Schema.JObject Sample.weddingWithoutBride)
                        MemStorage.constructor) = res_json guest
    /\ Guest.brideName guest = None.
Proof.
  destruct (POST_wedding_guest_without_brideName
              Sample.weddingWithoutBride MemStorage.constructor
              eq_refl eq_refl) as (_ & Hok & _).
  destruct (Hok eq_refl) as (guest & Hsent & _ & Hbride & _).
  exists guest. split; [rewrite Hsent; reflexivity | exact Hbride].
Defined.

Lemma deletePerson_scoped_witness :
  Inv Sample.oneOfEach
  /\ fst (MemStorage.deletePerson PersonType.staff 1 Sample.oneOfEach) = true
  /\ MemStorage.volunteers
       (snd (MemStorage.deletePerson PersonType.staff 1 Sample.oneOfEach))
     = MemStorage.volunteers Sample.oneOfEach
  /\ MemStorage.guests
       (snd (MemStorage.deletePerson PersonType.staff 1 Sample.oneOfEach))
     = MemStorage.guests Sample.oneOfEach
  /\ List.length (rows_of PersonType.volunteer Sample.oneOfEach) = 1%nat
  /\ List.length (rows_of PersonType.guest Sample.oneOfEach) = 1%nat.
Proof.
  assert (HI : Inv Sample.oneOfEach).
  { unfold Sample.oneOfEach. apply Inv_run, Inv_constructor. }
  destruct (deletePerson_scoped PersonType.staff 1 Sample.oneOfEach HI)
    as (_ & _ & _ & _ & Hstaff & _).
  destruct (Hstaff eq_refl) as [Hv Hg].
  split; [exact HI|]. split; [reflexivity|].
  split; [exact Hv|]. split; [exact Hg|]. split; reflexivity.
Defined.

(** X1. The handler of [DELETE /api/people/:type/:id] on the in-memory storage:
    it answers that the person was deleted exactly when [type] is one of
    the three kinds, [id] is a number and a row of that kind had this
    identity, and it changes no row of another kind. *)
Lemma DELETE_api_people_scoped (parseInt : string -> option Z)
    (type id : string) (this : MemStorage.t) :
  Inv this ->
  let sent := fst (DELETE_api_people parseInt type id this) in
  let this' := snd (DELETE_api_people parseInt type id this) in
  (sent = res_json "Person deleted successfully"%string <->
   exists kind personId r,
     personType_of type = Some kind /\ parseInt id = Some personId
     /\ In r (rows_of kind this) /\ row_id r = personId)
  /\ (forall k, personType_of type <> Some k ->
        rows_of k this' = rows_of k this)
  /\ Inv this'.
Proof.
  intros HI sent this'. subst sent this'. unfold DELETE_api_people.
  destruct (parseInt id) as [personId|].
  2:{ split; [|split; [reflexivity | exact HI]].
      split; [discriminate | intros (k & p & r & _ & Hp & _); discriminate]. }
  destruct (personType_of type) as [kind|].
  2:{ split; [|split; [reflexivity | exact HI]].
      split; [discriminate | intros (k & p & r & Hk & _); discriminate]. }
  pose proof (deletePerson_rows kind personId this HI) as Hdel.
  cbv zeta in Hdel. simpl deletePerson.
  destruct (MemStorage.deletePerson kind personId this) as [deleted s'].
  simpl in Hdel. destruct Hdel as (_ & _ & Hiff & Hothers & _ & HI').
  destruct deleted; simpl.
  - split; [|split; [|exact HI']].
    + split; [intros _ | reflexivity].
      destruct (proj1 Hiff eq_refl) as [r [Hin Hid]].
      exists kind, personId, r. repeat split; assumption.
    + intros k Hk. apply Hothers. congruence.
  - split; [|split; [|exact HI']].
    + split; [discriminate|].
      intros (k & p & r & Hk & Hp & Hin & Hid).
      injection Hk as <-. injection Hp as <-.
      assert (Habs : false = true) by (apply Hiff; exists r; auto).
      discriminate Habs.
    + intros k Hk. apply Hothers. congruence.
Qed.

(* ================================================================= *)
(** * Further properties of the server *)

(** ** Lookups in a [Map] *)

Section MapLookups.
Context {V : Type}.
Implicit Types (m : Map.t V) (k : Z) (v : V).

Lemma Map_get_set_eq k v m : Map.get k (Map.set k v m) = Some v.
Proof.
  induction m as [|[k' v'] m IH]; simpl.
  - rewrite Z.eqb_refl. reflexivity.
  - destruct (Z.eqb_spec k k') as [->|Hne]; simpl.
    + rewrite Z.eqb_refl. reflexivity.
    + destruct (Z.eqb_spec k k'); [contradiction | exact IH].
Qed.

Lemma Map_get_set_ne k k' v m :
  k' <> k -> Map.get k' (Map.set k v m) = Map.get k' m.
Proof.
  intros Hne. induction m as [|[k0 v0] m IH]; simpl.
  - destruct (Z.eqb_spec k' k); [contradiction | reflexivity].
  - destruct (Z.eqb_spec k k0) as [->|Hk]; simpl.
    + destruct (Z.eqb_spec k' k0); [contradiction | reflexivity].
    + destruct (Z.eqb k' k0); [reflexivity | exact IH].
Qed.

Lemma Map_remove_set_fresh k v m :
  ~ In k (Map.keys m) -> Map.remove k (Map.set k v m) = m.
Proof.
  intros Hfresh. rewrite (Map_set_fresh _ _ _ Hfresh).
  unfold Map.remove. rewrite filter_app. simpl. rewrite Z.eqb_refl. simpl.
  rewrite app_nil_r. apply Map_remove_absent, Hfresh.
Qed.

Lemma Map_has_set k v m : Map.has k (Map.set k v m) = true.
Proof. unfold Map.has. rewrite Map_get_set_eq. reflexivity. Qed.

Lemma Map_values_set_fresh k v m :
  ~ In k (Map.keys m) -> Map.values (Map.set k v m) = (Map.values m ++ [v])%list.
Proof.
  intros Hfresh. rewrite (Map_set_fresh _ _ _ Hfresh).
  unfold Map.values. rewrite map_app. reflexivity.
Qed.

End MapLookups.

(** C10. [createGuest] stores [null] for an optional field that the input
    gives with a falsy value, [false] for [joinNewsletter] or the empty
    string for [phone], [brideName], [groomName] and [tourGuide]. The
    record that is returned is filed in the store under its [id], the
    counter as it was, and is among the guests; that field of the record
    on file is [null]; and the record and the store are those of the same
    input without that field. *)
Theorem createGuest_falsy_field_is_null (input : InsertGuest.t)
    (this : MemStorage.t) :
  let guest := fst (MemStorage.createGuest input this) in
  let this' := snd (MemStorage.createGuest input this) in
  let filed_guest := Map.get (MemStorage.currentGuestId this)
                             (MemStorage.guests this') in
  MemStorage.createGuest input this
  = MemStorage.createGuest (without_falsy_fields input) this
  /\ Guest.id guest = MemStorage.currentGuestId this
  /\ filed_guest = Some guest
  /\ In guest (MemStorage.getGuests this')
  /\ (InsertGuest.joinNewsletter input = value false ->
      Guest.joinNewsletter guest = None
      /\ option_map Guest.joinNewsletter filed_guest = Some None
      /\ InsertGuest.joinNewsletter (without_falsy_fields input) = undefined)
  /\ (InsertGuest.phone input = value EmptyString ->
      Guest.phone guest = None
      /\ option_map Guest.phone filed_guest = Some None
      /\ InsertGuest.phone (without_falsy_fields input) = undefined)
  /\ (InsertGuest.brideName input = value EmptyString ->
      Guest.brideName guest = None
      /\ option_map Guest.brideName filed_guest = Some None
      /\ InsertGuest.brideName (without_falsy_fields input) = undefined)
  /\ (InsertGuest.groomName input = value EmptyString ->
      Guest.groomName guest = None
      /\ option_map Guest.groomName filed_guest = Some None
      /\ InsertGuest.groomName (without_falsy_fields input) = undefined)
  /\ (InsertGuest.tourGuide input = value EmptyString ->
      Guest.tourGuide guest = None
      /\ option_map Guest.tourGuide filed_guest = Some None
      /\ InsertGuest.tourGuide (without_falsy_fields input) = undefined).
Proof.
  intros guest this' filed_guest.
  assert (Hnull : forall A (T : Truthy A) (x : optional A),
             or_null (without_falsy x) = or_null x).
  { intros A T x. unfold without_falsy, or_null.
    destruct x as [| |a]; simpl; try reflexivity.
    unfold truthy at 1. simpl. destruct (truthy a) eqn:E; simpl.
    - rewrite E. reflexivity.
    - reflexivity. }
  assert (Hfiled : filed_guest = Some guest).
  { subst filed_guest this' guest. simpl. apply Map_get_set_eq. }
  split.
  { unfold MemStorage.createGuest, without_falsy_fields. simpl.
    rewrite !Hnull. reflexivity. }
  split; [reflexivity|]. split; [exact Hfiled|]. split.
  { subst this' guest. unfold MemStorage.getGuests. simpl.
    apply Map_In_values_set. }
  rewrite Hfiled. subst guest. unfold without_falsy_fields. simpl.
  repeat match goal with |- _ /\ _ => split end;
    intros ->; (split; [reflexivity | split; reflexivity]).
Qed.

(** ** A failed deletion *)

Lemma deletePerson_absent (kind : PersonType.t) (id : Z)
    (this : MemStorage.t) :
  fst (MemStorage.deletePerson kind id this) = false ->
  snd (MemStorage.deletePerson kind id this) = this.
Proof.
  destruct this as [vs gs ss cv cg cs].
  destruct kind; simpl; intros Hhas;
    (rewrite Map_remove_absent; [reflexivity|]);
    intros Hin; apply Map_has_In in Hin; congruence.
Qed.

(** X2. [DELETE /api/people/:type/:id] on the in-memory storage either answers
    that the person was deleted, or leaves the storage as it was and
    answers 400 for an identity that is no number, 400 for a type that is
    none of the three kinds, or 404 for a person that is not there. *)
Theorem DELETE_api_people_failure_changes_nothing
    (parseInt : string -> option Z) (type id : string)
    (this : MemStorage.t) :
  let sent := fst (DELETE_api_people parseInt type id this) in
  let this' := snd (DELETE_api_people parseInt type id this) in
  sent = res_json "Person deleted successfully"%string
  \/ (this' = this
      /\ ((parseInt id = None
           /\ sent = res_status_json 400 "Invalid person ID" None)
          \/ (parseInt id <> None /\ personType_of type = None
              /\ sent = res_status_json 400 "Invalid person type" None)
          \/ sent = res_status_json 404 "Person not found" None)).
Proof.
  intros sent this'. subst sent this'. unfold DELETE_api_people.
  destruct (parseInt id) as [personId|]; [|right; split; auto].
  destruct (personType_of type) as [kind|].
  2:{ right. split; [reflexivity|]. right. left.
      split; [discriminate | split; reflexivity]. }
  simpl deletePerson.
  pose proof (deletePerson_absent kind personId this) as Habs.
  destruct (MemStorage.deletePerson kind personId this) as [[|] s'].
  - left. reflexivity.
  - right. simpl in *. split; [apply Habs; reflexivity | auto].
Qed.

Lemma DELETE_api_people_scoped_witness :
  Inv Sample.oneOfEach
  /\ rows_of PersonType.guest
       (snd (DELETE_api_people (fun _ => Some 1%Z) "staff" "1"
                               Sample.oneOfEach))
     = rows_of PersonType.guest Sample.oneOfEach.
Proof.
  assert (HI : Inv Sample.oneOfEach).
  { unfold Sample.oneOfEach. apply Inv_run, Inv_constructor. }
  split; [exact HI|].
  apply (DELETE_api_people_scoped (fun _ => Some 1%Z) "staff" "1"
           Sample.oneOfEach HI).
  discriminate.
Defined.

(** ** What the [POST] routes read of a body *)

Section Validation.
Import Schema.

Lemma schema_issues_agree (schema : list column) (o o' : list (string * json)) :
  agree_on schema o o' ->
  schema_issues schema o = schema_issues schema o'
  /\ strip schema o = strip schema o'.
Proof.
  unfold agree_on, schema_issues, strip.
  induction 1 as [|c schema Hc _ [IH1 IH2]]; simpl; [split; reflexivity|].
  rewrite Hc, IH1, IH2. split; reflexivity.
Qed.

Lemma parse_agree (schema : list column) (o o' : list (string * json)) :
  agree_on schema o o' ->
  parse schema (JObject o) = parse schema (JObject o').
Proof.
  intros Hagree. destruct (schema_issues_agree schema o o' Hagree) as [H1 H2].
  unfold parse. rewrite H1, H2. reflexivity.
Qed.

Lemma field_issues_ok (c : column) (v : option json) :
  field_issues c v = [] <-> field_ok c v = true.
Proof.
  unfold field_issues, field_ok.
  destruct v as [[|b|z|s|l|o]|]; destruct c as [k d nn hd];
    destruct d, nn, hd; simpl; split; intros H;
    try reflexivity; try discriminate.
Qed.

Lemma schema_issues_ok (schema : list column) (o : list (string * json)) :
  schema_issues schema o = [] <->
  forallb (fun c => field_ok c (obj_get (key c) o)) schema = true.
Proof.
  unfold schema_issues. induction schema as [|c schema IH]; simpl.
  - split; reflexivity.
  - rewrite andb_true_iff, <- IH, <- field_issues_ok. split.
    + intros H. apply app_eq_nil in H. exact H.
    + intros [-> ->]. reflexivity.
Qed.

Lemma required_text_ok (k : string) (v : option json) :
  field_ok {| key := k; data := text; notNull := true; hasDefault := false |} v
  = is_string v.
Proof. destruct v as [[|b|z|s|l|o]|]; reflexivity. Qed.

Lemma nullable_text_ok (k : string) (v : option json) :
  field_ok {| key := k; data := text; notNull := false; hasDefault := false |} v
  = is_nullish_string v.
Proof. destruct v as [[|b|z|s|l|o]|]; reflexivity. Qed.

Lemma nullable_boolean_ok (k : string) (v : option json) :
  field_ok {| key := k; data := boolean; notNull := false; hasDefault := true |}
           v
  = is_nullish_boolean v.
Proof. destruct v as [[|b|z|s|l|o]|]; reflexivity. Qed.

Lemma insertVolunteerSchema_ok (o : list (string * json)) :
  schema_issues insertVolunteerSchema o = [] <->
  acceptable_volunteer (JObject o) = true.
Proof.
  rewrite schema_issues_ok. unfold acceptable_volunteer.
  let sch := eval cbv in insertVolunteerSchema in
  change insertVolunteerSchema with sch.
  cbn [forallb key].
  rewrite !required_text_ok, !nullable_text_ok, andb_true_r, !andb_assoc.
  reflexivity.
Qed.

Lemma insertGuestSchema_ok (o : list (string * json)) :
  schema_issues insertGuestSchema o = [] <->
  acceptable_guest (JObject o) = true.
Proof.
  rewrite schema_issues_ok. unfold acceptable_guest.
  let sch := eval cbv in insertGuestSchema in
  change insertGuestSchema with sch.
  cbn [forallb key].
  rewrite !required_text_ok, !nullable_text_ok, !nullable_boolean_ok,
    andb_true_r, !andb_assoc.
  reflexivity.
Qed.

Lemma insertStaffSchema_ok (o : list (string * json)) :
  schema_issues insertStaffSchema o = [] <->
  acceptable_staff (JObject o) = true.
Proof.
  rewrite schema_issues_ok. unfold acceptable_staff.
  let sch := eval cbv in insertStaffSchema in
  change insertStaffSchema with sch.
  cbn [forallb key].
  rewrite !required_text_ok, !nullable_text_ok, andb_true_r, !andb_assoc.
  reflexivity.
Qed.

Lemma parse_outcome (schema : list column) (body : json) :
  (exists o, body = JObject o /\ schema_issues schema o = []
             /\ parse schema body = Return (strip schema o))
  \/ (exists issues, issues <> [] /\ parse schema body = Throw (ZodError issues)
      /\ (forall o, body = JObject o -> schema_issues schema o = issues)).
Proof.
  destruct body as [|b|z|s|l|o];
    try (right; eexists; split; [|split; [reflexivity|]];
         [discriminate | intros o' Ho'; discriminate Ho']).
  unfold parse. destruct (schema_issues schema o) as [|i issues] eqn:E.
  - left. exists o. auto.
  - right. exists (i :: issues). split; [discriminate|].
    split; [reflexivity|]. intros o' Ho'. injection Ho' as <-. exact E.
Qed.

End Validation.

Section PostRoutes.
Import Schema.
Context {S : Type} `{IStorage S}.

Lemma POST_api_volunteer_rejected (o : list (string * json)) (storage : S) :
  schema_issues insertVolunteerSchema o <> [] ->
  POST_api_volunteer (JObject o) storage
  = (res_status_json 400 "Invalid volunteer data"
       (Some (schema_issues insertVolunteerSchema o)), storage).
Proof.
  intros Hne. unfold POST_api_volunteer, parse.
  destruct (schema_issues insertVolunteerSchema o); [congruence|reflexivity].
Qed.

Lemma POST_api_guest_rejected (o : list (string * json)) (storage : S) :
  schema_issues insertGuestSchema o <> [] ->
  POST_api_guest (JObject o) storage
  = (res_status_json 400 "Invalid guest data"
       (Some (schema_issues insertGuestSchema o)), storage).
Proof.
  intros Hne. unfold POST_api_guest, parse.
  destruct (schema_issues insertGuestSchema o); [congruence|reflexivity].
Qed.

Lemma POST_api_employee_clock_rejected (o : list (string * json))
    (storage : S) :
  schema_issues insertStaffSchema o <> [] ->
  POST_api_employee_clock (JObject o) storage
  = (res_status_json 400 "Invalid staff data"
       (Some (schema_issues insertStaffSchema o)), storage).
Proof.
  intros Hne. unfold POST_api_employee_clock, parse.
  destruct (schema_issues insertStaffSchema o); [congruence|reflexivity].
Qed.

Lemma missing_required_reported (schema : list column)
    (o : list (string * json)) (k : string) :
  In {| key := k; data := text; notNull := true; hasDefault := false |} schema ->
  obj_get k o = None ->
  In (required_string_issue k) (schema_issues schema o).
Proof.
  intros Hc Hmissing. unfold schema_issues. apply in_flat_map.
  eexists. split; [exact Hc|]. simpl. rewrite Hmissing. left. reflexivity.
Qed.

Lemma In_not_nil {A} (x : A) (l : list A) : In x l -> l <> [].
Proof. intros Hin ->. exact Hin. Qed.

End PostRoutes.

(** X3. The three [POST] routes read of a body the properties of their schema
    and nothing else: two bodies that give these properties the same values
    get the same answer and leave the same storage. A body cannot choose
    the [id] of the record, which is no property of an insert schema. *)
Theorem POST_routes_ignore_other_properties (S : Type) (I : IStorage S)
    (o o' : list (string * Schema.json)) (storage : S) :
  (agree_on Schema.insertVolunteerSchema o o' ->
   POST_api_volunteer (Schema.JObject o) storage
   = POST_api_volunteer (Schema.JObject o') storage)
  /\ (agree_on Schema.insertGuestSchema o o' ->
      POST_api_guest (Schema.JObject o) storage
      = POST_api_guest (Schema.JObject o') storage)
  /\ (agree_on Schema.insertStaffSchema o o' ->
      POST_api_employee_clock (Schema.JObject o) storage
      = POST_api_employee_clock (Schema.JObject o') storage).
Proof.
  split; [|split]; intros Hagree.
  - unfold POST_api_volunteer. rewrite (parse_agree _ o o' Hagree). reflexivity.
  - unfold POST_api_guest. rewrite (parse_agree _ o o' Hagree). reflexivity.
  - unfold POST_api_employee_clock.
    rewrite (parse_agree _ o o' Hagree). reflexivity.
Qed.

Lemma POST_routes_ignore_other_properties_witness :
  POST_api_guest
    (Schema.JObject (("id", Schema.JNumber 99) :: ("admin", Schema.JBool true)
                       :: Sample.weddingWithoutBride)%string)
    MemStorage.constructor
  = POST_api_guest (Schema.JObject Sample.weddingWithoutBride)
                   MemStorage.constructor.
Proof.
  apply (POST_routes_ignore_other_properties MemStorage.t _).
  repeat constructor.
Defined.

(** X4. A [POST] route answers a body that lacks a required property with the
    error 400, leaves the storage as it was, and lists among the errors an
    issue for each required property that is missing, not for the first
    one alone. *)
Theorem POST_routes_report_each_missing_property (S : Type) (I : IStorage S)
    (o : list (string * Schema.json)) (storage : S) (k : string) :
  Schema.obj_get k o = None ->
  (In k ["name"; "date"; "timeIn"; "area"; "activities"]%string ->
   exists errors,
     POST_api_volunteer (Schema.JObject o) storage
     = (res_status_json 400 "Invalid volunteer data" (Some errors), storage)
     /\ In (required_string_issue k) errors)
  /\ (In k ["name"; "email"; "reason"; "date"]%string ->
      exists errors,
        POST_api_guest (Schema.JObject o) storage
        = (res_status_json 400 "Invalid guest data" (Some errors), storage)
        /\ In (required_string_issue k) errors)
  /\ (In k ["name"; "date"]%string ->
      exists errors,
        POST_api_employee_clock (Schema.JObject o) storage
        = (res_status_json 400 "Invalid staff data" (Some errors), storage)
        /\ In (required_string_issue k) errors).
Proof.
  intros Hmissing. split; [|split]; intros Hk.
  - assert (Hin : In (required_string_issue k)
                     (Schema.schema_issues Schema.insertVolunteerSchema o)).
    { apply missing_required_reported; [|exact Hmissing].
      simpl in Hk. repeat (destruct Hk as [<-|Hk]; [simpl; tauto|]).
      contradiction. }
    eexists. split; [|exact Hin].
    apply POST_api_volunteer_rejected. eapply In_not_nil, Hin.
  - assert (Hin : In (required_string_issue k)
                     (Schema.schema_issues Schema.insertGuestSchema o)).
    { apply missing_required_reported; [|exact Hmissing].
      simpl in Hk. repeat (destruct Hk as [<-|Hk]; [simpl; tauto|]).
      contradiction. }
    eexists. split; [|exact Hin].
    apply POST_api_guest_rejected. eapply In_not_nil, Hin.
  - assert (Hin : In (required_string_issue k)
                     (Schema.schema_issues Schema.insertStaffSchema o)).
    { apply missing_required_reported; [|exact Hmissing].
      simpl in Hk. repeat (destruct Hk as [<-|Hk]; [simpl; tauto|]).
      contradiction. }
    eexists. split; [|exact Hin].
    apply POST_api_employee_clock_rejected. eapply In_not_nil, Hin.
Qed.

Lemma POST_routes_report_each_missing_property_witness :
  exists errors,
    POST_api_volunteer
      (Schema.JObject [("name", Schema.JString "Ann")]%string)
      MemStorage.constructor
    = (res_status_json 400 "Invalid volunteer data" (Some errors),
       MemStorage.constructor)
    /\ In (required_string_issue "area") errors.
Proof.
  apply (POST_routes_report_each_missing_property MemStorage.t _
           [("name", Schema.JString "Ann")]%string MemStorage.constructor
           "area" eq_refl).
  simpl. tauto.
Defined.

Lemma acceptable_volunteer_parse (body : Schema.json) :
  if acceptable_volunteer body
  then exists o, body = Schema.JObject o
                 /\ Schema.parse Schema.insertVolunteerSchema body
                    = Return (Schema.strip Schema.insertVolunteerSchema o)
  else exists issues, issues <> []
                      /\ Schema.parse Schema.insertVolunteerSchema body
                         = Throw (Schema.ZodError issues).
Proof.
  destruct (parse_outcome Schema.insertVolunteerSchema body)
    as [(o & -> & Hiss & Hparse) | (issues & Hne & Hparse & Hobj)].
  - rewrite (proj1 (insertVolunteerSchema_ok o) Hiss). exists o. auto.
  - destruct (acceptable_volunteer body) eqn:E; [|exists issues; auto].
    destruct body as [|b|z|s|l|o]; try discriminate E.
    apply insertVolunteerSchema_ok in E.
    rewrite (Hobj o eq_refl) in E. contradiction.
Qed.

Lemma acceptable_guest_parse (body : Schema.json) :
  if acceptable_guest body
  then exists o, body = Schema.JObject o
                 /\ Schema.parse Schema.insertGuestSchema body
                    = Return (Schema.strip Schema.insertGuestSchema o)
  else exists issues, issues <> []
                      /\ Schema.parse Schema.insertGuestSchema body
                         = Throw (Schema.ZodError issues).
Proof.
  destruct (parse_outcome Schema.insertGuestSchema body)
    as [(o & -> & Hiss & Hparse) | (issues & Hne & Hparse & Hobj)].
  - rewrite (proj1 (insertGuestSchema_ok o) Hiss). exists o. auto.
  - destruct (acceptable_guest body) eqn:E; [|exists issues; auto].
    destruct body as [|b|z|s|l|o]; try discriminate E.
    apply insertGuestSchema_ok in E.
    rewrite (Hobj o eq_refl) in E. contradiction.
Qed.

Lemma acceptable_staff_parse (body : Schema.json) :
  if acceptable_staff body
  then exists o, body = Schema.JObject o
                 /\ Schema.parse Schema.insertStaffSchema body
                    = Return (Schema.strip Schema.insertStaffSchema o)
  else exists issues, issues <> []
                      /\ Schema.parse Schema.insertStaffSchema body
                         = Throw (Schema.ZodError issues).
Proof.
  destruct (parse_outcome Schema.insertStaffSchema body)
    as [(o & -> & Hiss & Hparse) | (issues & Hne & Hparse & Hobj)].
  - rewrite (proj1 (insertStaffSchema_ok o) Hiss). exists o. auto.
  - destruct (acceptable_staff body) eqn:E; [|exists issues; auto].
    destruct body as [|b|z|s|l|o]; try discriminate E.
    apply insertStaffSchema_ok in E.
    rewrite (Hobj o eq_refl) in E. contradiction.
Qed.

(** X5. On the in-memory storage a [POST] route creates a record exactly for
    the bodies that are objects in which every required property is a
    string and every optional one is absent, null or of its type: the
    record gets the next identity of its kind and is in the store
    afterwards. Any other body, also one that is no object, is answered
    with the error 400 and a list of issues that is not empty, and the
    storage stays as it was. *)
Theorem POST_routes_accept_exactly (body : Schema.json)
    (this : MemStorage.t) :
  (if acceptable_volunteer body
   then exists volunteer this',
       POST_api_volunteer body this = (res_json volunteer, this')
       /\ Volunteer.id volunteer = MemStorage.currentVolunteerId this
       /\ In volunteer (MemStorage.getVolunteers this')
   else exists errors,
       errors <> []
       /\ POST_api_volunteer body this
          = (res_status_json 400 "Invalid volunteer data" (Some errors), this))
  /\ (if acceptable_guest body
      then exists guest this',
          POST_api_guest body this = (res_json guest, this')
          /\ Guest.id guest = MemStorage.currentGuestId this
          /\ In guest (MemStorage.getGuests this')
      else exists errors,
          errors <> []
          /\ POST_api_guest body this
             = (res_status_json 400 "Invalid guest data" (Some errors), this))
  /\ (if acceptable_staff body
      then exists staff this',
          POST_api_employee_clock body this = (res_json staff, this')
          /\ Staff.id staff = MemStorage.currentStaffId this
          /\ In staff (MemStorage.getStaff this')
      else exists errors,
          errors <> []
          /\ POST_api_employee_clock body this
             = (res_status_json 400 "Invalid staff data" (Some errors), this)).
Proof.
  split; [|split].
  - pose proof (acceptable_volunteer_parse body) as Hp.
    destruct (acceptable_volunteer body).
    + destruct Hp as (o & -> & Hparse). unfold POST_api_volunteer.
      rewrite Hparse. simpl. eexists. eexists.
      split; [reflexivity|]. split; [reflexivity|]. apply Map_In_values_set.
    + destruct Hp as (issues & Hne & Hparse). exists issues.
      split; [exact Hne|]. unfold POST_api_volunteer. rewrite Hparse.
      reflexivity.
  - pose proof (acceptable_guest_parse body) as Hp.
    destruct (acceptable_guest body).
    + destruct Hp as (o & -> & Hparse). unfold POST_api_guest.
      rewrite Hparse. simpl. eexists. eexists.
      split; [reflexivity|]. split; [reflexivity|]. apply Map_In_values_set.
    + destruct Hp as (issues & Hne & Hparse). exists issues.
      split; [exact Hne|]. unfold POST_api_guest. rewrite Hparse.
      reflexivity.
  - pose proof (acceptable_staff_parse body) as Hp.
    destruct (acceptable_staff body).
    + destruct Hp as (o & -> & Hparse). unfold POST_api_employee_clock.
      rewrite Hparse. simpl. eexists. eexists.
      split; [reflexivity|]. split; [reflexivity|]. apply Map_In_values_set.
    + destruct Hp as (issues & Hne & Hparse). exists issues.
      split; [exact Hne|]. unfold POST_api_employee_clock. rewrite Hparse.
      reflexivity.
Qed.

(** ** The list of all people and its keys *)

Lemma getAllPeople_tag_rows (this : MemStorage.t) :
  MemStorage.getAllPeople this =
    (tag_rows PersonType.volunteer (rows_of PersonType.volunteer this)
     ++ tag_rows PersonType.guest (rows_of PersonType.guest this)
     ++ tag_rows PersonType.staff (rows_of PersonType.staff this))%list.
Proof.
  rewrite getAllPeople_app. unfold tag_rows, rows_of.
  rewrite !map_map. reflexivity.
Qed.

Lemma filed_ids_keys {V} (idf : V -> Z) next (m : Map.t V) :
  filed idf next m -> map idf (Map.values m) = Map.keys m.
Proof.
  intros Hf. pose proof (filed_keys _ _ _ Hf) as Hkeys. clear Hf.
  unfold Map.values, Map.keys. rewrite map_map.
  induction Hkeys as [|e m He _ IH]; simpl; [reflexivity|].
  rewrite IH, He. reflexivity.
Qed.

Lemma rows_of_ids (k : PersonType.t) (this : MemStorage.t) :
  Inv this -> map row_id (rows_of k this) = keys_of k this.
Proof.
  intros (Hv & Hg & Hs). destruct k; simpl; rewrite map_map; simpl.
  - apply (filed_ids_keys Volunteer.id _ _ Hv).
  - apply (filed_ids_keys Guest.id _ _ Hg).
  - apply (filed_ids_keys Staff.id _ _ Hs).
Qed.

Lemma keys_of_NoDup (k : PersonType.t) (this : MemStorage.t) :
  Inv this -> NoDup (keys_of k this).
Proof. intros (Hv & Hg & Hs). destruct k; simpl; [apply Hv|apply Hg|apply Hs]. Qed.

Lemma tag_rows_keys (k : PersonType.t) (rows : list PersonRow) :
  map person_key (tag_rows k rows) = map (pair k) (map row_id rows).
Proof. unfold tag_rows. rewrite !map_map. reflexivity. Qed.

Lemma NoDup_map_pair {A B} (a : A) (l : list B) :
  NoDup l -> NoDup (map (pair a) l).
Proof.
  induction 1 as [|b l Hb _ IH]; simpl; constructor; [|exact IH].
  intros Hin. apply in_map_iff in Hin as [b' [E Hin]].
  injection E as <-. contradiction.
Qed.

Lemma In_map_pair {A B} (a a' : A) (b : B) (l : list B) :
  In (a, b) (map (pair a') l) -> a = a'.
Proof.
  intros Hin. apply in_map_iff in Hin as [b' [E _]]. congruence.
Qed.

(** X6. In [getAllPeople()] no two elements have the same [type] and the same
    [id]: the pair of the two is a key of the list, as the rows of the
    people table of the client take it. *)
Theorem getAllPeople_composite_key (this : MemStorage.t) :
  Inv this -> NoDup (map person_key (MemStorage.getAllPeople this)).
Proof.
  intros HI. rewrite getAllPeople_tag_rows, !map_app, !tag_rows_keys.
  rewrite !(rows_of_ids _ _ HI).
  apply NoDup_app; [apply NoDup_map_pair, keys_of_NoDup, HI | |].
  - apply NoDup_app; [apply NoDup_map_pair, keys_of_NoDup, HI | |].
    + apply NoDup_map_pair, keys_of_NoDup, HI.
    + intros [k id] H1 H2.
      apply In_map_pair in H1. apply In_map_pair in H2. congruence.
  - intros [k id] H1 H2. apply In_map_pair in H1.
    apply in_app_or in H2 as [H2|H2]; apply In_map_pair in H2; congruence.
Qed.

Lemma getAllPeople_composite_key_witness :
  NoDup (map person_key (MemStorage.getAllPeople Sample.oneOfEach))
  /\ map (fun p => row_id (row p)) (MemStorage.getAllPeople Sample.oneOfEach)
     = [1; 1; 1]%Z.
Proof.
  split; [|reflexivity].
  apply getAllPeople_composite_key.
  unfold Sample.oneOfEach. apply Inv_run, Inv_constructor.
Defined.

Lemma filter_tag_rows_same (kind : PersonType.t) (id : Z)
    (rows : list PersonRow) :
  filter (fun p => negb (person_is kind id p)) (tag_rows kind rows)
  = tag_rows kind (filter (fun r => negb (Z.eqb id (row_id r))) rows).
Proof.
  unfold tag_rows. rewrite filter_map_comm. f_equal. apply filter_ext.
  intros r. unfold person_is. simpl. destruct kind; reflexivity.
Qed.

Lemma filter_tag_rows_other (kind k : PersonType.t) (id : Z)
    (rows : list PersonRow) :
  k <> kind ->
  filter (fun p => negb (person_is kind id p)) (tag_rows k rows)
  = tag_rows k rows.
Proof.
  intros Hk. apply forallb_filter_id. apply forallb_forall.
  intros p Hp. unfold tag_rows in Hp. apply in_map_iff in Hp as [r [<- _]].
  unfold person_is. simpl. destruct k, kind; try reflexivity; congruence.
Qed.

(** X7. [deletePerson(kind, id)] takes out of [getAllPeople()] the element of
    that [type] and [id] and no other, the others keeping their order; and
    for an element of the list, its [type] and [id] delete it: the answer
    is [true] and the list is one shorter. *)
Theorem deletePerson_in_getAllPeople (kind : PersonType.t) (id : Z)
    (this : MemStorage.t) :
  Inv this ->
  let this' := snd (MemStorage.deletePerson kind id this) in
  MemStorage.getAllPeople this'
  = filter (fun p => negb (person_is kind id p)) (MemStorage.getAllPeople this)
  /\ (forall p, In p (MemStorage.getAllPeople this) ->
        let deleted :=
          MemStorage.deletePerson (type p) (row_id (row p)) this in
        fst deleted = true
        /\ ~ In p (MemStorage.getAllPeople (snd deleted))
        /\ S (List.length (MemStorage.getAllPeople (snd deleted)))
           = List.length (MemStorage.getAllPeople this)).
Proof.
  intros HI this'. subst this'.
  assert (Hfilter : forall kind id,
            MemStorage.getAllPeople (snd (MemStorage.deletePerson kind id this))
            = filter (fun p => negb (person_is kind id p))
                     (MemStorage.getAllPeople this)).
  { clear kind id. intros kind id.
    destruct (deletePerson_rows kind id this HI)
      as (Hrows & _ & _ & Hothers & _).
    rewrite !getAllPeople_tag_rows, !filter_app.
    destruct kind; rewrite Hrows;
      repeat match goal with
             | |- context [rows_of ?k (snd (MemStorage.deletePerson ?kind _ _))] =>
                 rewrite (proj1 (Hothers k ltac:(discriminate)))
             end;
      rewrite filter_tag_rows_same;
      rewrite !filter_tag_rows_other by discriminate; reflexivity. }
  split; [apply Hfilter|].
  intros p Hp deleted. subst deleted.
  destruct (deletePerson_rows (type p) (row_id (row p)) this HI)
    as (_ & Hlen & Hiff & _).
  assert (Hin : In (row p) (rows_of (type p) this)).
  { rewrite getAllPeople_tag_rows in Hp. unfold tag_rows in Hp.
    repeat (apply in_app_or in Hp as [Hp|Hp]);
      apply in_map_iff in Hp as [r [<- Hr]]; exact Hr. }
  assert (Htrue : fst (MemStorage.deletePerson (type p) (row_id (row p)) this)
                  = true).
  { apply Hiff. exists (row p). split; [exact Hin | reflexivity]. }
  split; [exact Htrue|]. split.
  - rewrite Hfilter. intros Hin'. apply filter_In in Hin' as [_ Hneg].
    unfold person_is in Hneg. rewrite Z.eqb_refl in Hneg.
    destruct (type p); discriminate Hneg.
  - rewrite Htrue in Hlen. clear Hfilter.
    rewrite !getAllPeople_tag_rows. unfold tag_rows.
    rewrite !length_app, !length_map.
    destruct (deletePerson_rows (type p) (row_id (row p)) this HI)
      as (_ & _ & _ & Hothers & _).
    destruct (type p);
      repeat match goal with
             | |- context [rows_of ?k (snd (MemStorage.deletePerson ?kind _ _))] =>
                 lazymatch k with
                 | kind => fail
                 | _ => rewrite (proj1 (Hothers k ltac:(discriminate)))
                 end
             end; lia.
Qed.

Lemma deletePerson_in_getAllPeople_witness :
  List.length
    (MemStorage.getAllPeople
       (snd (MemStorage.deletePerson PersonType.guest 1 Sample.oneOfEach)))
  = 2%nat
  /\ MemStorage.getAllPeople
       (snd (MemStorage.deletePerson PersonType.guest 1 Sample.oneOfEach))
     = filter (fun p => negb (person_is PersonType.guest 1 p))
              (MemStorage.getAllPeople Sample.oneOfEach).
Proof.
  split; [reflexivity|].
  apply (deletePerson_in_getAllPeople PersonType.guest 1 Sample.oneOfEach).
  unfold Sample.oneOfEach. apply Inv_run, Inv_constructor.
Defined.

(** ** Identities, one after the other *)

Section Consecutive.
Local Open Scope Z_scope.

Lemma created_from_counter (cs : list call) :
  forall (this : MemStorage.t) (k : PersonType.t),
    created k (fst (run cs this))
    = map (fun i => counter k this + Z.of_nat i)
          (seq 0 (List.length (created k (fst (run cs this))))).
Proof.
  induction cs as [|c cs IH]; intros this k; [reflexivity|].
  rewrite run_cons. cbn [fst]. rewrite created_cons.
  specialize (IH (snd (step c this)) k).
  destruct (step_counter c this k) as [[Hc Hn]|[Hc Hn]];
    rewrite Hc; rewrite Hn in IH; simpl.
  - rewrite Z.add_0_r. f_equal. rewrite <- seq_shift, map_map.
    rewrite IH at 1. apply map_ext. intros i. lia.
  - exact IH.
Qed.

End Consecutive.

(** X8. Whatever is created and deleted on a new [MemStorage], the records of
    one kind get the identities 1, 2, 3, ... in the order of their
    creation: a deletion leaves no identity out and gives none back. *)
Theorem identities_count_from_one (cs : list call) (k : PersonType.t) :
  let ids := created k (fst (run cs MemStorage.constructor)) in
  ids = first_identities (List.length ids)
  /\ counter k (snd (run cs MemStorage.constructor))
     = (1 + Z.of_nat (List.length ids))%Z.
Proof.
  intros ids. subst ids. split.
  - rewrite (created_from_counter cs MemStorage.constructor k) at 1.
    unfold first_identities. rewrite <- seq_shift, map_map.
    apply map_ext. intros i.
    replace (counter k MemStorage.constructor) with 1%Z
      by (destruct k; reflexivity).
    lia.
  - assert (Hgen : forall this,
               counter k (snd (run cs this))
               = (counter k this
                  + Z.of_nat (List.length (created k (fst (run cs this)))))%Z).
    { induction cs as [|c cs IH]; intros this; [simpl; lia|].
      rewrite run_cons. cbn [fst snd]. rewrite created_cons, length_app.
      rewrite IH.
      destruct (step_counter c this k) as [[Hc Hn]|[Hc Hn]];
        rewrite Hc, Hn; simpl List.length; lia. }
    rewrite Hgen. destruct k; reflexivity.
Qed.

(** ** A creation undone by a deletion *)

Lemma Inv_fresh (k : PersonType.t) (this : MemStorage.t) :
  Inv this -> ~ In (counter k this) (keys_of k this).
Proof.
  intros (Hv & Hg & Hs).
  destruct k; simpl; eapply filed_fresh; eassumption.
Qed.

(** X9. Deleting the record that a creation has just returned, by its kind and
    its [id], answers [true] and gives back the three stores as they were
    before the creation; the counter of the kind alone keeps the step it
    made, the two other counters being as they were. *)
Theorem create_then_delete_restores (this : MemStorage.t)
    (v : InsertVolunteer.t) (g : InsertGuest.t) (s : InsertStaff.t) :
  Inv this ->
  (let created := MemStorage.createVolunteer v this in
   let deleted :=
     MemStorage.deletePerson PersonType.volunteer
       (Volunteer.id (fst created)) (snd created) in
   fst deleted = true
   /\ MemStorage.volunteers (snd deleted) = MemStorage.volunteers this
   /\ MemStorage.guests (snd deleted) = MemStorage.guests this
   /\ MemStorage.staff (snd deleted) = MemStorage.staff this
   /\ MemStorage.currentVolunteerId (snd deleted)
      = (MemStorage.currentVolunteerId this + 1)%Z
   /\ MemStorage.currentGuestId (snd deleted) = MemStorage.currentGuestId this
   /\ MemStorage.currentStaffId (snd deleted) = MemStorage.currentStaffId this)
  /\ (let created := MemStorage.createGuest g this in
      let deleted :=
        MemStorage.deletePerson PersonType.guest
          (Guest.id (fst created)) (snd created) in
      fst deleted = true
      /\ MemStorage.volunteers (snd deleted) = MemStorage.volunteers this
      /\ MemStorage.guests (snd deleted) = MemStorage.guests this
      /\ MemStorage.staff (snd deleted) = MemStorage.staff this
      /\ MemStorage.currentGuestId (snd deleted)
         = (MemStorage.currentGuestId this + 1)%Z
      /\ MemStorage.currentVolunteerId (snd deleted)
         = MemStorage.currentVolunteerId this
      /\ MemStorage.currentStaffId (snd deleted)
         = MemStorage.currentStaffId this)
  /\ (let created := MemStorage.createStaff s this in
      let deleted :=
        MemStorage.deletePerson PersonType.staff
          (Staff.id (fst created)) (snd created) in
      fst deleted = true
      /\ MemStorage.volunteers (snd deleted) = MemStorage.volunteers this
      /\ MemStorage.guests (snd deleted) = MemStorage.guests this
      /\ MemStorage.staff (snd deleted) = MemStorage.staff this
      /\ MemStorage.currentStaffId (snd deleted)
         = (MemStorage.currentStaffId this + 1)%Z
      /\ MemStorage.currentVolunteerId (snd deleted)
         = MemStorage.currentVolunteerId this
      /\ MemStorage.currentGuestId (snd deleted)
         = MemStorage.currentGuestId this).
Proof.
  intros HI.
  pose proof (Inv_fresh PersonType.volunteer this HI) as Fv.
  pose proof (Inv_fresh PersonType.guest this HI) as Fg.
  pose proof (Inv_fresh PersonType.staff this HI) as Fs.
  simpl in Fv, Fg, Fs.
  split; [|split]; simpl;
    (split; [apply Map_has_set|]);
    rewrite Map_remove_set_fresh by assumption;
    repeat split.
Qed.

Lemma create_then_delete_restores_witness :
  MemStorage.volunteers
    (snd (MemStorage.deletePerson PersonType.volunteer 2
            (snd (MemStorage.createVolunteer
                    (Sample.checkIn "Bob" "garden") Sample.oneOfEach))))
  = MemStorage.volunteers Sample.oneOfEach.
Proof.
  assert (HI : Inv Sample.oneOfEach).
  { unfold Sample.oneOfEach. apply Inv_run, Inv_constructor. }
  destruct (create_then_delete_restores Sample.oneOfEach
              (Sample.checkIn "Bob" "garden") Sample.historicGuest
              Sample.dayShift HI) as [(_ & Hv & _) _].
  exact Hv.
Defined.

(** ** The names of returning people *)

Lemma createVolunteer_values (i : InsertVolunteer.t) (this : MemStorage.t) :
  Inv this ->
  MemStorage.getVolunteers (snd (MemStorage.createVolunteer i this))
  = (MemStorage.getVolunteers this
     ++ [fst (MemStorage.createVolunteer i this)])%list.
Proof.
  intros HI. unfold MemStorage.getVolunteers. simpl.
  apply Map_values_set_fresh. apply (Inv_fresh PersonType.volunteer this HI).
Qed.

Lemma createGuest_values (i : InsertGuest.t) (this : MemStorage.t) :
  Inv this ->
  MemStorage.getGuests (snd (MemStorage.createGuest i this))
  = (MemStorage.getGuests this ++ [fst (MemStorage.createGuest i this)])%list.
Proof.
  intros HI. unfold MemStorage.getGuests. simpl.
  apply Map_values_set_fresh. apply (Inv_fresh PersonType.guest this HI).
Qed.

Lemma createStaff_values (i : InsertStaff.t) (this : MemStorage.t) :
  Inv this ->
  MemStorage.getStaff (snd (MemStorage.createStaff i this))
  = (MemStorage.getStaff this ++ [fst (MemStorage.createStaff i this)])%list.
Proof.
  intros HI. unfold MemStorage.getStaff. simpl.
  apply Map_values_set_fresh. apply (Inv_fresh PersonType.staff this HI).
Qed.

Lemma names_after_one_more (names : list string) (n : string) :
  let before := sort String.leb (Set_from String.eqb names) in
  let after := sort String.leb (Set_from String.eqb (names ++ [n])) in
  (forall x, In x after <-> x = n \/ In x before)
  /\ (In n before -> after = before).
Proof.
  intros before after. subst before after.
  destruct (unique_sorted_names names) as (Hin & _ & _ & Huniq).
  destruct (unique_sorted_names (names ++ [n])) as (Hin' & _ & Hasc' & _).
  cbv zeta in *.
  assert (Hmem : forall x,
             In x (sort String.leb (Set_from String.eqb (names ++ [n])))
             <-> x = n
                 \/ In x (sort String.leb (Set_from String.eqb names))).
  { intros x. rewrite Hin', Hin, in_app_iff. simpl. intuition. }
  split; [exact Hmem|].
  intros Hn. apply Huniq; [exact Hasc'|].
  intros x. rewrite Hmem, <- Hin. split; [|auto].
  intros [->|Hx]; assumption.
Qed.

(** X10. A check-in puts the name of the volunteer among the names of
    [getUniqueVolunteerNames()] and adds no other; when the name was there
    already, from an earlier check-in, the list stays the same. The names
    of the staff follow the clock records in the same way. *)
Theorem returning_names_after_creation (this : MemStorage.t)
    (v : InsertVolunteer.t) (s : InsertStaff.t) :
  Inv this ->
  (let before := MemStorage.getUniqueVolunteerNames this in
   let after :=
     MemStorage.getUniqueVolunteerNames
       (snd (MemStorage.createVolunteer v this)) in
   (forall n, In n after <-> n = InsertVolunteer.name v \/ In n before)
   /\ (In (InsertVolunteer.name v) before -> after = before))
  /\ (let before := MemStorage.getUniqueStaffNames this in
      let after :=
        MemStorage.getUniqueStaffNames (snd (MemStorage.createStaff s this)) in
      (forall n, In n after <-> n = InsertStaff.name s \/ In n before)
      /\ (In (InsertStaff.name s) before -> after = before)).
Proof.
  intros HI. split.
  - pose proof (createVolunteer_values v this HI) as Hvals.
    unfold MemStorage.getUniqueVolunteerNames.
    unfold MemStorage.getVolunteers in Hvals. rewrite Hvals, map_app.
    apply names_after_one_more.
  - pose proof (createStaff_values s this HI) as Hvals.
    unfold MemStorage.getUniqueStaffNames.
    unfold MemStorage.getStaff in Hvals. rewrite Hvals, map_app.
    apply names_after_one_more.
Qed.

Lemma returning_names_after_creation_witness :
  MemStorage.getUniqueVolunteerNames
    (snd (MemStorage.createVolunteer (Sample.checkIn "Ann" "kitchen")
                                     Sample.oneOfEach))
  = MemStorage.getUniqueVolunteerNames Sample.oneOfEach.
Proof.
  assert (HI : Inv Sample.oneOfEach).
  { unfold Sample.oneOfEach. apply Inv_run, Inv_constructor. }
  destruct (returning_names_after_creation Sample.oneOfEach
              (Sample.checkIn "Ann" "kitchen") Sample.dayShift HI)
    as [[_ Hsame] _].
  apply Hsame. left. reflexivity.
Defined.

(** ** The statistics along creations and deletions *)

Lemma or_null_present (x : optional string) : present (or_null x) = truthy x.
Proof.
  destruct x as [| |[|c s]]; reflexivity.
Qed.

Lemma createStaff_both_present (i : InsertStaff.t) (this : MemStorage.t) :
  both_present (fst (MemStorage.createStaff i this))
  = truthy (InsertStaff.timeIn i) && truthy (InsertStaff.timeOut i).
Proof.
  unfold both_present. simpl.
  rewrite (or_null_present (InsertStaff.timeIn i)).
  rewrite (or_null_present (InsertStaff.timeOut i)). reflexivity.
Qed.

(** X11. [GET /api/stats] on the in-memory storage counts the rows of the
    stores: a new volunteer or guest raises its count by one and changes
    nothing else, a deletion that answers [true] lowers the count of its
    kind by one, and a staff record that lacks one of its two times, as a
    lone clock-in or clock-out does, changes no statistic at all. *)
Theorem stats_follow_the_stores (DateParse : string -> option Z)
    (this : MemStorage.t) :
  Inv this ->
  let stats := stats_of DateParse this in
  GET_api_stats DateParse this = res_json stats
  /\ (forall i,
        stats_of DateParse (snd (MemStorage.createVolunteer i this))
        = {| Stats.volunteers := S (Stats.volunteers stats);
             Stats.guests := Stats.guests stats;
             Stats.hours := Stats.hours stats |})
  /\ (forall i,
        stats_of DateParse (snd (MemStorage.createGuest i this))
        = {| Stats.volunteers := Stats.volunteers stats;
             Stats.guests := S (Stats.guests stats);
             Stats.hours := Stats.hours stats |})
  /\ (forall i,
        truthy (InsertStaff.timeIn i) && truthy (InsertStaff.timeOut i)
        = false ->
        stats_of DateParse (snd (MemStorage.createStaff i this)) = stats)
  /\ (forall id,
        let deleted :=
          MemStorage.deletePerson PersonType.volunteer id this in
        stats
        = {| Stats.volunteers :=
               Stats.volunteers (stats_of DateParse (snd deleted))
               + (if fst deleted then 1 else 0);
             Stats.guests := Stats.guests (stats_of DateParse (snd deleted));
             Stats.hours := Stats.hours (stats_of DateParse (snd deleted)) |})
  /\ (forall id,
        let deleted := MemStorage.deletePerson PersonType.guest id this in
        stats
        = {| Stats.volunteers :=
               Stats.volunteers (stats_of DateParse (snd deleted));
             Stats.guests :=
               Stats.guests (stats_of DateParse (snd deleted))
               + (if fst deleted then 1 else 0);
             Stats.hours := Stats.hours (stats_of DateParse (snd deleted)) |}).
Proof.
  intros HI stats. subst stats.
  split; [reflexivity|]. split; [|split; [|split; [|split]]].
  - intros i. unfold stats_of.
    rewrite (createVolunteer_values i this HI), length_app. simpl.
    rewrite Nat.add_1_r. reflexivity.
  - intros i. unfold stats_of.
    rewrite (createGuest_values i this HI), length_app. simpl.
    rewrite Nat.add_1_r. reflexivity.
  - intros i Hlone. unfold stats_of.
    rewrite (createStaff_values i this HI).
    rewrite (totalHours_without_absent DateParse (MemStorage.getStaff this)
               [] (fst (MemStorage.createStaff i this))).
    + rewrite app_nil_r. reflexivity.
    + rewrite createStaff_both_present. exact Hlone.
  - intros id deleted. subst deleted.
    destruct (deletePerson_rows PersonType.volunteer id this HI)
      as (_ & Hlen & _ & _).
    cbn [rows_of] in Hlen. rewrite !length_map in Hlen.
    unfold stats_of. cbn [Stats.volunteers Stats.guests Stats.hours].
    rewrite <- Hlen. reflexivity.
  - intros id deleted. subst deleted.
    destruct (deletePerson_rows PersonType.guest id this HI)
      as (_ & Hlen & _ & _).
    cbn [rows_of] in Hlen. rewrite !length_map in Hlen.
    unfold stats_of. cbn [Stats.volunteers Stats.guests Stats.hours].
    rewrite <- Hlen. reflexivity.
Qed.

Lemma stats_follow_the_stores_witness :
  stats_of DateModel.Date_parse
    (snd (MemStorage.createStaff Sample.clockIn Sample.oneOfEach))
  = stats_of DateModel.Date_parse Sample.oneOfEach.
Proof.
  assert (HI : Inv Sample.oneOfEach).
  { unfold Sample.oneOfEach. apply Inv_run, Inv_constructor. }
  destruct (stats_follow_the_stores DateModel.Date_parse Sample.oneOfEach HI)
    as (_ & _ & _ & Hlone & _).
  apply Hlone. reflexivity.
Defined.

Section HoursSign.
Variable DateParse : string -> option Z.

Lemma binary_round_aux_sign (sx : bool) (mx ex : Z) (lx : location) :
  match binary_round_aux prec emax sx mx ex lx with
  | S754_nan => True
  | S754_zero s | S754_infinity s | S754_finite s _ _ => s = sx
  end.
Proof.
  unfold binary_round_aux.
  destruct (shr_fexp prec emax mx ex lx) as [mrs' e'].
  destruct (shr_fexp prec emax
              (round_nearest_even (shr_m mrs') (loc_of_shr_record mrs'))
              e' loc_Exact) as [mrs'' e''].
  destruct (shr_m mrs'') as [|m|m]; [reflexivity | | exact I].
  destruct (e'' <=? emax - prec)%Z; reflexivity.
Qed.

Lemma add_not_negative (x y : number) :
  not_negative x -> not_negative y -> not_negative (add x y).
Proof.
  destruct x as [sx|sx| |sx mx ex]; destruct y as [sy|sy| |sy my ey];
    simpl; try (intros -> ->; reflexivity); try (intros; exact I);
    try (intros _ H; exact H); try (intros H _; exact H).
  intros -> ->. unfold add, SFadd. simpl cond_Zopp.
  unfold binary_normalize. simpl Z.add. unfold binary_round.
  destruct (shl_align _ _ _) as [mz ez].
  apply (binary_round_aux_sign false).
Qed.

Lemma Math_max_not_negative (y : number) :
  not_negative (Math_max (of_int 0) y).
Proof.
  change (of_int 0) with (S754_zero false).
  destruct y as [sy|sy| |sy my ey]; simpl; try exact I; try reflexivity;
    destruct sy; reflexivity.
Qed.

Lemma totalHours_step_sign (total : number) (s : Staff.t) :
  not_negative total -> not_negative (totalHours_step DateParse total s).
Proof.
  intros Htotal. destruct (both_present s) eqn:Hp.
  - rewrite (totalHours_step_present DateParse total s Hp).
    apply add_not_negative; [exact Htotal|].
    apply Math_max_not_negative.
  - rewrite (totalHours_step_absent DateParse total s Hp). exact Htotal.
Qed.

Lemma fold_totalHours_sign (rows : list Staff.t) :
  forall total, not_negative total ->
    not_negative (fold_left (totalHours_step DateParse) rows total).
Proof.
  induction rows as [|s rows IH]; intros total Htotal; simpl.
  - exact Htotal.
  - apply IH, totalHours_step_sign, Htotal.
Qed.

End HoursSign.

Lemma Math_round_not_negative (x : number) :
  not_negative x ->
  Math_round x = NaN \/ exists z, (0 <= z)%Z /\ Math_round x = of_int z.
Proof.
  destruct x as [s|s| |s m e]; unfold not_negative.
  - intros ->. right. exists 0%Z. split; [lia | reflexivity].
  - intros ->. right. exists (2 ^ 1024)%Z. split; [lia|].
    vm_compute. reflexivity.
  - intros _. left. reflexivity.
  - intros ->. right. unfold Math_round.
    change (cond_Zopp false (Z.pos m)) with (Z.pos m).
    set (z := if (0 <=? e)%Z then (Z.pos m * 2 ^ e)%Z
              else ((2 * Z.pos m + 2 ^ (- e)) / 2 ^ (1 - e))%Z).
    assert (Hz : (0 <= z)%Z).
    { subst z. destruct (0 <=? e)%Z eqn:He.
      - apply Z.leb_le in He. apply Z.mul_nonneg_nonneg; [lia|].
        apply Z.pow_nonneg. lia.
      - apply Z.leb_gt in He. apply Z.div_pos.
        + assert (0 <= 2 ^ (- e))%Z by (apply Z.pow_nonneg; lia). lia.
        + apply Z.pow_pos_nonneg; lia. }
    destruct (z =? 0)%Z eqn:E.
    + exists 0%Z. split; [lia | reflexivity].
    + exists z. split; [exact Hz | reflexivity].
Qed.

(** X12. The [hours] of the statistics are never negative: they are [NaN] or an
    integer that is at least 0, whatever the times of the staff rows
    are. The integer is given as a double: one that is beyond the doubles
    stands for [Infinity]. *)
Theorem stats_hours_never_negative (DateParse : string -> option Z)
    (staff : list Staff.t) :
  Math_round (totalHours DateParse staff) = NaN
  \/ exists z, (0 <= z)%Z
               /\ Math_round (totalHours DateParse staff) = of_int z.
Proof.
  apply Math_round_not_negative. unfold totalHours.
  apply fold_totalHours_sign. reflexivity.
Qed.

(** ** Listing the volunteers over HTTP *)

Lemma filter_none {A} (f : A -> bool) (l : list A) :
  (forall x, In x l -> f x = false) -> filter f l = [].
Proof.
  induction l as [|a l IH]; intros Hnone; simpl; [reflexivity|].
  rewrite (Hnone a (or_introl eq_refl)). apply IH.
  intros x Hx. apply Hnone. right. exact Hx.
Qed.

(** X13. [GET /api/volunteer] on the in-memory storage answers with the
    volunteers whose [area] is the [category] of the query, in the order of
    the store. Without a [category], with one that is no string, or with
    the empty string, it answers with all the volunteers; a category that
    no volunteer has gives the empty list, not an error. *)
Theorem GET_api_volunteer_by_category (category : queryValue)
    (this : MemStorage.t) :
  GET_api_volunteer category this
  = res_json (filter (category_filter category)
                     (MemStorage.getVolunteers this))
  /\ GET_api_volunteer QUndefined this
     = res_json (MemStorage.getVolunteers this)
  /\ GET_api_volunteer QNested this = res_json (MemStorage.getVolunteers this)
  /\ GET_api_volunteer (QString "") this
     = res_json (MemStorage.getVolunteers this)
  /\ (forall c,
        (forall v, In v (MemStorage.getVolunteers this) ->
                   Volunteer.area v <> c) ->
        c <> ""%string ->
        GET_api_volunteer (QString c) this = res_json []).
Proof.
  assert (Hall : filter (fun _ : Volunteer.t => true)
                        (MemStorage.getVolunteers this)
                 = MemStorage.getVolunteers this).
  { apply forallb_filter_id. apply forallb_forall. reflexivity. }
  split; [|split; [|split; [|split]]]; try reflexivity.
  - destruct category as [|[|a c]|].
    + change (category_filter QUndefined) with (fun _ : Volunteer.t => true).
      rewrite Hall. reflexivity.
    + change (category_filter (QString ""))
        with (fun _ : Volunteer.t => true).
      rewrite Hall. reflexivity.
    + reflexivity.
    + change (category_filter QNested) with (fun _ : Volunteer.t => true).
      rewrite Hall. reflexivity.
  - intros [|a c] Hnone Hne; [congruence|].
    unfold GET_api_volunteer. simpl. f_equal.
    unfold MemStorage.getVolunteersByCategory.
    fold (MemStorage.getVolunteers this).
    apply filter_none. intros v Hv.
    apply String.eqb_neq. apply Hnone, Hv.
Qed.

(** ** The users *)

Lemma find_app {A} (f : A -> bool) (l l' : list A) :
  find f (l ++ l') = match find f l with Some x => Some x | None => find f l' end.
Proof.
  induction l as [|a l IH]; simpl; [reflexivity|].
  destruct (f a); [reflexivity | exact IH].
Qed.

Lemma MemUsers_Inv_constructor : MemUsers.Inv MemUsers.constructor.
Proof. apply filed_empty. Qed.

Lemma MemUsers_Inv_createUser (i : InsertUser.t) (this : MemUsers.t) :
  MemUsers.Inv this -> MemUsers.Inv (snd (MemUsers.createUser i this)).
Proof.
  unfold MemUsers.Inv. simpl. intros Hf. apply (filed_set User.id); auto.
Qed.

Lemma MemUsers_Inv_createUsers (l : list InsertUser.t) :
  forall this, MemUsers.Inv this -> MemUsers.Inv (MemUsers.createUsers l this).
Proof.
  induction l as [|i l IH]; intros this HI; simpl; [exact HI|].
  apply IH, MemUsers_Inv_createUser, HI.
Qed.

(** X14. [getUser] finds the user that [createUser] returned under the [id] it
    was given, with the name and password of the input, and finds under
    any other [id] what it found before. *)
Theorem createUser_then_getUser (i : InsertUser.t) (this : MemUsers.t) :
  let user := fst (MemUsers.createUser i this) in
  let this' := snd (MemUsers.createUser i this) in
  MemUsers.getUser (User.id user) this' = Some user
  /\ User.id user = MemUsers.currentUserId this
  /\ User.username user = InsertUser.username i
  /\ User.password user = InsertUser.password i
  /\ (forall id, id <> User.id user ->
        MemUsers.getUser id this' = MemUsers.getUser id this).
Proof.
  intros user this'. subst user this'. unfold MemUsers.getUser. simpl.
  split; [apply Map_get_set_eq|]. repeat split.
  intros id Hne. apply Map_get_set_ne, Hne.
Qed.

(** X15. [createUser] takes a name that a user already has, the store keeping
    both users, and [getUserByUsername] answers with the earliest user of
    a name: after a creation it finds for every name the user it found
    before, and the new user only for a name that nobody had. A user that
    it finds has the name asked for. *)
Theorem getUserByUsername_finds_the_earliest (i : InsertUser.t)
    (this : MemUsers.t) (username : string) :
  MemUsers.Inv this ->
  let user := fst (MemUsers.createUser i this) in
  let this' := snd (MemUsers.createUser i this) in
  MemUsers.getUserByUsername username this'
  = match MemUsers.getUserByUsername username this with
    | Some earlier => Some earlier
    | None =>
        if String.eqb (InsertUser.username i) username then Some user
        else None
    end
  /\ (forall u, MemUsers.getUserByUsername username this' = Some u ->
                User.username u = username)
  /\ List.length (Map.values (MemUsers.users this'))
     = S (List.length (Map.values (MemUsers.users this)))
  /\ MemUsers.Inv this'.
Proof.
  intros HI user this'. subst user this'.
  pose proof (filed_fresh _ _ _ HI) as Hfresh.
  unfold MemUsers.getUserByUsername. simpl.
  rewrite (Map_values_set_fresh _ _ _ Hfresh).
  split; [|split; [|split]].
  - rewrite find_app. simpl.
    destruct (find _ (Map.values (MemUsers.users this))); reflexivity.
  - intros u Hu. apply find_some in Hu as [_ Hu].
    apply String.eqb_eq in Hu. exact Hu.
  - rewrite length_app. simpl. apply Nat.add_1_r.
  - apply (MemUsers_Inv_createUser i this HI).
Qed.

Lemma getUserByUsername_finds_the_earliest_witness :
  option_map User.password
    (MemUsers.getUserByUsername "pat" twoUsersOfOneName) = Some "first"%string
  /\ List.length (Map.values (MemUsers.users twoUsersOfOneName)) = 2%nat
  /\ MemUsers.Inv twoUsersOfOneName.
Proof.
  split; [reflexivity|]. split; [reflexivity|].
  apply (getUserByUsername_finds_the_earliest
           {| InsertUser.username := "pat"; InsertUser.password := "second" |}
           (MemUsers.createUsers
              [ {| InsertUser.username := "pat";
                   InsertUser.password := "first" |} ]
              MemUsers.constructor) "pat").
  apply MemUsers_Inv_createUsers, MemUsers_Inv_constructor.
Defined.

(* ================================================================= *)
(** * The forms of the client and the routes they post to *)

Section Accepted.
Import Schema.

Lemma inferInsertVolunteer_strip (o : list (string * json)) :
  inferInsertVolunteer (strip insertVolunteerSchema o) = inferInsertVolunteer o.
Proof.
  unfold inferInsertVolunteer, get_string, get_optional_string.
  rewrite !obj_get_strip. reflexivity.
Qed.

Lemma inferInsertGuest_strip (o : list (string * json)) :
  inferInsertGuest (strip insertGuestSchema o) = inferInsertGuest o.
Proof.
  unfold inferInsertGuest, get_string, get_optional_string,
    get_optional_boolean.
  rewrite !obj_get_strip. reflexivity.
Qed.

Lemma inferInsertStaff_strip (o : list (string * json)) :
  inferInsertStaff (strip insertStaffSchema o) = inferInsertStaff o.
Proof.
  unfold inferInsertStaff, get_string, get_optional_string.
  rewrite !obj_get_strip. reflexivity.
Qed.

Lemma POST_api_volunteer_accepted (o : list (string * json))
    (this : MemStorage.t) :
  acceptable_volunteer (JObject o) = true ->
  POST_api_volunteer (JObject o) this
  = (res_json (fst (MemStorage.createVolunteer (inferInsertVolunteer o) this)),
     snd (MemStorage.createVolunteer (inferInsertVolunteer o) this)).
Proof.
  intros Hok. apply insertVolunteerSchema_ok in Hok.
  unfold POST_api_volunteer, parse. rewrite Hok. cbv beta iota delta [bind].
  rewrite inferInsertVolunteer_strip. reflexivity.
Qed.

Lemma POST_api_guest_accepted (o : list (string * json))
    (this : MemStorage.t) :
  acceptable_guest (JObject o) = true ->
  POST_api_guest (JObject o) this
  = (res_json (fst (MemStorage.createGuest (inferInsertGuest o) this)),
     snd (MemStorage.createGuest (inferInsertGuest o) this)).
Proof.
  intros Hok. apply insertGuestSchema_ok in Hok.
  unfold POST_api_guest, parse. rewrite Hok. cbv beta iota delta [bind].
  rewrite inferInsertGuest_strip. reflexivity.
Qed.

Lemma POST_api_employee_clock_accepted (o : list (string * json))
    (this : MemStorage.t) :
  acceptable_staff (JObject o) = true ->
  POST_api_employee_clock (JObject o) this
  = (res_json (fst (MemStorage.createStaff (inferInsertStaff o) this)),
     snd (MemStorage.createStaff (inferInsertStaff o) this)).
Proof.
  intros Hok. apply insertStaffSchema_ok in Hok.
  unfold POST_api_employee_clock, parse. rewrite Hok. cbv beta iota delta [bind].
  rewrite inferInsertStaff_strip. reflexivity.
Qed.

End Accepted.

Lemma truthy_nonempty (s : string) : truthy s = true -> s <> EmptyString.
Proof. intros H ->. discriminate H. Qed.

Lemma append_nonempty (s t : string) :
  s <> EmptyString -> String.append s t <> EmptyString.
Proof. destruct s; [congruence | discriminate]. Qed.

(** X16. What the guest form submits, [POST /api/guest] accepts: the guest is
    created and stored with the purpose of the visit as its [reason]. A
    wedding registration that the form submits has a bride and a groom
    whose names are not empty, the two names joined by " & " as its
    [name], and no newsletter; another registration has a name and an
    email that are not empty, no bride and no groom, and the newsletter
    only when the box is ticked. *)
Theorem guest_form_submission_is_accepted (trim : string -> string)
    (date : string) (st : GuestRegistrationModal.state)
    (data : list (string * Schema.json)) (this : MemStorage.t) :
  GuestRegistrationModal.handleSubmit trim date st = mutate data ->
  exists guest this',
    POST_api_guest (Schema.JObject data) this = (res_json guest, this')
    /\ In guest (MemStorage.getGuests this')
    /\ Guest.reason guest = GuestRegistrationModal.visitPurpose st
    /\ Guest.reason guest <> EmptyString
    /\ Guest.name guest <> EmptyString
    /\ Guest.email guest <> EmptyString
    /\ Guest.date guest = date
    /\ (GuestRegistrationModal.visitPurpose st = "wedding"%string ->
        Guest.name guest
        = (trim (GuestRegistrationModal.brideName st) ++ " & "
           ++ trim (GuestRegistrationModal.groomName st))%string
        /\ Guest.brideName guest
           = Some (trim (GuestRegistrationModal.brideName st))
        /\ trim (GuestRegistrationModal.brideName st) <> EmptyString
        /\ Guest.groomName guest
           = Some (trim (GuestRegistrationModal.groomName st))
        /\ trim (GuestRegistrationModal.groomName st) <> EmptyString
        /\ Guest.joinNewsletter guest = None)
    /\ (GuestRegistrationModal.visitPurpose st <> "wedding"%string ->
        Guest.name guest = trim (GuestRegistrationModal.fullName st)
        /\ Guest.email guest = trim (GuestRegistrationModal.email st)
        /\ Guest.brideName guest = None
        /\ Guest.groomName guest = None
        /\ Guest.tourGuide guest = None
        /\ Guest.joinNewsletter guest
           = if GuestRegistrationModal.joinNewsletter st then Some true
             else None).
Proof.
  unfold GuestRegistrationModal.handleSubmit. intros Hsubmit.
  destruct (truthy (GuestRegistrationModal.visitPurpose st)) eqn:Hpurpose;
    simpl in Hsubmit; [|discriminate].
  apply truthy_nonempty in Hpurpose.
  destruct (String.eqb_spec (GuestRegistrationModal.visitPurpose st) "wedding")
    as [Hwedding|Hother].
  - destruct (truthy (trim (GuestRegistrationModal.brideName st))) eqn:Hb;
      simpl in Hsubmit; [|discriminate].
    destruct (truthy (trim (GuestRegistrationModal.groomName st))) eqn:Hg;
      simpl in Hsubmit; [|discriminate].
    destruct (truthy (trim (GuestRegistrationModal.weddingEmail st))) eqn:He;
      simpl in Hsubmit; [|discriminate].
    injection Hsubmit as <-.
    eexists. eexists. split.
    + apply POST_api_guest_accepted.
      unfold or_undefined.
      destruct (truthy (GuestRegistrationModal.tourGuide st)); reflexivity.
    + split; [apply Map_In_values_set|].
      assert (Hnb := truthy_nonempty _ Hb).
      assert (Hng := truthy_nonempty _ Hg).
      assert (Hne := truthy_nonempty _ He).
      unfold or_undefined.
      destruct (truthy (GuestRegistrationModal.tourGuide st)); simpl;
        rewrite Hb, Hg;
        (split; [reflexivity|]); (split; [exact Hpurpose|]);
        (split; [apply append_nonempty, Hnb|]); (split; [exact Hne|]);
        (split; [reflexivity|]);
        (split; [intros _; repeat split; assumption | congruence]).
  - destruct (truthy (trim (GuestRegistrationModal.fullName st))) eqn:Hn;
      simpl in Hsubmit; [|discriminate].
    destruct (truthy (trim (GuestRegistrationModal.email st))) eqn:He;
      simpl in Hsubmit; [|discriminate].
    injection Hsubmit as <-.
    eexists. eexists. split.
    + apply POST_api_guest_accepted. reflexivity.
    + split; [apply Map_In_values_set|].
      assert (Hnn := truthy_nonempty _ Hn).
      assert (Hne := truthy_nonempty _ He).
      simpl.
      (split; [reflexivity|]); (split; [exact Hpurpose|]);
        (split; [exact Hnn|]); (split; [exact Hne|]);
        (split; [reflexivity|]);
        (split; [congruence|]).
      intros _. repeat split.
      destruct (GuestRegistrationModal.joinNewsletter st); reflexivity.
Qed.

Lemma guest_form_submission_is_accepted_witness :
  exists guest this',
    POST_api_guest
      (Schema.JObject
         [ ("name", Schema.JString "Ann & Bob");
           ("email", Schema.JString "bob@example.org");
           ("reason", Schema.JString "wedding");
           ("joinNewsletter", Schema.JBool false);
           ("brideName", Schema.JString "Ann");
           ("groomName", Schema.JString "Bob");
           ("date", Schema.JString "7/22/2025") ]%string)
      MemStorage.constructor = (res_json guest, this')
    /\ Guest.brideName guest = Some "Ann"%string.
Proof.
  destruct (guest_form_submission_is_accepted (fun s => s) "7/22/2025"
              {| GuestRegistrationModal.visitPurpose := "wedding";
                 GuestRegistrationModal.fullName := "";
                 GuestRegistrationModal.email := "";
                 GuestRegistrationModal.joinNewsletter := false;
                 GuestRegistrationModal.brideName := "Ann";
                 GuestRegistrationModal.groomName := "Bob";
                 GuestRegistrationModal.weddingEmail := "bob@example.org";
                 GuestRegistrationModal.tourGuide := "" |}
              _ MemStorage.constructor eq_refl)
    as (guest & this' & Hpost & _ & _ & _ & _ & _ & _ & Hwedding & _).
  exists guest, this'. split; [exact Hpost|].
  apply (Hwedding eq_refl).
Defined.

(** X17. What the volunteer form submits, [POST /api/volunteer] accepts: the
    volunteer is created with a name, an area and activities that are not
    empty, the time of the submission as [timeIn] and no [timeOut]; the
    list of the volunteers of the selected area holds it afterwards. *)
Theorem volunteer_form_submission_is_accepted (trim : string -> string)
    (date time : string) (st : VolunteerCheckinModal.state)
    (data : list (string * Schema.json)) (this : MemStorage.t) :
  VolunteerCheckinModal.handleSubmit trim date time st = mutate data ->
  exists volunteer this',
    POST_api_volunteer (Schema.JObject data) this = (res_json volunteer, this')
    /\ Volunteer.name volunteer = trim (VolunteerCheckinModal.volunteerName st)
    /\ Volunteer.name volunteer <> EmptyString
    /\ VolunteerCheckinModal.selectedCategory st
       = Some (Volunteer.area volunteer)
    /\ Volunteer.area volunteer <> EmptyString
    /\ Volunteer.activities volunteer
       = trim (VolunteerCheckinModal.activityDescription st)
    /\ Volunteer.activities volunteer <> EmptyString
    /\ Volunteer.date volunteer = date
    /\ Volunteer.timeIn volunteer = time
    /\ Volunteer.timeOut volunteer = None
    /\ In volunteer
          (MemStorage.getVolunteersByCategory (Volunteer.area volunteer)
                                              this').
Proof.
  unfold VolunteerCheckinModal.handleSubmit. intros Hsubmit.
  destruct (truthy (trim (VolunteerCheckinModal.volunteerName st))) eqn:Hn;
    simpl in Hsubmit; [|discriminate].
  destruct (VolunteerCheckinModal.selectedCategory st) as [category|] eqn:Hc;
    [|discriminate].
  destruct (truthy category) eqn:Hcat; simpl in Hsubmit; [|discriminate].
  destruct (truthy (trim (VolunteerCheckinModal.activityDescription st)))
    eqn:Ha; simpl in Hsubmit; [|discriminate].
  injection Hsubmit as <-.
  eexists. eexists. split.
  - apply POST_api_volunteer_accepted. reflexivity.
  - simpl.
    split; [reflexivity|]. split; [apply truthy_nonempty, Hn|].
    split; [reflexivity|]. split; [apply truthy_nonempty, Hcat|].
    split; [reflexivity|]. split; [apply truthy_nonempty, Ha|].
    split; [reflexivity|]. split; [reflexivity|]. split; [reflexivity|].
    unfold MemStorage.getVolunteersByCategory. apply filter_In. split.
    + apply Map_In_values_set.
    + apply String.eqb_refl.
Qed.

Lemma volunteer_form_submission_is_accepted_witness :
  exists volunteer this',
    POST_api_volunteer
      (Schema.JObject
         [ ("name", Schema.JString "Ann");
           ("date", Schema.JString "7/22/2025");
           ("timeIn", Schema.JString "3:45:12 PM");
           ("area", Schema.JString "garden");
           ("activities", Schema.JString "Weeding") ]%string)
      MemStorage.constructor = (res_json volunteer, this')
    /\ Volunteer.timeOut volunteer = None.
Proof.
  destruct (volunteer_form_submission_is_accepted (fun s => s)
              "7/22/2025" "3:45:12 PM"
              {| VolunteerCheckinModal.selectedCategory := Some "garden"%string;
                 VolunteerCheckinModal.activityDescription := "Weeding";
                 VolunteerCheckinModal.volunteerName := "Ann" |}
              _ MemStorage.constructor eq_refl)
    as (volunteer & this' & Hpost & _ & _ & _ & _ & _ & _ & _ & _ & Hout & _).
  exists volunteer, this'. split; [exact Hpost | exact Hout].
Defined.

(** ** The employee clock *)

Lemma stats_after_lone_createStaff (DateParse : string -> option Z)
    (i : InsertStaff.t) (this : MemStorage.t) :
  Inv this ->
  truthy (InsertStaff.timeIn i) && truthy (InsertStaff.timeOut i) = false ->
  stats_of DateParse (snd (MemStorage.createStaff i this))
  = stats_of DateParse this.
Proof.
  intros HI Hlone. unfold stats_of.
  rewrite (createStaff_values i this HI).
  rewrite (totalHours_without_absent DateParse (MemStorage.getStaff this)
             [] (fst (MemStorage.createStaff i this))).
  - rewrite app_nil_r. reflexivity.
  - rewrite createStaff_both_present. exact Hlone.
Qed.

Lemma press_posts_a_lone_time (trim : string -> string) (p : press)
    (data : list (string * Schema.json)) (this : MemStorage.t) :
  submitted trim p = mutate data ->
  exists i,
    POST_api_employee_clock (Schema.JObject data) this
    = (res_json (fst (MemStorage.createStaff i this)),
       snd (MemStorage.createStaff i this))
    /\ truthy (InsertStaff.timeIn i) && truthy (InsertStaff.timeOut i) = false
    /\ InsertStaff.name i = trim (EmployeeClockModal.employeeName (form p))
    /\ InsertStaff.name i <> EmptyString
    /\ (if clockOut p
        then InsertStaff.timeIn i = undefined
             /\ InsertStaff.timeOut i = value (pressTime p)
        else InsertStaff.timeIn i = value (pressTime p)
             /\ InsertStaff.timeOut i = undefined).
Proof.
  unfold submitted, EmployeeClockModal.handleClockOut,
    EmployeeClockModal.handleClockIn.
  intros Hsubmit.
  destruct (truthy (trim (EmployeeClockModal.employeeName (form p)))) eqn:Hn.
  2:{ destruct (clockOut p); discriminate Hsubmit. }
  apply truthy_nonempty in Hn.
  destruct (clockOut p); simpl in Hsubmit; injection Hsubmit as <-;
    eexists; (split; [apply POST_api_employee_clock_accepted;
                      unfold or_undefined;
                      destruct (truthy (trim (EmployeeClockModal.notes (form p))));
                      reflexivity|]);
    unfold or_undefined;
    destruct (truthy (trim (EmployeeClockModal.notes (form p)))); simpl;
    repeat split; try exact Hn; try apply andb_false_r.
Qed.

Lemma clock_all_keeps_stats (DateParse : string -> option Z)
    (trim : string -> string) (presses : list press) :
  forall this, Inv this ->
    Inv (clock_all trim presses this)
    /\ stats_of DateParse (clock_all trim presses this)
       = stats_of DateParse this.
Proof.
  induction presses as [|p presses IH]; intros this HI; simpl;
    [split; [exact HI | reflexivity]|].
  destruct (submitted trim p) as [title description|data] eqn:Hsub;
    [apply IH, HI|].
  destruct (press_posts_a_lone_time trim p data this Hsub)
    as (i & -> & Hlone & _).
  cbn [snd].
  destruct (IH _ (Inv_createStaff i this HI)) as [HI' Hstats].
  split; [exact HI'|].
  rewrite Hstats. apply stats_after_lone_createStaff; assumption.
Qed.

(** X18. A press of the clock-in or clock-out button posts a record with one of
    the two times only, and [POST /api/employee-clock] stores it as a row
    of its own: whatever the sequence of presses, the statistics stay what
    they were, and on a storage that holds nothing else the [hours] are
    0. *)
Theorem clock_presses_add_no_hours (DateParse : string -> option Z)
    (trim : string -> string) (presses : list press) (this : MemStorage.t) :
  Inv this ->
  stats_of DateParse (clock_all trim presses this) = stats_of DateParse this
  /\ GET_api_stats DateParse (clock_all trim presses MemStorage.constructor)
     = res_json {| Stats.volunteers := 0; Stats.guests := 0;
                   Stats.hours := of_int 0 |}
  /\ (forall p data,
        submitted trim p = mutate data ->
        exists staff this',
          POST_api_employee_clock (Schema.JObject data) this
          = (res_json staff, this')
          /\ Staff.name staff <> EmptyString
          /\ (Staff.timeIn staff = None \/ Staff.timeOut staff = None)
          /\ MemStorage.getStaff this'
             = (MemStorage.getStaff this ++ [staff])%list).
Proof.
  intros HI. split; [|split].
  - apply clock_all_keeps_stats, HI.
  - change (GET_api_stats DateParse
              (clock_all trim presses MemStorage.constructor))
      with (res_json (stats_of DateParse
                        (clock_all trim presses MemStorage.constructor))).
    rewrite (proj2 (clock_all_keeps_stats DateParse trim presses
                      MemStorage.constructor Inv_constructor)).
    reflexivity.
  - intros p data Hsub.
    destruct (press_posts_a_lone_time trim p data this Hsub)
      as (i & Hpost & _ & _ & Hname & Htimes).
    eexists. eexists. split; [exact Hpost|].
    split; [exact Hname|]. split.
    + simpl. destruct (clockOut p); destruct Htimes as [Hin Hout].
      * left. rewrite Hin. reflexivity.
      * right. rewrite Hout. reflexivity.
    + apply createStaff_values, HI.
Qed.

Lemma clock_presses_add_no_hours_witness :
  Stats.hours
    (stats_of DateModel.Date_parse
       (clock_all (fun s => s)
          [ {| clockOut := false;
               form := {| EmployeeClockModal.employeeName := "Pat";
                          EmployeeClockModal.notes := "" |};
               pressDate := "7/22/2025"; pressTime := "9:00:00 AM" |};
            {| clockOut := true;
               form := {| EmployeeClockModal.employeeName := "Pat";
                          EmployeeClockModal.notes := "" |};
               pressDate := "7/22/2025"; pressTime := "5:00:00 PM" |} ]%string
          Sample.oneShift))
  = of_int 8.
Proof.
  rewrite (proj1 (clock_presses_add_no_hours DateModel.Date_parse
                    (fun s => s) _ Sample.oneShift
                    ltac:(unfold Sample.oneShift;
                          apply Inv_run, Inv_constructor))).
  reflexivity.
Defined.

(* ================================================================= *)
(** * The order of the rows and repeated deletions *)

Section Order.
Local Open Scope Z_scope.

Lemma StronglySorted_filter (f : Z -> bool) (l : list Z) :
  StronglySorted Z.lt l -> StronglySorted Z.lt (filter f l).
Proof.
  induction 1 as [|a l Hs IH Hall]; simpl; [constructor|].
  destruct (f a); [|exact IH]. constructor; [exact IH|].
  rewrite Forall_forall in *. intros x Hx.
  apply filter_In in Hx as [Hx _]. auto.
Qed.

Lemma StronglySorted_snoc (l : list Z) (x : Z) :
  StronglySorted Z.lt l -> Forall (fun y => y < x) l ->
  StronglySorted Z.lt (l ++ [x]).
Proof.
  induction 1 as [|a l Hs IH Hall]; intros Hlt; simpl.
  - constructor; constructor.
  - apply Forall_cons_iff in Hlt as [Ha Hlt]. constructor; [apply IH, Hlt|].
    apply Forall_app. split; [exact Hall | constructor; [exact Ha|constructor]].
Qed.

Lemma filed_keys_below {V} (idf : V -> Z) next (m : Map.t V) :
  filed idf next m -> Forall (fun y => y < next) (Map.keys m).
Proof.
  intros [_ Hall]. unfold Map.keys. apply Forall_map.
  eapply Forall_impl; [|exact Hall]. simpl. tauto.
Qed.

Lemma keys_of_below (k : PersonType.t) (this : MemStorage.t) :
  Inv this -> Forall (fun y => y < counter k this) (keys_of k this).
Proof.
  intros (Hv & Hg & Hs). destruct k; simpl;
    eapply filed_keys_below; eassumption.
Qed.

Lemma step_keys (c : call) (this : MemStorage.t) (k : PersonType.t) :
  Inv this ->
  keys_of k (snd (step c this)) = (keys_of k this ++ [counter k this])%list
  \/ exists f, keys_of k (snd (step c this)) = filter f (keys_of k this).
Proof.
  intros HI.
  assert (Hid : exists f, keys_of k this = filter f (keys_of k this)).
  { exists (fun _ => true). symmetry. apply forallb_filter_id.
    apply forallb_forall. reflexivity. }
  pose proof (Inv_fresh k this HI) as Hfresh.
  destruct c as [i|i|i|k' id]; destruct k; simpl in *;
    try (right; exact Hid);
    try (left; rewrite Map_keys_set;
         destruct (Map.has _ _) eqn:E;
         [apply Map_has_In in E; contradiction | reflexivity]).
  all: destruct k'; simpl; try (right; exact Hid);
    right; eexists; apply Map_keys_remove.
Qed.

Lemma run_keys_sorted (cs : list call) :
  forall (this : MemStorage.t) (k : PersonType.t),
    Inv this -> StronglySorted Z.lt (keys_of k this) ->
    StronglySorted Z.lt (keys_of k (snd (run cs this))).
Proof.
  induction cs as [|c cs IH]; intros this k HI Hs; [exact Hs|].
  rewrite run_cons. cbn [snd]. apply IH; [apply Inv_step, HI|].
  destruct (step_keys c this k HI) as [-> | [f ->]].
  - apply StronglySorted_snoc; [exact Hs | apply keys_of_below, HI].
  - apply StronglySorted_filter, Hs.
Qed.

End Order.

(** X19. Whatever is created and deleted on a new [MemStorage], each store
    gives its rows in the order of their identities, strictly ascending,
    which is the order of their creation; so do the three parts of
    [getAllPeople()]. *)
Theorem rows_in_identity_order (cs : list call) (k : PersonType.t) :
  StronglySorted Z.lt
    (map row_id (rows_of k (snd (run cs MemStorage.constructor)))).
Proof.
  rewrite rows_of_ids by apply Inv_run, Inv_constructor.
  apply run_keys_sorted; [apply Inv_constructor|].
  destruct k; constructor.
Qed.

(** X20. Deleting the same person a second time answers [false] and
    changes nothing, whatever the first deletion answered; and after a
    deletion no row of that kind has that identity. *)
Theorem deletePerson_twice (kind : PersonType.t) (id : Z)
    (this : MemStorage.t) :
  let once := snd (MemStorage.deletePerson kind id this) in
  MemStorage.deletePerson kind id once = (false, once)
  /\ ~ In id (keys_of kind once).
Proof.
  intros once. subst once.
  assert (Hgone : ~ In id (keys_of kind
                             (snd (MemStorage.deletePerson kind id this)))).
  { destruct kind; simpl; rewrite Map_keys_remove; intros Hin;
      apply filter_In in Hin as [_ Hin]; rewrite Z.eqb_refl in Hin;
      discriminate Hin. }
  split; [|exact Hgone].
  assert (Hfalse : fst (MemStorage.deletePerson kind id
                          (snd (MemStorage.deletePerson kind id this)))
                   = false).
  { destruct kind; simpl; unfold Map.has; rewrite Map_get_remove_eq;
      reflexivity. }
  pose proof (deletePerson_absent kind id _ Hfalse) as Hsame.
  destruct (MemStorage.deletePerson kind id
              (snd (MemStorage.deletePerson kind id this))) as [b s'].
  simpl in Hfalse, Hsame. subst b s'. reflexivity.
Qed.
